(** * MemoryGame asset tools: the card image processor

    A shallow embedding of [tools/process_assets.py] and the properties of
    its crop / downscale / quantize / upscale pipeline, of the contact sheet
    layout and of the batch driver [main]. *)

From Stdlib Require Import ZArith QArith Qround Lia List String Ascii Floats.
From stdpp Require Import base list gmap strings pretty.

Local Open Scope Z_scope.
Set Warnings "-register-all".

(** ** Python numbers

    Card and raster dimensions are Python [int]s (unbounded, [Z]).  The two
    places where the script goes through [float] multiply or divide an image
    dimension by the constant 0.75; the value is kept here as the exact
    rational.  On binary64 the product [h * 0.75] is exact whenever
    [3 * h < 2^53] and the quotient [w / 0.75] is within half an ulp of a
    number whose fractional part is 0, 1/3 or 2/3, so truncation and rounding
    give the same integers as on the rationals for every dimension a raster
    can have. *)
Module Py.

(** [int(x)] on a float: truncation towards zero. *)
Definition int (x : Q) : Z := Z.quot (Qnum x) (Z.pos (Qden x)).

(** [round(x)] on a float: nearest integer, ties to the even one. *)
Definition round (x : Q) : Z :=
  let f := Qfloor x in
  match Qcompare (x - inject_Z f) (1 # 2) with
  | Lt => f
  | Gt => f + 1
  | Eq => if Z.even f then f else f + 1
  end.

(** [a / b] on two ints (true division). *)
Definition truediv (a b : Z) : Q := (inject_Z a / inject_Z b)%Q.

(** [int * float]. *)
Definition mulf (a : Z) (x : Q) : Q := (inject_Z a * x)%Q.

(** [int / float]. *)
Definition divf (a : Z) (x : Q) : Q := (inject_Z a / x)%Q.

(** [x > y] on floats. *)
Definition gtf (x y : Q) : bool := negb (Qle_bool x y).

(** The same operations on binary64, to compare the two at sample values:
    [float(n)] for an int of machine size and [int(x)]. *)
Definition float_of_int (n : Z) : float :=
  if n <? 0 then PrimFloat.opp (PrimFloat.of_uint63 (Uint63.of_Z (- n)))
  else PrimFloat.of_uint63 (Uint63.of_Z n).

Definition float_int (x : float) : Z :=
  match Prim2SF x with
  | S754_finite s m e =>
      let v := if 0 <=? e then Z.pos m * 2 ^ e else Z.pos m / 2 ^ (- e) in
      if s then - v else v
  | _ => 0
  end.

(** [3.0 / 4.0] *)
Definition ratio64 : float := (3 / 4)%float.

(** Exceptions the script can meet, and the part of their class
    hierarchy that its [except] clauses look at. *)
Inductive exn : Set :=
| FileNotFoundError
| UnidentifiedImageError
| JSONDecodeError
| AttributeError
| ValueError
| ZeroDivisionError.

(** [isinstance(e, OSError)] *)
Definition is_OSError (e : exn) : bool :=
  match e with
  | FileNotFoundError | UnidentifiedImageError => true
  | _ => false
  end.

(** [c.isspace()] for a code point below 256. *)
Definition isspace (c : ascii) : bool :=
  let n := Z.of_nat (nat_of_ascii c) in
  ((9 <=? n) && (n <=? 13)) || ((28 <=? n) && (n <=? 32))
  || (n =? 133) || (n =? 160).

Fixpoint lstrip (s : string) : string :=
  match s with
  | EmptyString => EmptyString
  | String c s' => if isspace c then lstrip s' else s
  end.

Fixpoint rstrip (s : string) : string :=
  match s with
  | EmptyString => EmptyString
  | String c s' =>
      match rstrip s' with
      | EmptyString => if isspace c then EmptyString else String c EmptyString
      | t => String c t
      end
  end.

(** [s.strip()] *)
Definition strip (s : string) : string := rstrip (lstrip s).

End Py.

(** A computation that returns a value or raises. *)
Abbreviation result A := (sum A Py.exn).
Abbreviation Ok x := (inl x) (only parsing).
Abbreviation Raise e := (inr e) (only parsing).

(** ** Rasters

    A decoded image is its size and its pixel buffer in row-major order, as
    Pillow holds it. *)
Definition color : Type := Z * Z * Z.

Record Raster : Type := mkRaster {
  width : Z;
  height : Z;
  pixels : list color
}.

Definition black : color := (0, 0, 0).

Definition in_bounds (w h x y : Z) : bool :=
  (0 <=? x) && (x <? w) && (0 <=? y) && (y <? h).

(** [image.getpixel((x, y))]; black is what Pillow's transforms leave where
    they read outside the buffer. *)
Definition get_pixel (r : Raster) (x y : Z) : color :=
  if in_bounds (width r) (height r) x y
  then nth (Z.to_nat (y * width r + x)) (pixels r) black
  else black.

(** A [w] by [h] raster whose pixel at [(x, y)] is [f x y]. *)
Definition make_raster (w h : Z) (f : Z -> Z -> color) : Raster :=
  {| width := w;
     height := h;
     pixels := List.map (fun i : nat => f (Z.of_nat i mod w) (Z.of_nat i / w))
                        (seq 0 (Z.to_nat w * Z.to_nat h)) |}.

(** The buffer has one pixel per position. *)
Definition wf_raster (r : Raster) : Prop :=
  length (pixels r) = (Z.to_nat (width r) * Z.to_nat (height r))%nat.

(** The distinct colours of a raster, in scan order. *)
Definition palette (r : Raster) : list color := remove_dups (pixels r).

(** ** The Pillow operations the script calls *)
Module PIL.

(** [image.crop((left, upper, right, lower))] *)
Definition crop (r : Raster) (left upper right lower : Z) : result Raster :=
  if (right <? left) || (lower <? upper) then Raise Py.ValueError
  else Ok (make_raster (right - left) (lower - upper)
             (fun x y => get_pixel r (left + x) (upper + y))).

(** [image.resize((w, h), Image.Resampling.NEAREST)]: the output pixel
    [(x, y)] copies the source pixel under its centre. *)
Definition resize_nearest (r : Raster) (w h : Z) : result Raster :=
  if (w <? 1) || (h <? 1) then Raise Py.ValueError
  else Ok (make_raster w h
             (fun x y => get_pixel r (((2 * x + 1) * width r) / (2 * w))
                                     (((2 * y + 1) * height r) / (2 * h)))).

(** [Image.new("RGB", (w, h), color=c)] *)
Definition new (w h : Z) (c : color) : result Raster :=
  if (w <? 0) || (h <? 0) then Raise Py.ValueError
  else Ok (make_raster w h (fun _ _ => c)).

(** [sheet.paste(tile, (x0, y0))]: the tile replaces the region of its own
    size at [(x0, y0)], clipped to the sheet. *)
Definition paste (sheet tile : Raster) (x0 y0 : Z) : Raster :=
  make_raster (width sheet) (height sheet)
    (fun x y => if in_bounds (width tile) (height tile) (x - x0) (y - y0)
                then get_pixel tile (x - x0) (y - y0)
                else get_pixel sheet x y).

(** [image.quantize(colors=k, method=Image.Quantize.MEDIANCUT).convert("RGB")]
    Pillow accepts between 1 and 256 colours and raises [ValueError]
    otherwise; which colours the median cut keeps is the library's
    business, so the palette selection [cut] is a parameter. *)
Definition quantize (cut : Z -> Raster -> Raster) (k : Z) (r : Raster)
  : result Raster :=
  if (k <? 1) || (256 <? k) then Raise Py.ValueError
  else Ok (cut k r).

End PIL.

(** ** center_crop_to_ratio *)
Definition center_crop_to_ratio (image : Raster) (target_ratio : Q)
  : result Raster :=
  let width := width image in
  let height := height image in
  if height =? 0 then Raise Py.ZeroDivisionError else
  let current_ratio := Py.truediv width height in
  if Py.gtf current_ratio target_ratio then
    let new_width := Py.int (Py.mulf height target_ratio) in
    let x0 := (width - new_width) / 2 in
    PIL.crop image x0 0 (x0 + new_width) height
  else
    if Qeq_bool target_ratio 0 then Raise Py.ZeroDivisionError else
    let new_height := Py.int (Py.divf width target_ratio) in
    let y0 := (height - new_height) / 2 in
    PIL.crop image 0 y0 width (y0 + new_height).


(** ** Manifest values

    What [json.load] returns: [None], [bool], [int], [float], [str], [list]
    and [dict].  A float is carried by the text Python prints for it; a dict
    by its items. *)
Inductive json : Type :=
| JNull
| JBool (b : bool)
| JInt (n : Z)
| JFloat (text : string)
| JStr (s : string)
| JList (items : list json)
| JObj (fields : list (string * json)).

(** [d.get(key, default)] *)
Fixpoint dict_get (fields : list (string * json)) (key : string) (default : json)
  : json :=
  match fields with
  | [] => default
  | (k, v) :: rest => if String.eqb k key then v else dict_get rest key default
  end.

(** [key in d] *)
Definition has_key (fields : list (string * json)) (key : string) : bool :=
  existsb (fun kv => String.eqb (fst kv) key) fields.

(** [", ".join(parts)] *)
Fixpoint join_comma (parts : list string) : string :=
  match parts with
  | [] => ""
  | [p] => p
  | p :: rest => p +:+ ", " +:+ join_comma rest
  end.

(** [repr(v)]; text is quoted the way Python quotes a string that has no
    quote, backslash or control character in it. *)
Fixpoint py_repr (v : json) : string :=
  match v with
  | JNull => "None"
  | JBool true => "True"
  | JBool false => "False"
  | JInt n => pretty n
  | JFloat text => text
  | JStr s => "'" +:+ s +:+ "'"
  | JList items => "[" +:+ join_comma (List.map py_repr items) +:+ "]"
  | JObj fields =>
      "{" +:+ join_comma
                (List.map (fun kv => "'" +:+ fst kv +:+ "': " +:+ py_repr (snd kv))
                          fields) +:+ "}"
  end.

(** [str(v)] *)
Definition py_str (v : json) : string :=
  match v with
  | JStr s => s
  | _ => py_repr v
  end.

(** ** Files

    The three directories the script touches.  A file is seen through the
    decoder that reads it: a JSON document, a raster, or bytes that neither
    decoder accepts.  Next to the directories the model keeps the history of
    every [image.save], oldest first, so that what a run writes can be told
    from what was there before.

    A path is a directory and the name of a file in it.  The names the
    script builds from a slug are joined to the directory as they are: this
    is the file pathlib names when the slug is a plain file name, which is
    what the manifest's slugs are; a slug with a path separator in it would
    name a file of another directory. *)
Inductive file : Type :=
| FJson (data : json)
| FImage (image : Raster)
| FOther.

Inductive folder : Set := SOURCE_DIR | PROCESSED_DIR.

Definition path : Type := folder * string.

Record Files : Type := mkFiles {
  cards_json : option file;            (* CARDS_PATH *)
  source_dir : gmap string file;       (* SOURCE_DIR *)
  processed_dir : gmap string file;    (* PROCESSED_DIR *)
  saved : list (path * Raster)         (* the images saved so far *)
}.

Definition read_file (fs : Files) (p : path) : option file :=
  match fst p with
  | SOURCE_DIR => source_dir fs !! snd p
  | PROCESSED_DIR => processed_dir fs !! snd p
  end.

(** [Image.open(p)] followed by the load of its pixels as RGB.  A raster is
    one Pillow decodes: its size is below Pillow's limit on the number of
    pixels. *)
Definition Image_open (fs : Files) (p : path) : result Raster :=
  match read_file fs p with
  | None => Raise Py.FileNotFoundError
  | Some (FImage r) => Ok r
  | Some _ => Raise Py.UnidentifiedImageError
  end.

(** [image.save(p, format="PNG")]; the write is taken to succeed. *)
Definition Image_save (fs : Files) (p : path) (r : Raster) : Files :=
  match fst p with
  | SOURCE_DIR =>
      {| cards_json := cards_json fs;
         source_dir := <[snd p := FImage r]> (source_dir fs);
         processed_dir := processed_dir fs;
         saved := saved fs ++ [(p, r)] |}
  | PROCESSED_DIR =>
      {| cards_json := cards_json fs;
         source_dir := source_dir fs;
         processed_dir := <[snd p := FImage r]> (processed_dir fs);
         saved := saved fs ++ [(p, r)] |}
  end.

(** ** load_cards *)
Definition load_cards (fs : Files) : result (list json) :=
  match cards_json fs with
  | None => Raise Py.FileNotFoundError
  | Some (FJson data) =>
      match data with
      | JObj fields =>
          let cards := dict_get fields "cards" (JList []) in
          match cards with
          | JList items => Ok items
          | _ => Raise Py.ValueError
          end
      | _ => Raise Py.AttributeError
      end
  | Some _ => Raise Py.JSONDecodeError
  end.

(** ** find_source_image *)
Definition extensions : list string := [".png"; ".jpg"; ".jpeg"; ".webp"].

Fixpoint first_existing (fs : Files) (slug : string) (exts : list string)
  : option path :=
  match exts with
  | [] => None
  | ext :: rest =>
      let candidate := (SOURCE_DIR, slug +:+ ext) in
      match read_file fs candidate with
      | Some _ => Some candidate
      | None => first_existing fs slug rest
      end
  end.

Definition find_source_image (fs : Files) (slug : string) : option path :=
  first_existing fs slug extensions.

(** ** create_contact_sheet *)
Definition columns : Z := 4.
Definition margin : Z := 12.
Definition sheet_color : color := (20, 20, 26).

(** The [for index, output in enumerate(outputs)] loop, from [index] on. *)
Fixpoint paste_tiles (fs : Files) (outputs : list path) (index : Z)
    (tile_width tile_height : Z) (sheet : Raster) : result Raster :=
  match outputs with
  | [] => Ok sheet
  | output :: rest =>
      match Image_open fs output with
      | Raise e => Raise e
      | Ok tile =>
          let row := index / columns in
          let column := index mod columns in
          let x := margin + column * (tile_width + margin) in
          let y := margin + row * (tile_height + margin) in
          paste_tiles fs rest (index + 1) tile_width tile_height
                      (PIL.paste sheet tile x y)
      end
  end.

Definition create_contact_sheet (outputs : list path) (destination : path)
    (tile_width tile_height : Z) (fs : Files) : Files * result unit :=
  match outputs with
  | [] => (fs, Ok tt)
  | _ =>
      let rows := (Z.of_nat (length outputs) + columns - 1) / columns in
      match PIL.new (columns * tile_width + (columns + 1) * margin)
                    (rows * tile_height + (rows + 1) * margin) sheet_color with
      | Raise e => (fs, Raise e)
      | Ok sheet =>
          match paste_tiles fs outputs 0 tile_width tile_height sheet with
          | Raise e => (fs, Raise e)
          | Ok sheet' => (Image_save fs destination sheet', Ok tt)
          end
      end
  end.

(** ** The command line and what a run prints *)
Record Args : Type := mkArgs {
  arg_height : Z;          (* --height, default 256 *)
  arg_pixel_height : Z;    (* --pixel-height, default 64 *)
  arg_quantize : Z;        (* --quantize, default 28 *)
  arg_contact_sheet : bool (* --contact-sheet *)
}.

Inductive event : Type :=
| ErrManifest (exc : Py.exn)           (* Failed to load cards manifest *)
| ErrHeights                           (* --height and --pixel-height must be > 0 *)
| ErrMalformed (card : json)           (* Skipping malformed manifest entry *)
| ErrMissing (slug : string)           (* Missing source image for slug *)
| OutProcessed (name : string) (destination : path)
| ErrFailed (slug : string) (exc : Py.exn)
| OutContactSheet (destination : path) (* Generated contact sheet *)
| OutDone (processed failed : Z).      (* Done. processed=.. failed=.. *)

(** How a run ends: [main] returns its exit code, or an exception that no
    handler catches ends the interpreter, which exits with status 1. *)
Inductive outcome : Type :=
| Returned (code : Z)
| Uncaught (exc : Py.exn).

Definition exit_status (o : outcome) : Z :=
  match o with
  | Returned code => code
  | Uncaught _ => 1
  end.

(** The variables of [main]'s loop. *)
Record LoopState : Type := mkLoop {
  files : Files;
  processed_files : list path;
  failures : Z;
  printed : list event
}.

(** The text of a card's [slug] and [name]:
    [str(card.get("slug", "")).strip()] and
    [str(card.get("name", slug)).strip()]. *)
Definition card_slug (fields : list (string * json)) : string :=
  Py.strip (py_str (dict_get fields "slug" (JStr ""))).

Definition card_name (fields : list (string * json)) : string :=
  Py.strip (py_str (dict_get fields "name" (JStr (card_slug fields)))).

(** [PROCESSED_DIR / f"{slug}.png"] *)
Definition destination_of (slug : string) : path :=
  (PROCESSED_DIR, slug +:+ ".png").

(** Where the image of a card goes. *)
Definition card_destination (card : json) : path :=
  match card with
  | JObj fields => destination_of (card_slug fields)
  | _ => destination_of ""
  end.

Section Pipeline.

(** Pillow's median-cut palette reduction of a raster to [k] colours. *)
Variable median_cut : Z -> Raster -> Raster.

(** ** process_one: the transform of the opened raster ... *)
Definition transform (image : Raster)
    (final_width final_height pixel_width pixel_height quantize : Z)
  : result Raster :=
  (* image.convert("RGB") leaves a decoded RGB raster as it is *)
  match center_crop_to_ratio image (3 # 4) with
  | Raise e => Raise e
  | Ok image =>
  match PIL.resize_nearest image pixel_width pixel_height with
  | Raise e => Raise e
  | Ok image =>
  match PIL.quantize median_cut (Z.max 2 quantize) image with
  | Raise e => Raise e
  | Ok image => PIL.resize_nearest image final_width final_height
  end end end.

(** ... and the whole function, on the files. *)
Definition process_one (source destination : path)
    (final_width final_height pixel_width pixel_height quantize : Z)
    (fs : Files) : Files * result unit :=
  match Image_open fs source with
  | Raise e => (fs, Raise e)
  | Ok image =>
      match transform image final_width final_height
                      pixel_width pixel_height quantize with
      | Raise e => (fs, Raise e)
      | Ok image => (Image_save fs destination image, Ok tt)
      end
  end.

(** ** main *)

(** One turn of [for card in cards]; [Some e] when [e] escapes the loop. *)
Definition card_step (args : Args)
    (final_width final_height pixel_width pixel_height : Z)
    (card : json) (st : LoopState) : LoopState * option Py.exn :=
  match card with
  | JObj fields =>
      let slug := card_slug fields in
      let name := card_name fields in
      if String.eqb slug "" then
        ({| files := files st;
            processed_files := processed_files st;
            failures := failures st + 1;
            printed := printed st ++ [ErrMalformed card] |}, None)
      else
        match find_source_image (files st) slug with
        | None =>
            ({| files := files st;
                processed_files := processed_files st;
                failures := failures st + 1;
                printed := printed st ++ [ErrMissing slug] |}, None)
        | Some source =>
            let destination := destination_of slug in
            match process_one source destination final_width final_height
                              pixel_width pixel_height (arg_quantize args)
                              (files st) with
            | (fs, Ok _) =>
                ({| files := fs;
                    processed_files := processed_files st ++ [destination];
                    failures := failures st;
                    printed := printed st ++ [OutProcessed name destination] |},
                 None)
            | (fs, Raise exc) =>
                if Py.is_OSError exc then
                  ({| files := fs;
                      processed_files := processed_files st;
                      failures := failures st + 1;
                      printed := printed st ++ [ErrFailed slug exc] |}, None)
                else
                  ({| files := fs;
                      processed_files := processed_files st;
                      failures := failures st;
                      printed := printed st |}, Some exc)
            end
        end
  | _ => (st, Some Py.AttributeError)   (* card.get on a non-dict *)
  end.

Fixpoint process_cards (args : Args)
    (final_width final_height pixel_width pixel_height : Z)
    (cards : list json) (st : LoopState) : LoopState * option Py.exn :=
  match cards with
  | [] => (st, None)
  | card :: rest =>
      match card_step args final_width final_height pixel_width pixel_height
                      card st with
      | (st', None) =>
          process_cards args final_width final_height pixel_width pixel_height
                        rest st'
      | stop => stop
      end
  end.

(** A card that [main] processes without a failure: a dict with a slug,
    a source image that decodes, and a transform that returns. *)
Definition processes_ok (args : Args) (fs : Files) (card : json) : bool :=
  let final_height := arg_height args in
  let final_width := Z.max 1 (Py.round (Py.mulf final_height (3 # 4))) in
  let pixel_height := arg_pixel_height args in
  let pixel_width := Z.max 1 (Py.round (Py.mulf pixel_height (3 # 4))) in
  match card with
  | JObj fields =>
      negb (String.eqb (card_slug fields) "") &&
      match find_source_image fs (card_slug fields) with
      | Some source =>
          match Image_open fs source with
          | Ok image =>
              match transform image final_width final_height
                              pixel_width pixel_height (arg_quantize args) with
              | Ok _ => true
              | Raise _ => false
              end
          | Raise _ => false
          end
      | None => false
      end
  | _ => false
  end.

Definition contact_sheet_path : path := (PROCESSED_DIR, "contact_sheet.png").

Definition main (args : Args) (fs : Files) : Files * list event * outcome :=
  (* PROCESSED_DIR.mkdir(parents=True, exist_ok=True) changes no file *)
  match load_cards fs with
  | Raise exc => (fs, [ErrManifest exc], Returned 1)
  | Ok cards =>
      if (arg_pixel_height args <=? 0) || (arg_height args <=? 0) then
        (fs, [ErrHeights], Returned 1)
      else
        let final_height := arg_height args in
        let final_width := Z.max 1 (Py.round (Py.mulf final_height (3 # 4))) in
        let pixel_height := arg_pixel_height args in
        let pixel_width := Z.max 1 (Py.round (Py.mulf pixel_height (3 # 4))) in
        match process_cards args final_width final_height pixel_width pixel_height
                cards {| files := fs; processed_files := []; failures := 0;
                         printed := [] |} with
        | (st, Some exc) => (files st, printed st, Uncaught exc)
        | (st, None) =>
            let finish fs' out :=
              (fs',
               out ++ [OutDone (Z.of_nat (length (processed_files st)))
                               (failures st)],
               Returned (if failures st =? 0 then 0 else 1)) in
            if arg_contact_sheet args then
              match create_contact_sheet (processed_files st) contact_sheet_path
                      final_width final_height (files st) with
              | (fs', Ok _) =>
                  finish fs' (printed st ++ [OutContactSheet contact_sheet_path])
              | (fs', Raise exc) => (fs', printed st, Uncaught exc)
              end
            else finish (files st) (printed st)
        end
  end.

End Pipeline.

(** ** Sample data

    A small quantizer that meets Pillow's contract (sizes kept, at most [k]
    colours): it keeps the first [k] distinct colours of the raster and maps
    every other pixel to the first of them. *)
Definition first_colors (k : Z) (r : Raster) : Raster :=
  let keep := take (Z.to_nat k) (palette r) in
  {| width := width r;
     height := height r;
     pixels := List.map (fun c => if bool_decide (c ∈ keep) then c
                                  else hd black keep) (pixels r) |}.

(** A 10 by 5 and a 2 by 3 raster whose pixels record their coordinates. *)
Definition wide_10x5 : Raster := make_raster 10 5 (fun x y => (x, y, 0)).
Definition tall_2x3 : Raster := make_raster 2 3 (fun x y => (x, y, 0)).

Definition default_args : Args :=
  {| arg_height := 256; arg_pixel_height := 64; arg_quantize := 28;
     arg_contact_sheet := false |}.

Definition small_args (sheet : bool) : Args :=
  {| arg_height := 4; arg_pixel_height := 2; arg_quantize := 0;
     arg_contact_sheet := sheet |}.

Definition card (name slug : string) : json :=
  JObj [("name", JStr name); ("slug", JStr slug)].

Definition manifest_of (cards : list json) : option file :=
  Some (FJson (JObj [("cards", JList cards)])).

(** Luke and Leia have a source image, Yoda has none. *)
Definition three_cards : Files :=
  {| cards_json := manifest_of [card "Luke" "luke"; card "Yoda" "yoda";
                                card "Leia" "leia"];
     source_dir := {[ "luke.png" := FImage wide_10x5;
                      "leia.jpg" := FImage tall_2x3 ]};
     processed_dir := ∅;
     saved := [] |}.

(** ** Vocabulary of the statements *)

(** The processed directory after the saves [news], oldest first. *)
Definition replay (news : list (path * Raster)) (dir : gmap string file)
  : gmap string file :=
  fold_left (fun m pr => <[snd (fst pr) := FImage (snd pr)]> m) news dir.

(** The destinations a run reports as processed, in order. *)
Fixpoint destinations (out : list event) : list path :=
  match out with
  | [] => []
  | OutProcessed _ destination :: rest => destination :: destinations rest
  | _ :: rest => destinations rest
  end.

(** The per-card failures a run reports. *)
Definition is_failure (e : event) : bool :=
  match e with
  | ErrMalformed _ | ErrMissing _ | ErrFailed _ _ => true
  | _ => false
  end.

(** Every save in [news] is a card image of the given size in the processed
    directory. *)
Definition card_saves (final_width final_height : Z)
    (news : list (path * Raster)) : Prop :=
  Forall (fun pr => fst (fst pr) = PROCESSED_DIR /\
                    width (snd pr) = final_width /\
                    height (snd pr) = final_height) news.

(** What the loop of [main] may have done between two of its states. *)
Record extends (final_width final_height : Z) (st st' : LoopState)
    (news : list (path * Raster)) (evs : list event) : Prop := mkExtends {
  ext_cards : cards_json (files st') = cards_json (files st);
  ext_source : source_dir (files st') = source_dir (files st);
  ext_saved : saved (files st') = saved (files st) ++ news;
  ext_dir : processed_dir (files st') = replay news (processed_dir (files st));
  ext_processed : processed_files st' = processed_files st ++ List.map fst news;
  ext_sizes : card_saves final_width final_height news;
  ext_printed : printed st' = printed st ++ evs;
  ext_destinations : destinations evs = List.map fst news;
  ext_failures :
    failures st' = failures st + Z.of_nat (length (List.filter is_failure evs))
}.

(** The slot of tile [i]: the region its paste covers. *)
Definition in_slot (tw th i x y : Z) : Prop :=
  0 <= x - (12 + (i mod 4) * (tw + 12)) < tw /\
  0 <= y - (12 + (i / 4) * (th + 12)) < th.

(** A tile list the outputs decode to, each of the tile size. *)
Definition opens_to (fs : Files) (tw th : Z) (outputs : list path)
    (tiles : list Raster) : Prop :=
  Forall2 (fun p t => Image_open fs p = inl t /\ width t = tw /\ height t = th)
          outputs tiles.

(** The loop variables after a turn that skips its card as a failure,
    printing [ev]. *)
Definition skipped (st : LoopState) (ev : event) : LoopState :=
  {| files := files st;
     processed_files := processed_files st;
     failures := failures st + 1;
     printed := printed st ++ [ev] |}.

(** The loop variables when [main] enters its loop. *)
Definition start (fs : Files) : LoopState :=
  {| files := fs; processed_files := []; failures := 0; printed := [] |}.

(** More sample data: manifests that are not a list of cards, a manifest
    whose only card has no source image, and two processed tiles. *)
Definition with_manifest (data : json) : Files :=
  {| cards_json := Some (FJson data);
     source_dir := {[ "luke.png" := FImage wide_10x5 ]};
     processed_dir := ∅;
     saved := [] |}.

Definition no_cards_key : Files := with_manifest (JObj [("version", JInt 1)]).
Definition cards_not_a_list : Files := with_manifest (JObj [("cards", JStr "luke")]).
Definition only_yoda : Files :=
  with_manifest (JObj [("cards", JList [card "Yoda" "yoda"])]).

(** A card whose slug is blank, ahead of a good one. *)
Definition nobody : list (string * json) :=
  [("name", JStr "Nobody"); ("slug", JStr "  ")].

Definition blank_then_luke : Files :=
  with_manifest (JObj [("cards", JList [JObj nobody; card "Luke" "luke"])]).

(** An entry that is not an object, ahead of a good card. *)
Definition leia_then_luke : Files :=
  with_manifest (JObj [("cards", JList [JStr "leia"; card "Luke" "luke"])]).

Definition tile_a : Raster := make_raster 3 4 (fun x y => (x, y, 1)).
Definition tile_b : Raster := make_raster 3 4 (fun x y => (x, y, 2)).

Definition two_tiles : Files :=
  {| cards_json := None;
     source_dir := ∅;
     processed_dir := {[ "a.png" := FImage tile_a; "b.png" := FImage tile_b ]};
     saved := [] |}.

Definition luke_source : path := (SOURCE_DIR, "luke.png").

(** * Vocabulary of the further properties *)

(** A slug that is a plain file name on a POSIX file system: it has no "/"
    and no NUL, and it is short enough for the slug with an extension to be
    one name of a directory (at most 255 bytes; a code point below 256 takes
    at most two).  For such a slug SOURCE_DIR / f"{slug}{ext}" is a file of
    the source directory and PROCESSED_DIR / f"{slug}.png" a file of the
    processed directory, which is how [first_existing] and [destination_of]
    name them; a slug like "../source/luke" names a file of another
    directory instead. *)
Definition plain_slug (slug : string) : bool :=
  forallb (fun c => negb (Ascii.eqb c "/" || Ascii.eqb c "000"))
          (list_ascii_of_string slug)
  && Nat.leb (String.length slug) 120.

(** Every card of the manifest of [fs] has a plain slug. *)
Definition plain_slugs (fs : Files) : Prop :=
  forall cards fields, load_cards fs = inl cards -> JObj fields ∈ cards ->
    plain_slug (card_slug fields) = true.

(** The image last saved under [name] among the saves [news], if any. *)
Definition last_saved (news : list (path * Raster)) (name : string)
  : option Raster :=
  fold_left (fun acc pr => if decide (snd (fst pr) = name) then Some (snd pr)
                           else acc) news None.

(** * The other two tools

    [tools/populate_sources_wookieepedia.py] writes an image URL into every
    entry of the sources manifest and [tools/fetch_assets.py] downloads these
    images into the directory [process_assets.py] reads. *)

(** ** More of Python's str *)
Module PyStr.

(** [sub in s] *)
Fixpoint contains (sub s : string) : bool :=
  String.prefix sub s ||
  match s with
  | EmptyString => false
  | String _ s' => contains sub s'
  end.

(** [s.split(sep, maxsplit=1)[0]] for a separator that is not empty: the
    text before the first occurrence of [sep], all of [s] when there is
    none. *)
Fixpoint before (sep s : string) : string :=
  if String.prefix sep s then EmptyString
  else match s with
       | EmptyString => EmptyString
       | String c s' => String c (before sep s')
       end.

(** [c.lower()] for a code point below 256: the letters A to Z and the
    capital letters of Latin-1 (all of 192..222 but the multiplication
    sign). *)
Definition lower_char (c : ascii) : ascii :=
  let n := nat_of_ascii c in
  if ((65 <=? n) && (n <=? 90))%nat
     || ((192 <=? n) && (n <=? 222) && negb (n =? 215))%nat
  then ascii_of_nat (n + 32) else c.

(** [s.lower()] *)
Fixpoint lower (s : string) : string :=
  match s with
  | EmptyString => EmptyString
  | String c s' => String (lower_char c) (lower s')
  end.

End PyStr.

(** ** populate_sources_wookieepedia.canonicalize_image_url *)
Definition canonicalize_image_url (url : string) : string :=
  let marker := "/revision/" in
  if PyStr.contains marker url then PyStr.before marker url
  else url.

(** ** fetch_assets.py *)
Module Fetch.

(** What a download can raise, and the classes [main] catches:
    [except (urllib.error.URLError, TimeoutError, RuntimeError, OSError)].
    [ValueError] (an unknown URL type) and [HTTPException] (a broken
    response) are not among them. *)
Inductive exn : Set :=
| URLError
| TimeoutError
| RuntimeError
| OSError
| ValueError
| HTTPException
| AttributeError.

Definition handled (e : exn) : bool :=
  match e with
  | URLError | TimeoutError | RuntimeError | OSError => true
  | _ => false
  end.

(** What [urlopen] hands back: the Content-Type header ([""] when there is
    none) and the body, seen as the file it will be once written. *)
Record Response : Type := mkResponse {
  content_type : string;
  body : file
}.

(** The manifest [SOURCES_PATH] and the directory [SOURCE_DIR], the one
    [process_assets.py] reads its sources from. *)
Record Disk : Type := mkDisk {
  sources_json : option file;
  source_files : gmap string file
}.

Record Args : Type := mkArgs {
  arg_force : bool;     (* --force *)
  arg_timeout : Q       (* --timeout, default 20.0 *)
}.

Inductive event : Type :=
| ErrLoad (exc : Py.exn)                (* Error loading manifest *)
| ErrNoCards                            (* No cards found in sources manifest. *)
| SkipNoSlug (entry : json)             (* Skipping entry without slug *)
| SkipNoUrl (slug : string)             (* Skipping slug: missing URL *)
| SkipExisting (destination : string)   (* Skipping existing file *)
| Downloaded (label destination : string)
| Failed (slug : string) (exc : exn)
| Done (success skipped failed : Z).

Inductive ended : Type :=
| Exit (code : Z)
| Crash (exc : exn).

(** The variables of [main]'s loop, and the number of requests sent so
    far. *)
Record Loop : Type := mkLoop {
  disk : Disk;
  success : Z;
  skipped : Z;
  failed : Z;
  requests : nat;
  printed : list event
}.

(** ** load_manifest *)
Definition load_manifest (d : Disk) : sum json Py.exn :=
  match sources_json d with
  | None => inr Py.FileNotFoundError
  | Some (FJson data) => inl data
  | Some _ => inr Py.JSONDecodeError
  end.

Section Network.

(** The network: the answer to the [n]-th request of the run, for a URL and
    a timeout. *)
Variable urlopen : nat -> string -> Q -> sum Response exn.

(** [pathlib.Path(urllib.parse.urlparse(url).path).suffix] *)
Variable path_suffix : string -> string.

(** ** output_name: the name of the file in [SOURCE_DIR] *)
Definition output_name (slug url : string) : string :=
  let ext := PyStr.lower (path_suffix url) in
  let ext := if existsb (String.eqb ext) [".jpg"; ".jpeg"; ".png"; ".webp"]
             then ext else ".jpg" in
  slug +:+ ext.

(** ** download_file; the write is taken to succeed. *)
Definition download_file (n : nat) (url destination : string) (timeout : Q)
    (d : Disk) : Disk * sum unit exn :=
  match urlopen n url timeout with
  | inr exc => (d, inr exc)
  | inl response =>
      if negb (PyStr.contains "image" (content_type response)) then
        (d, inr RuntimeError)
      else
        ({| sources_json := sources_json d;
            source_files := <[destination := body response]> (source_files d) |},
         inl tt)
  end.

(** ** main *)

(** One turn of [for entry in cards]. *)
Definition entry_step (args : Args) (entry : json) (st : Loop)
  : Loop * option exn :=
  match entry with
  | JObj fields =>
      let name := Py.strip (py_str (dict_get fields "name" (JStr ""))) in
      let slug := Py.strip (py_str (dict_get fields "slug" (JStr ""))) in
      let url := Py.strip (py_str (dict_get fields "url" (JStr ""))) in
      if String.eqb slug "" then
        ({| disk := disk st; success := success st; skipped := skipped st + 1;
            failed := failed st; requests := requests st;
            printed := printed st ++ [SkipNoSlug entry] |}, None)
      else if String.eqb url "" then
        ({| disk := disk st; success := success st; skipped := skipped st + 1;
            failed := failed st; requests := requests st;
            printed := printed st ++ [SkipNoUrl slug] |}, None)
      else
        let destination := output_name slug url in
        if bool_decide (is_Some (source_files (disk st) !! destination))
           && negb (arg_force args) then
          ({| disk := disk st; success := success st; skipped := skipped st + 1;
              failed := failed st; requests := requests st;
              printed := printed st ++ [SkipExisting destination] |}, None)
        else
          match download_file (requests st) url destination (arg_timeout args)
                              (disk st) with
          | (d, inl _) =>
              ({| disk := d; success := success st + 1; skipped := skipped st;
                  failed := failed st; requests := S (requests st);
                  printed := printed st
                    ++ [Downloaded (if String.eqb name "" then slug else name)
                                   destination] |}, None)
          | (d, inr exc) =>
              if handled exc then
                ({| disk := d; success := success st; skipped := skipped st;
                    failed := failed st + 1; requests := S (requests st);
                    printed := printed st ++ [Failed slug exc] |}, None)
              else
                ({| disk := d; success := success st; skipped := skipped st;
                    failed := failed st; requests := S (requests st);
                    printed := printed st |}, Some exc)
          end
  | _ => (st, Some AttributeError)   (* entry.get on a non-dict *)
  end.

Fixpoint run_entries (args : Args) (entries : list json) (st : Loop)
  : Loop * option exn :=
  match entries with
  | [] => (st, None)
  | entry :: rest =>
      match entry_step args entry st with
      | (st', None) => run_entries args rest st'
      | stop => stop
      end
  end.

Definition main (args : Args) (d : Disk) : Disk * list event * ended :=
  (* SOURCE_DIR.mkdir(parents=True, exist_ok=True) changes no file *)
  match load_manifest d with
  | inr exc => (d, [ErrLoad exc], Exit 1)
  | inl manifest =>
      match manifest with
      | JObj fields =>
          match dict_get fields "cards" (JList []) with
          | JList (first :: others) =>
              match run_entries args (first :: others)
                      {| disk := d; success := 0; skipped := 0; failed := 0;
                         requests := 0; printed := [] |} with
              | (st, Some exc) => (disk st, printed st, Crash exc)
              | (st, None) =>
                  (disk st,
                   printed st ++ [Done (success st) (skipped st) (failed st)],
                   Exit (if 0 <? failed st then 1 else 0))
              end
          | _ => (d, [ErrNoCards], Exit 1)
          end
      | _ => (d, [], Crash AttributeError)   (* manifest.get on a non-dict *)
      end
  end.

End Network.

End Fetch.

(** Vocabulary for the runs of [Fetch.main]. *)
Definition is_downloaded (e : Fetch.event) : bool :=
  match e with Fetch.Downloaded _ _ => true | _ => false end.

Definition is_failed (e : Fetch.event) : bool :=
  match e with Fetch.Failed _ _ => true | _ => false end.

Definition is_skipped (e : Fetch.event) : bool :=
  match e with
  | Fetch.SkipNoSlug _ | Fetch.SkipNoUrl _ | Fetch.SkipExisting _ => true
  | _ => false
  end.

(** The loop variables when [Fetch.main] enters its loop. *)
Definition fetch_start (d : Fetch.Disk) : Fetch.Loop :=
  {| Fetch.disk := d; Fetch.success := 0; Fetch.skipped := 0; Fetch.failed := 0;
     Fetch.requests := 0; Fetch.printed := [] |}.

(** What the loop of [Fetch.main] may have done between two of its states,
    printing [evs]: the manifest is as it was, no file is gone (and without
    --force no file has changed), the counters have grown by the numbers of
    lines of their kind, and every downloaded file is there, under the name
    [output_name] gives to the slug and URL of an entry of [entries], and
    printed with the name of this entry (its slug when it has none). *)
Record fetched (path_suffix : string -> string) (args : Fetch.Args)
    (entries : list json) (st st' : Fetch.Loop) (evs : list Fetch.event)
  : Prop := mkFetched {
  fet_manifest :
    Fetch.sources_json (Fetch.disk st') = Fetch.sources_json (Fetch.disk st);
  fet_kept : forall name,
    is_Some (Fetch.source_files (Fetch.disk st) !! name) ->
    is_Some (Fetch.source_files (Fetch.disk st') !! name);
  fet_same : Fetch.arg_force args = false -> forall name f,
    Fetch.source_files (Fetch.disk st) !! name = Some f ->
    Fetch.source_files (Fetch.disk st') !! name = Some f;
  fet_printed : Fetch.printed st' = Fetch.printed st ++ evs;
  fet_success : Fetch.success st'
    = Fetch.success st + Z.of_nat (length (List.filter is_downloaded evs));
  fet_skipped : Fetch.skipped st'
    = Fetch.skipped st + Z.of_nat (length (List.filter is_skipped evs));
  fet_failed : Fetch.failed st'
    = Fetch.failed st + Z.of_nat (length (List.filter is_failed evs));
  fet_files : forall label destination,
    Fetch.Downloaded label destination ∈ evs ->
    is_Some (Fetch.source_files (Fetch.disk st') !! destination) /\
    exists fields,
      JObj fields ∈ entries /\
      Py.strip (py_str (dict_get fields "slug" (JStr ""))) <> "" /\
      destination
        = Fetch.output_name path_suffix
            (Py.strip (py_str (dict_get fields "slug" (JStr ""))))
            (Py.strip (py_str (dict_get fields "url" (JStr "")))) /\
      label
        = (if String.eqb (Py.strip (py_str (dict_get fields "name" (JStr "")))) ""
           then Py.strip (py_str (dict_get fields "slug" (JStr "")))
           else Py.strip (py_str (dict_get fields "name" (JStr ""))))
}.

(** Sample data for [Fetch.main]: a suffix function (the text from the last
    dot on), a network that knows two URLs, and a manifest of four
    entries. *)
Fixpoint last_dot (s : string) : option string :=
  match s with
  | EmptyString => None
  | String c s' =>
      match last_dot s' with
      | Some t => Some t
      | None => if Ascii.eqb c "." then Some s else None
      end
  end.

Definition sample_suffix (url : string) : string :=
  match last_dot url with Some t => t | None => "" end.

Definition sample_net (n : nat) (url : string) (timeout : Q)
  : sum Fetch.Response Fetch.exn :=
  if String.eqb url "https://img.example/luke.PNG" then
    inl {| Fetch.content_type := "image/png"; Fetch.body := FImage wide_10x5 |}
  else if String.eqb url "https://img.example/leia.html" then
    inl {| Fetch.content_type := "text/html"; Fetch.body := FOther |}
  else inr Fetch.URLError.

Definition source_entry (name slug url : string) : json :=
  JObj [("name", JStr name); ("slug", JStr slug); ("url", JStr url)].

Definition sample_entries : list json :=
  [source_entry "Luke" "luke" "https://img.example/luke.PNG";
   source_entry "Leia" "leia" "https://img.example/leia.html";
   source_entry "Yoda" "yoda" "";
   source_entry "Han" "han" "https://img.example/han.jpg"].

Definition sample_disk : Fetch.Disk :=
  {| Fetch.sources_json := Some (FJson (JObj [("cards", JList sample_entries)]));
     Fetch.source_files := {[ "han.jpg" := FImage tall_2x3 ]} |}.

Definition no_force : Fetch.Args :=
  {| Fetch.arg_force := false; Fetch.arg_timeout := 20 |}.

(** ** populate_sources_wookieepedia.py *)
Module Populate.

(** What the script can raise.  [RequestError] stands for whatever
    [request_json] raises (the network, the decoding of the answer); inside
    the loop of [main] every exception is caught alike. *)
Inductive exn : Set :=
| AttributeError
| TypeError
| RuntimeError
| RequestError
| FileNotFoundError
| JSONDecodeError.

(** Maps manifest slug -> Wookieepedia title *)
Definition TITLE_BY_SLUG : list (string * string) :=
  [("luke_skywalker", "Luke Skywalker");
   ("leia_organa", "Leia Organa");
   ("darth_vader", "Darth Vader");
   ("anakin_skywalker", "Anakin Skywalker");
   ("obi_wan_kenobi", "Obi-Wan Kenobi");
   ("yoda", "Yoda");
   ("han_solo", "Han Solo");
   ("chewbacca", "Chewbacca");
   ("emperor_palpatine", "Palpatine");
   ("rey", "Rey Skywalker");
   ("kylo_ren", "Kylo Ren");
   ("r2_d2", "R2-D2");
   ("c_3po", "C-3PO");
   ("lando_calrissian", "Lando Calrissian");
   ("mandalorian", "Din Djarin");
   ("padme_amidala", "Padm" +:+ String "233" " Amidala")].

Definition OVERRIDE_URL_BY_SLUG : list (string * string) :=
  [("darth_vader",
    "https://upload.wikimedia.org/wikipedia/commons/9/9c/Darth_Vader_-_2007_Disney_Weekends.jpg")].

(** [table.get(key)] on these tables *)
Fixpoint table_get (table : list (string * string)) (key : string)
  : option string :=
  match table with
  | [] => None
  | (k, v) :: rest => if String.eqb k key then Some v else table_get rest key
  end.

(** [bool(v)] *)
Definition truthy (v : json) : bool :=
  match v with
  | JNull => false
  | JBool b => b
  | JInt n => negb (n =? 0)
  | JFloat text => negb (String.eqb text "0.0" || String.eqb text "-0.0")
  | JStr s => negb (String.eqb s "")
  | JList items => match items with [] => false | _ => true end
  | JObj fields => match fields with [] => false | _ => true end
  end.

(** [d[key] = v]: the value of an existing key is replaced where it is, a
    new key goes last. *)
Fixpoint dict_set (fields : list (string * json)) (key : string) (v : json)
  : list (string * json) :=
  match fields with
  | [] => [(key, v)]
  | (k, x) :: rest =>
      if String.eqb k key then (k, v) :: rest
      else (k, x) :: dict_set rest key v
  end.

(** [v.get(key, default)] on a value that may not be a dict *)
Definition get (v : json) (key : string) (default : json) : sum json exn :=
  match v with
  | JObj fields => inl (dict_get fields key default)
  | _ => inr AttributeError
  end.

(** [canonicalize_image_url(url)] on whatever the payload held as source:
    [marker in url] is the substring test on a str, membership on a list,
    the key test on a dict, and a TypeError on a number; a list or dict
    that has the marker has no [split]. *)
Definition canonicalize (url : json) : sum json exn :=
  match url with
  | JStr s => inl (JStr (canonicalize_image_url s))
  | JList items =>
      if existsb (fun item => match item with
                              | JStr s => String.eqb s "/revision/"
                              | _ => false
                              end) items
      then inr AttributeError else inl url
  | JObj fields =>
      if has_key fields "/revision/" then inr AttributeError else inl url
  | _ => inr TypeError
  end.

(** The loop of [fetch_image_url] over [pages.values()]. *)
Fixpoint first_source (pages : list (string * json)) : sum json exn :=
  match pages with
  | [] => inr RuntimeError      (* No page image found for title *)
  | (_, page) :: rest =>
      match get page "original" (JObj []) with
      | inr exc => inr exc
      | inl original =>
          match get original "source" JNull with
          | inr exc => inr exc
          | inl source =>
              if truthy source then canonicalize source
              else first_source rest
          end
      end
  end.

Inductive event : Type :=
| SetOverride (slug : string)            (* set slug: override URL *)
| MissingTitle (slug : string)           (* missing title mapping for slug *)
| SetUrl (slug : string) (url : json)    (* set slug: url *)
| FailedCard (slug : string) (exc : exn) (* failed slug: exc *)
| Updated                                (* Updated: SOURCES_PATH *)
| CompletedWith (failures : Z)           (* Completed with n failures. *)
| Completed.                             (* Completed successfully. *)

Inductive ended : Type :=
| Exit (code : Z)
| Crash (exc : exn).

(** The variables of [main]'s loop: the cards already gone through (as they
    are now), the failures, the requests sent and the lines printed. *)
Record Loop : Type := mkLoop {
  done : list json;
  failures : Z;
  requests : nat;
  printed : list event
}.

Section Network.

(** The [n]-th request of the run: [request_json] on the URL that
    [fetch_image_url] builds for a title. *)
Variable query : nat -> string -> sum json exn.

(** ** fetch_image_url *)
Definition fetch_image_url (n : nat) (title : string) : sum json exn :=
  match query n title with
  | inr exc => inr exc
  | inl payload =>
      match get payload "query" (JObj []) with
      | inr exc => inr exc
      | inl q =>
          match get q "pages" (JObj []) with
          | inr exc => inr exc
          | inl (JObj pages) => first_source pages
          | inl _ => inr AttributeError     (* pages.values() *)
          end
      end
  end.

(** ** main *)

(** One turn of [for card in cards]. *)
Definition card_step (card : json) (st : Loop) : Loop * option exn :=
  match card with
  | JObj fields =>
      let slug := Py.strip (py_str (dict_get fields "slug" (JStr ""))) in
      if String.eqb slug "" then
        ({| done := done st ++ [card]; failures := failures st + 1;
            requests := requests st; printed := printed st |}, None)
      else
        match table_get OVERRIDE_URL_BY_SLUG slug with
        | Some url =>
            ({| done := done st ++ [JObj (dict_set fields "url" (JStr url))];
                failures := failures st; requests := requests st;
                printed := printed st ++ [SetOverride slug] |}, None)
        | None =>
            match table_get TITLE_BY_SLUG slug with
            | Some (String c title' as title) =>
                match fetch_image_url (requests st) title with
                | inl url =>
                    ({| done := done st ++ [JObj (dict_set fields "url" url)];
                        failures := failures st; requests := S (requests st);
                        printed := printed st ++ [SetUrl slug url] |}, None)
                | inr exc =>
                    ({| done := done st ++ [JObj (dict_set fields "url" (JStr ""))];
                        failures := failures st + 1; requests := S (requests st);
                        printed := printed st ++ [FailedCard slug exc] |}, None)
                end
            | _ =>
                ({| done := done st ++ [JObj (dict_set fields "url" (JStr ""))];
                    failures := failures st + 1; requests := requests st;
                    printed := printed st ++ [MissingTitle slug] |}, None)
            end
        end
  | _ => (st, Some AttributeError)   (* card.get on a non-dict *)
  end.

Fixpoint run_cards (cards : list json) (st : Loop) : Loop * option exn :=
  match cards with
  | [] => (st, None)
  | card :: rest =>
      match card_step card st with
      | (st', None) => run_cards rest st'
      | stop => stop
      end
  end.

(** [main].  The manifest is written when the loop has completed; the write
    is taken to succeed, and what a write that fails midway leaves in the
    file is not modelled. *)
Definition main (d : Fetch.Disk) : Fetch.Disk * list event * ended :=
  match Fetch.sources_json d with
  | None => (d, [], Crash FileNotFoundError)
  | Some (FJson manifest) =>
      match manifest with
      | JObj fields =>
          match dict_get fields "cards" (JList []) with
          | JList cards =>
              match run_cards cards {| done := []; failures := 0;
                                       requests := 0; printed := [] |} with
              | (st, Some exc) => (d, printed st, Crash exc)
              | (st, None) =>
                  (* the cards are the dicts of the manifest, changed in
                     place; without the key the list was a fresh one *)
                  let manifest' :=
                    if has_key fields "cards"
                    then JObj (dict_set fields "cards" (JList (done st)))
                    else manifest in
                  ({| Fetch.sources_json := Some (FJson manifest');
                      Fetch.source_files := Fetch.source_files d |},
                   printed st
                     ++ Updated
                     :: (if failures st =? 0 then [Completed]
                         else [CompletedWith (failures st)]),
                   Exit (if failures st =? 0 then 0 else 1))
              end
          | _ => (d, [], Crash RuntimeError)   (* expected cards list *)
          end
      | _ => (d, [], Crash AttributeError)     (* manifest.get on a non-dict *)
      end
  | Some _ => (d, [], Crash JSONDecodeError)
  end.

End Network.

End Populate.

(** Vocabulary for the runs of [Populate.main]. *)

(** The slug of a manifest entry is blank. *)
Definition blank_slug (card : json) : bool :=
  match card with
  | JObj fields => String.eqb (card_slug fields) ""
  | _ => false
  end.

(** What [Populate.main] does to a card: every key but "url" keeps its
    place and value; a card with a blank slug is left as it is, any other
    ends up with a "url" which, when it is text, has no "/revision/". *)
Definition card_updated (card card' : json) : Prop :=
  match card, card' with
  | JObj f, JObj f' =>
      (forall k default, k <> "url" -> dict_get f' k default = dict_get f k default) /\
      (forall k, k <> "url" -> has_key f' k = has_key f k) /\
      if String.eqb (card_slug f) "" then f' = f
      else has_key f' "url" = true /\
           forall s, dict_get f' "url" JNull = JStr s ->
                     PyStr.contains "/revision/" s = false
  | _, _ => False
  end.

Definition is_card_failure (e : Populate.event) : bool :=
  match e with
  | Populate.MissingTitle _ | Populate.FailedCard _ _ => true
  | _ => false
  end.

Definition populate_start : Populate.Loop :=
  {| Populate.done := []; Populate.failures := 0; Populate.requests := 0;
     Populate.printed := [] |}.

(** Sample data for [Populate.main]: a wiki that knows one title, and a
    manifest with a card it can resolve, the overridden card, a card without
    a title, a card whose request fails and a card without a slug. *)
Definition sample_wiki (n : nat) (title : string) : sum json Populate.exn :=
  if String.eqb title "Luke Skywalker" then
    inl (JObj [("query",
          JObj [("pages",
            JObj [("12", JObj [("title", JStr "Luke Skywalker")]);
                  ("34", JObj [("original",
                     JObj [("source",
                       JStr "https://static.example/luke.png/revision/latest?cb=1")])])])])])
  else inr Populate.RequestError.

Definition sample_sources : Fetch.Disk :=
  {| Fetch.sources_json :=
       Some (FJson (JObj [("version", JInt 1);
                          ("cards",
                           JList [card "Luke" "luke_skywalker";
                                  card "Vader" "darth_vader";
                                  card "Jar Jar" "jar_jar";
                                  card "Yoda" "yoda";
                                  JObj [("name", JStr "Nobody")]])]));
     Fetch.source_files := {[ "han.jpg" := FImage tall_2x3 ]} |}.

(** [page.get("original", {}).get("source")] *)
Definition page_source (page : json) : sum json Populate.exn :=
  match Populate.get page "original" (JObj []) with
  | inl original => Populate.get original "source" JNull
  | inr exc => inr exc
  end.

(** A page of the answer that has no image: its source is absent, or
    empty. *)
Definition no_image (entry : string * json) : Prop :=
  exists source, page_source (snd entry) = inl source /\
                 Populate.truthy source = false.

(** * Properties *)

(** ** Arithmetic of the two float expressions *)

Lemma int_three_quarters (h : Z) :
  0 <= h -> Py.int (Py.mulf h (3 # 4)) = 3 * h / 4.
Proof.
  intros Hh. unfold Py.int, Py.mulf. cbn.
  rewrite Z.quot_div_nonneg by lia. f_equal. lia.
Qed.

Lemma int_four_thirds (w : Z) :
  0 <= w -> Py.int (Py.divf w (3 # 4)) = 4 * w / 3.
Proof.
  intros Hw. unfold Py.int, Py.divf. cbn.
  rewrite Z.quot_div_nonneg by lia. f_equal. lia.
Qed.

Lemma round_three_quarters (h : Z) :
  Py.round (Py.mulf h (3 # 4)) =
  let q := 3 * h / 4 in
  let r := (3 * h) mod 4 in
  if r <? 2 then q else if 2 <? r then q + 1
  else if Z.even q then q else q + 1.
Proof.
  unfold Py.round, Py.mulf. cbn -[Z.mul Z.div Z.modulo Z.add Z.even Z.ltb].
  change (Z.pos (1 * 4)) with 4. replace (h * 3) with (3 * h) by lia.
  set (q := 3 * h / 4). 
  unfold Qcompare, Qminus, Qplus, Qopp, inject_Z, Qmult. 
  cbn -[Z.mul Z.div Z.modulo Z.add Z.even Z.ltb Z.compare].
  change (Z.pos (1 * 4 * 1)) with 4. change (Z.pos (1 * 4)) with 4.
  assert (Hq : 3 * h = 4 * q + (3 * h) mod 4) by (unfold q; apply Z.div_mod; lia).
  assert (Hr : 0 <= (3 * h) mod 4 < 4) by (apply Z.mod_pos_bound; lia).
  destruct (Z.compare_spec ((h * 3 * 1 + - q * 4) * 2) (1 * 4)) as [E|E|E];
    destruct (Z.ltb_spec ((3 * h) mod 4) 2); destruct (Z.ltb_spec 2 ((3 * h) mod 4));
    try lia; reflexivity.
Qed.

Lemma round_three_quarters_pos (h : Z) :
  0 < h -> 1 <= Py.round (Py.mulf h (3 # 4)).
Proof.
  intros Hh. rewrite round_three_quarters. cbv zeta.
  assert (Hq : 3 * h = 4 * (3 * h / 4) + (3 * h) mod 4) by (apply Z.div_mod; lia).
  assert (Hr : 0 <= (3 * h) mod 4 < 4) by (apply Z.mod_pos_bound; lia).
  destruct (Z.ltb_spec ((3 * h) mod 4) 2); [lia|].
  destruct (Z.ltb_spec 2 ((3 * h) mod 4)); [lia|].
  destruct (Z.even (3 * h / 4)) eqn:Ev; [|lia].
  assert (3 * h / 4 <> 0); [|lia].
  intros E0. rewrite E0 in Hq. lia.
Qed.
(** On binary64 the sample crops compute the same integers. *)
Example crop_width_binary64 :
  Py.float_int (Py.float_of_int 5 * Py.ratio64)%float = Py.int (Py.mulf 5 (3 # 4)).
Proof. vm_compute. reflexivity. Qed.

Example crop_height_binary64 :
  Py.float_int (Py.float_of_int 2 / Py.ratio64)%float = Py.int (Py.divf 2 (3 # 4)).
Proof. vm_compute. reflexivity. Qed.

Example wide_binary64 :
  PrimFloat.ltb Py.ratio64 (Py.float_of_int 10 / Py.float_of_int 5)%float
  = Py.gtf (Py.truediv 10 5) (3 # 4).
Proof. vm_compute. reflexivity. Qed.

(** ** Rasters built by [make_raster] *)

Lemma in_bounds_true w h x y :
  in_bounds w h x y = true <-> 0 <= x < w /\ 0 <= y < h.
Proof. unfold in_bounds. rewrite !andb_true_iff. lia. Qed.

Lemma in_bounds_false w h x y :
  in_bounds w h x y = false <-> ~ (0 <= x < w /\ 0 <= y < h).
Proof. rewrite <- in_bounds_true. destruct (in_bounds w h x y); intuition congruence. Qed.

Lemma get_pixel_make_raster w h f x y :
  0 <= x < w -> 0 <= y < h -> get_pixel (make_raster w h f) x y = f x y.
Proof.
  intros Hx Hy. unfold get_pixel. cbn [width height pixels make_raster].
  assert (Hb : in_bounds w h x y = true) by (apply in_bounds_true; lia).
  rewrite Hb.
  assert (Hi : (Z.to_nat (y * w + x) < Z.to_nat w * Z.to_nat h)%nat) by nia.
  set (g := fun i : nat => f (Z.of_nat i mod w) (Z.of_nat i / w)).
  rewrite (nth_indep _ black (g 0%nat)) by (rewrite length_map, length_seq; exact Hi).
  rewrite map_nth, seq_nth by exact Hi. unfold g. cbn [Nat.add].
  rewrite Z2Nat.id by nia. f_equal.
  - rewrite Z.add_comm, Z.mod_add by lia. apply Z.mod_small; lia.
  - rewrite Z.add_comm, Z.div_add by lia. rewrite Z.div_small by lia. lia.
Qed.

Lemma get_pixel_outside r x y :
  in_bounds (width r) (height r) x y = false -> get_pixel r x y = black.
Proof. intros H. unfold get_pixel. now rewrite H. Qed.

Lemma pixels_make_raster w h f c :
  c ∈ pixels (make_raster w h f) ->
  exists x y, 0 <= x < w /\ 0 <= y < h /\ c = f x y.
Proof.
  cbn [pixels make_raster]. rewrite list_elem_of_In, in_map_iff.
  intros (i & <- & Hi). apply in_seq in Hi.
  assert (0 < w) by nia. assert (0 < h) by nia.
  assert (Z.of_nat i < w * h) by nia.
  exists (Z.of_nat i mod w), (Z.of_nat i / w). split; [|split; [|reflexivity]].
  - apply Z.mod_pos_bound; lia.
  - split; [apply Z.div_pos; lia|]. apply Z.div_lt_upper_bound; nia.
Qed.

(** ** center_crop_to_ratio *)

(** The comparison [width / height > 0.75] on integers. *)
Lemma gtf_three_quarters (w h : Z) :
  0 < h -> Py.gtf (Py.truediv w h) (3 # 4) = true <-> 3 * h < 4 * w.
Proof.
  intros Hh. unfold Py.gtf, Py.truediv.
  rewrite negb_true_iff, <- not_true_iff_false, Qle_bool_iff.
  unfold Qle, Qdiv, Qmult, Qinv, inject_Z.
  destruct h as [|p|p]; try lia. cbn -[Z.mul]. lia.
Qed.

Lemma ratio_wide (w h : Z) :
  0 < h -> (3 # 4 < Py.truediv w h)%Q <-> 3 * h < 4 * w.
Proof.
  intros Hh. rewrite <- gtf_three_quarters by exact Hh.
  unfold Py.gtf. rewrite negb_true_iff, <- not_true_iff_false, Qle_bool_iff.
  split; [apply Qlt_not_le | apply Qnot_le_lt].
Qed.

Lemma ratio_tall (w h : Z) :
  0 < h -> (Py.truediv w h <= 3 # 4)%Q <-> 4 * w <= 3 * h.
Proof.
  intros Hh. pose proof (ratio_wide w h Hh) as Hwide.
  split.
  - intros Hle. destruct (Z_lt_le_dec (3 * h) (4 * w)) as [Hlt|]; [|lia].
    apply Hwide in Hlt. exfalso. exact (Qlt_not_le _ _ Hlt Hle).
  - intros Hle. apply Qnot_lt_le. intros Hlt. apply Hwide in Hlt. lia.
Qed.

(** C2, as the code has it: a source whose width/height ratio exceeds 3/4
    keeps its height and is cropped to the width int(height * 0.75), that
    is floor(3*height/4), between a left margin and a right margin that is
    equal to it or one pixel larger; a source at or below the ratio keeps
    its width and is cropped to the height int(width / 0.75), that is
    floor(4*width/3), between a top margin and a bottom margin that is equal
    to it or one pixel larger.  The crop copies the pixels of the window. *)
Theorem center_crop_to_ratio_floor (image : Raster)
    (Hw : 0 < width image) (Hh : 0 < height image) :
  exists out, center_crop_to_ratio image (3 # 4) = inl out /\
    ((3 # 4 < Py.truediv (width image) (height image))%Q ->
       let new_width := 3 * height image / 4 in
       let left := (width image - new_width) / 2 in
       let right := width image - new_width - left in
       height out = height image /\ width out = new_width /\
       new_width = Py.int (Py.mulf (height image) (3 # 4)) /\
       0 <= left <= right /\ right <= left + 1 /\
       forall x y, 0 <= x < new_width -> 0 <= y < height image ->
         get_pixel out x y = get_pixel image (left + x) y) /\
    ((Py.truediv (width image) (height image) <= 3 # 4)%Q ->
       let new_height := 4 * width image / 3 in
       let top := (height image - new_height) / 2 in
       let bottom := height image - new_height - top in
       width out = width image /\ height out = new_height /\
       new_height = Py.int (Py.divf (width image) (3 # 4)) /\
       0 <= top <= bottom /\ bottom <= top + 1 /\
       forall x y, 0 <= x < width image -> 0 <= y < new_height ->
         get_pixel out x y = get_pixel image x (top + y)).
Proof.
  unfold center_crop_to_ratio.
  destruct (Z.eqb_spec (height image) 0) as [E|_]; [lia|].
  destruct (Py.gtf (Py.truediv (width image) (height image)) (3 # 4)) eqn:G.
  - apply gtf_three_quarters in G; [|exact Hh].
    rewrite int_three_quarters by lia.
    set (nw := 3 * height image / 4). set (x0 := (width image - nw) / 2).
    assert (Hnw : 0 <= nw <= width image).
    { unfold nw. split; [apply Z.div_pos; lia|].
      apply Z.div_le_upper_bound; lia. }
    assert (Hx0 : 2 * x0 <= width image - nw <= 2 * x0 + 1).
    { unfold x0. pose proof (Z.div_mod (width image - nw) 2).
      pose proof (Z.mod_pos_bound (width image - nw) 2). lia. }
    unfold PIL.crop.
    destruct (Z.ltb_spec (x0 + nw) x0); [lia|].
    destruct (Z.ltb_spec (height image) 0); [lia|]. cbn [orb].
    eexists. split; [reflexivity|]. split.
    + intros _. cbv zeta. fold nw. fold x0. cbn [width height make_raster].
      repeat split; try lia.
      intros x y Hx Hy. rewrite get_pixel_make_raster by lia.
      f_equal.
    + intros Htall. apply ratio_tall in Htall; [lia | exact Hh].
  - assert (Hle : 4 * width image <= 3 * height image).
    { destruct (Z_lt_le_dec (3 * height image) (4 * width image)) as [Hlt|]; [|lia].
      apply (gtf_three_quarters _ _ Hh) in Hlt. congruence. }
    change (Qeq_bool (3 # 4) 0) with false. cbv iota.
    rewrite int_four_thirds by lia.
    set (nh := 4 * width image / 3). set (y0 := (height image - nh) / 2).
    assert (Hnh : 0 <= nh <= height image).
    { unfold nh. split; [apply Z.div_pos; lia|].
      apply Z.div_le_upper_bound; lia. }
    assert (Hy0 : 2 * y0 <= height image - nh <= 2 * y0 + 1).
    { unfold y0. pose proof (Z.div_mod (height image - nh) 2).
      pose proof (Z.mod_pos_bound (height image - nh) 2). lia. }
    unfold PIL.crop.
    destruct (Z.ltb_spec (width image) 0); [lia|].
    destruct (Z.ltb_spec (y0 + nh) y0); [lia|]. cbn [orb].
    eexists. split; [reflexivity|]. split.
    + intros Hwide. apply ratio_wide in Hwide; [lia | exact Hh].
    + intros _. cbv zeta. fold nh. fold y0. cbn [width height make_raster].
      repeat split; try lia.
      intros x y Hx Hy. rewrite get_pixel_make_raster by lia.
      f_equal.
Qed.

(** ** process_one *)
Section ProcessOne.

Variable median_cut : Z -> Raster -> Raster.

Lemma resize_nearest_size r w h out :
  PIL.resize_nearest r w h = inl out ->
  width out = w /\ height out = h /\ 1 <= w /\ 1 <= h.
Proof.
  unfold PIL.resize_nearest.
  destruct (Z.ltb_spec w 1); [discriminate|].
  destruct (Z.ltb_spec h 1); [discriminate|]. cbn [orb].
  intros [= <-]. cbn. lia.
Qed.

Lemma transform_size image fw fh pw ph q out :
  transform median_cut image fw fh pw ph q = inl out ->
  width out = fw /\ height out = fh.
Proof.
  unfold transform.
  destruct (center_crop_to_ratio image (3 # 4)); [|discriminate].
  destruct (PIL.resize_nearest _ pw ph); [|discriminate].
  destruct (PIL.quantize median_cut _ _); [|discriminate].
  intros H. apply resize_nearest_size in H. tauto.
Qed.

Lemma process_one_inv source destination fw fh pw ph q fs fs' res :
  process_one median_cut source destination fw fh pw ph q fs = (fs', res) ->
  match res with
  | inl _ => exists image out,
      Image_open fs source = inl image /\
      transform median_cut image fw fh pw ph q = inl out /\
      fs' = Image_save fs destination out
  | inr _ => fs' = fs
  end.
Proof.
  unfold process_one.
  destruct (Image_open fs source) as [image|e]; [|intros [= <- <-]; reflexivity].
  destruct (transform median_cut image fw fh pw ph q) as [out|e] eqn:T;
    intros [= <- <-]; [|reflexivity].
  exists image, out. auto.
Qed.

End ProcessOne.

(** ** The loop of main *)

Lemma destinations_app (a b : list event) :
  destinations (a ++ b) = destinations a ++ destinations b.
Proof.
  induction a as [|e a IH]; [reflexivity|].
  destruct e; cbn; rewrite ?IH; reflexivity.
Qed.

Lemma extends_refl fw fh st : extends fw fh st st [] [].
Proof.
  split; cbn; rewrite ?app_nil_r; try reflexivity; try lia.
  apply Forall_nil. exact I.
Qed.

Lemma extends_trans fw fh st1 st2 st3 n1 n2 e1 e2 :
  extends fw fh st1 st2 n1 e1 -> extends fw fh st2 st3 n2 e2 ->
  extends fw fh st1 st3 (n1 ++ n2) (e1 ++ e2).
Proof.
  intros [C1 S1 V1 D1 P1 Z1 R1 T1 F1] [C2 S2 V2 D2 P2 Z2 R2 T2 F2]. split.
  - congruence.
  - congruence.
  - rewrite V2, V1. apply eq_sym, app_assoc.
  - rewrite D2, D1. unfold replay. now rewrite fold_left_app.
  - rewrite P2, P1, List.map_app. apply eq_sym, app_assoc.
  - unfold card_saves in *. apply Forall_app. split; assumption.
  - rewrite R2, R1. apply eq_sym, app_assoc.
  - rewrite destinations_app, List.map_app. congruence.
  - rewrite F2, F1, List.filter_app, length_app. lia.
Qed.

Section Loop.

Variable median_cut : Z -> Raster -> Raster.
Variable args : Args.
Variables final_width final_height pixel_width pixel_height : Z.

Let step := card_step median_cut args final_width final_height
                      pixel_width pixel_height.
Let loop := process_cards median_cut args final_width final_height
                          pixel_width pixel_height.

Lemma card_step_extends card st st' stop :
  step card st = (st', stop) ->
  exists news evs, extends final_width final_height st st' news evs.
Proof.
  unfold step, card_step.
  destruct card as [| | | | |items|fields];
    try (intros [= <- <-]; exists [], []; apply extends_refl).
  destruct (String.eqb _ "").
  { intros [= <- <-]. exists [], [ErrMalformed (JObj fields)].
    split; cbn; rewrite ?app_nil_r; try reflexivity. apply Forall_nil. exact I. }
  set (slug := card_slug fields). set (name := card_name fields).
  destruct (find_source_image (files st) slug) as [source|].
  2:{ intros [= <- <-]. exists [], [ErrMissing slug].
      split; cbn; rewrite ?app_nil_r; try reflexivity. apply Forall_nil. exact I. }
  destruct (process_one _ _ _ _ _ _ _ _ _) as [fs res] eqn:P.
  apply process_one_inv in P. destruct res as [[]|exc].
  - destruct P as (image & out & _ & T & ->). apply transform_size in T.
    intros [= <- <-].
    exists [(destination_of slug, out)], [OutProcessed name (destination_of slug)].
    split; cbn; try reflexivity; try lia.
    apply Forall_singleton. cbn. tauto.
  - subst fs. destruct (Py.is_OSError exc); intros [= <- <-].
    + exists [], [ErrFailed slug exc].
      split; cbn; rewrite ?app_nil_r; try reflexivity. apply Forall_nil. exact I.
    + exists [], []. split; cbn; rewrite ?app_nil_r; try reflexivity; try lia.
      apply Forall_nil. exact I.
Qed.

Lemma process_cards_extends cards st st' stop :
  loop cards st = (st', stop) ->
  exists news evs, extends final_width final_height st st' news evs.
Proof.
  unfold loop. revert st. induction cards as [|card rest IH]; intros st.
  - intros [= <- <-]. exists [], []. apply extends_refl.
  - cbn [process_cards]. fold step.
    destruct (step card st) as [st1 [exc|]] eqn:S.
    + intros [= <- <-]. eapply card_step_extends; exact S.
    + intros L. apply card_step_extends in S as (n1 & e1 & X1).
      apply IH in L as (n2 & e2 & X2).
      exists (n1 ++ n2), (e1 ++ e2). eapply extends_trans; eassumption.
Qed.

End Loop.

(** ** create_contact_sheet *)

Lemma paste_size sheet tile x0 y0 :
  width (PIL.paste sheet tile x0 y0) = width sheet /\
  height (PIL.paste sheet tile x0 y0) = height sheet.
Proof. split; reflexivity. Qed.

Lemma get_pixel_paste sheet tile x0 y0 x y :
  0 <= x < width sheet -> 0 <= y < height sheet ->
  get_pixel (PIL.paste sheet tile x0 y0) x y =
  if in_bounds (width tile) (height tile) (x - x0) (y - y0)
  then get_pixel tile (x - x0) (y - y0)
  else get_pixel sheet x y.
Proof. intros Hx Hy. unfold PIL.paste. now rewrite get_pixel_make_raster. Qed.

Lemma slots_disjoint tw th i j x y :
  0 < tw -> 0 < th -> 0 <= i -> 0 <= j -> i <> j ->
  in_slot tw th i x y -> in_slot tw th j x y -> False.
Proof.
  intros Htw Hth Hi Hj Hij [Hxi Hyi] [Hxj Hyj].
  pose proof (Z.div_mod i 4 ltac:(lia)) as Ei.
  pose proof (Z.div_mod j 4 ltac:(lia)) as Ej.
  pose proof (Z.mod_pos_bound i 4 ltac:(lia)) as Bi.
  pose proof (Z.mod_pos_bound j 4 ltac:(lia)) as Bj.
  set (ci := i mod 4) in *. set (cj := j mod 4) in *.
  set (ri := i / 4) in *. set (rj := j / 4) in *.
  destruct (Z.lt_trichotomy ci cj) as [L|[E|L]].
  - assert ((ci + 1) * (tw + 12) <= cj * (tw + 12))
      by (apply Z.mul_le_mono_nonneg_r; lia). lia.
  - assert (ri <> rj) by lia.
    destruct (Z.lt_trichotomy ri rj) as [L|[E'|L]]; [|lia|].
    + assert ((ri + 1) * (th + 12) <= rj * (th + 12))
        by (apply Z.mul_le_mono_nonneg_r; lia). lia.
    + assert ((rj + 1) * (th + 12) <= ri * (th + 12))
        by (apply Z.mul_le_mono_nonneg_r; lia). lia.
  - assert ((cj + 1) * (tw + 12) <= ci * (tw + 12))
      by (apply Z.mul_le_mono_nonneg_r; lia). lia.
Qed.

Lemma paste_tiles_spec fs tw th outputs tiles :
  0 < tw -> 0 < th -> opens_to fs tw th outputs tiles ->
  forall index sheet, 0 <= index ->
  exists sheet',
    paste_tiles fs outputs index tw th sheet = inl sheet' /\
    width sheet' = width sheet /\ height sheet' = height sheet /\
    forall x y, 0 <= x < width sheet -> 0 <= y < height sheet ->
      (forall (j : nat) tile, tiles !! j = Some tile ->
         in_slot tw th (index + Z.of_nat j) x y ->
         get_pixel sheet' x y =
         get_pixel tile (x - (12 + ((index + Z.of_nat j) mod 4) * (tw + 12)))
                        (y - (12 + ((index + Z.of_nat j) / 4) * (th + 12)))) /\
      ((forall j : nat, (j < length tiles)%nat ->
          ~ in_slot tw th (index + Z.of_nat j) x y) ->
       get_pixel sheet' x y = get_pixel sheet x y).
Proof.
  intros Htw Hth Hopen. induction Hopen as [|p t ps ts (Ho & Wt & Ht) Hrest IH];
    intros index sheet Hidx.
  - exists sheet. cbn. repeat split; try reflexivity.
    intros j tile Hj. discriminate.
  - cbn [paste_tiles]. rewrite Ho.
    set (sx := margin + index mod columns * (tw + margin)).
    set (sy := margin + index / columns * (th + margin)).
    destruct (IH (index + 1) (PIL.paste sheet t sx sy) ltac:(lia))
      as (sheet' & E & W' & H' & Hpix).
    exists sheet'. split; [exact E|]. split; [exact W'|]. split; [exact H'|].
    intros x y Hx Hy. destruct (Hpix x y Hx Hy) as [Hin Hout]. split.
    + intros [|j] tile Hj Hslot.
      * cbn in Hj. injection Hj as <-. rewrite Z.add_0_r in *.
        rewrite Hout.
        2:{ intros j _ Hs. eapply (slots_disjoint tw th index (index + 1 + Z.of_nat j));
              try eassumption; lia. }
        rewrite get_pixel_paste by assumption.
        destruct Hslot as [Sx Sy]. fold sx sy. unfold sx, sy, margin, columns.
        rewrite Wt, Ht.
        replace (in_bounds tw th _ _) with true; [reflexivity|].
        symmetry. apply in_bounds_true. lia.
      * cbn in Hj. replace (index + Z.of_nat (S j)) with (index + 1 + Z.of_nat j) in * by lia.
        apply Hin; assumption.
    + intros Hnone. rewrite Hout.
      2:{ intros j Hj. replace (index + 1 + Z.of_nat j) with (index + Z.of_nat (S j)) by lia.
          apply Hnone. cbn. lia. }
      rewrite get_pixel_paste by assumption.
      replace (in_bounds _ _ _ _) with false; [reflexivity|].
      symmetry. apply in_bounds_false. intros B.
      apply (Hnone 0%nat); [cbn; lia|]. rewrite Z.add_0_r.
      unfold in_slot. unfold sx, sy, margin, columns in B. rewrite Wt, Ht in B. exact B.
Qed.

Lemma ceil_quarter (n : Z) : Qceiling (n # 4) = (n + 4 - 1) / 4.
Proof.
  unfold Qceiling, Qfloor, Qopp. cbn [Qnum Qden].
  pose proof (Z.div_mod (- n) 4 ltac:(lia)).
  pose proof (Z.mod_pos_bound (- n) 4 ltac:(lia)).
  pose proof (Z.div_mod (n + 4 - 1) 4 ltac:(lia)).
  pose proof (Z.mod_pos_bound (n + 4 - 1) 4 ltac:(lia)).
  lia.
Qed.

Lemma opens_to_length fs tw th outputs tiles :
  opens_to fs tw th outputs tiles -> length outputs = length tiles.
Proof. apply Forall2_length. Qed.

(** C5: for a nonempty list of outputs that decode to tiles of the size
    (tile_w, tile_h), the sheet that create_contact_sheet saves is
    4*tile_w + 5*12 wide and ceil(N/4)*tile_h + (ceil(N/4)+1)*12 high; tile i
    fills, pixel for pixel, the region of its own size whose top-left corner
    is (12 + (i mod 4)*(tile_w+12), 12 + (i div 4)*(tile_h+12)); every pixel
    outside these regions has the background colour (20,20,26). *)
Theorem contact_sheet_layout (fs : Files) (outputs : list path)
    (tiles : list Raster) (destination : path) (tile_w tile_h : Z) :
  outputs <> [] -> 0 < tile_w -> 0 < tile_h ->
  opens_to fs tile_w tile_h outputs tiles ->
  let rows := Qceiling (Z.of_nat (length outputs) # 4) in
  exists sheet,
    create_contact_sheet outputs destination tile_w tile_h fs
      = (Image_save fs destination sheet, inl tt) /\
    width sheet = 4 * tile_w + 5 * 12 /\
    height sheet = rows * tile_h + (rows + 1) * 12 /\
    (forall (i : nat) tile, tiles !! i = Some tile ->
       let r := Z.of_nat i / 4 in
       let c := Z.of_nat i mod 4 in
       let x0 := 12 + c * (tile_w + 12) in
       let y0 := 12 + r * (tile_h + 12) in
       x0 + tile_w <= width sheet /\ y0 + tile_h <= height sheet /\
       forall dx dy, 0 <= dx < tile_w -> 0 <= dy < tile_h ->
         get_pixel sheet (x0 + dx) (y0 + dy) = get_pixel tile dx dy) /\
    (forall x y, 0 <= x < width sheet -> 0 <= y < height sheet ->
       (forall i : nat, (i < length outputs)%nat ->
          ~ in_slot tile_w tile_h (Z.of_nat i) x y) ->
       get_pixel sheet x y = (20, 20, 26)).
Proof.
  intros Hne Htw Hth Hopen rows.
  pose proof (opens_to_length _ _ _ _ _ Hopen) as Hlen.
  assert (Hrows : rows = (Z.of_nat (length outputs) + columns - 1) / columns)
    by apply ceil_quarter.
  assert (Hn : 0 < Z.of_nat (length outputs)) by (destruct outputs; [congruence|cbn; lia]).
  assert (Hr1 : 4 * rows >= Z.of_nat (length outputs) /\ 1 <= rows).
  { rewrite Hrows. unfold columns.
    pose proof (Z.div_mod (Z.of_nat (length outputs) + 4 - 1) 4 ltac:(lia)).
    pose proof (Z.mod_pos_bound (Z.of_nat (length outputs) + 4 - 1) 4 ltac:(lia)).
    lia. }
  unfold create_contact_sheet. destruct outputs as [|p0 ps] eqn:Eo; [congruence|].
  rewrite <- Eo in *. rewrite <- Hrows.
  unfold PIL.new, columns, margin.
  destruct (Z.ltb_spec (4 * tile_w + (4 + 1) * 12) 0); [lia|].
  destruct (Z.ltb_spec (rows * tile_h + (rows + 1) * 12) 0); [nia|]. cbn [orb].
  set (blank := make_raster _ _ _).
  destruct (paste_tiles_spec fs tile_w tile_h outputs tiles Htw Hth Hopen 0 blank
              ltac:(lia)) as (sheet & E & W & H' & Hpix).
  rewrite E. exists sheet. split; [reflexivity|].
  assert (Ws : width sheet = 4 * tile_w + 5 * 12) by (rewrite W; cbn; lia).
  assert (Hs : height sheet = rows * tile_h + (rows + 1) * 12) by (rewrite H'; reflexivity).
  split; [exact Ws|]. split; [exact Hs|]. split.
  - intros i tile Hi.
    set (r := Z.of_nat i / 4). set (c := Z.of_nat i mod 4).
    set (x0 := 12 + c * (tile_w + 12)). set (y0 := 12 + r * (tile_h + 12)).
    assert (Hil : (i < length outputs)%nat)
      by (rewrite Hlen; eapply lookup_lt_Some; exact Hi).
    pose proof (Z.div_mod (Z.of_nat i) 4 ltac:(lia)) as Ei.
    pose proof (Z.mod_pos_bound (Z.of_nat i) 4 ltac:(lia)) as Bi.
    fold r c in Ei, Bi.
    assert (Hc : c * (tile_w + 12) <= 3 * (tile_w + 12))
      by (apply Z.mul_le_mono_nonneg_r; lia).
    assert (Hrr : 0 <= r <= rows - 1) by lia.
    assert (Hr : r * (tile_h + 12) <= (rows - 1) * (tile_h + 12))
      by (apply Z.mul_le_mono_nonneg_r; lia).
    assert (Hc0 : 0 <= c * (tile_w + 12)) by (apply Z.mul_nonneg_nonneg; lia).
    assert (Hr0 : 0 <= r * (tile_h + 12)) by (apply Z.mul_nonneg_nonneg; lia).
    split; [unfold x0; lia|]. split; [unfold y0; lia|].
    intros dx dy Hdx Hdy.
    assert (Bx : 0 <= x0 + dx < width blank) by (rewrite <- W, Ws; unfold x0; lia).
    assert (By : 0 <= y0 + dy < height blank) by (rewrite <- H', Hs; unfold y0; lia).
    destruct (Hpix _ _ Bx By) as [Hin _].
    rewrite (Hin i tile Hi).
    + rewrite Z.add_0_l. fold r c x0 y0. f_equal; lia.
    + unfold in_slot. rewrite Z.add_0_l. fold r c x0 y0. lia.
  - intros x y Hx Hy Hnone.
    rewrite W in Hx. rewrite H' in Hy.
    destruct (Hpix x y Hx Hy) as [_ Hout].
    rewrite Hout.
    + unfold blank. apply get_pixel_make_raster; assumption.
    + intros j Hj. rewrite Z.add_0_l. apply Hnone. lia.
Qed.

(** ** What the processed directory holds after the loop *)

Lemma replay_snoc news pr dir :
  replay (news ++ [pr]) dir = <[snd (fst pr) := FImage (snd pr)]> (replay news dir).
Proof. unfold replay. now rewrite fold_left_app. Qed.

Lemma replay_saved news dir p r :
  (p, r) ∈ news ->
  exists p' r', (p', r') ∈ news /\ snd p' = snd p /\
                replay news dir !! snd p = Some (FImage r').
Proof.
  induction news as [|pr news IH] using rev_ind; [intros H; inversion H|].
  rewrite replay_snoc. intros Hin.
  destruct (decide (snd (fst pr) = snd p)) as [E|N].
  - exists (fst pr), (snd pr). split; [|split; [exact E|]].
    + apply elem_of_app. right. destruct pr as [q s]. apply list_elem_of_singleton.
      reflexivity.
    + rewrite E. apply lookup_insert_eq.
  - apply elem_of_app in Hin as [Hin|Hin].
    + destruct (IH Hin) as (p' & r' & Hin' & Hp & Hl).
      exists p', r'. split; [apply elem_of_app; left; exact Hin'|].
      split; [exact Hp|]. rewrite lookup_insert_ne by exact N. exact Hl.
    + apply list_elem_of_singleton in Hin. subst pr. cbn in N. congruence.
Qed.

Lemma Image_open_processed fs name r :
  processed_dir fs !! name = Some (FImage r) ->
  Image_open fs (PROCESSED_DIR, name) = inl r.
Proof. intros H. unfold Image_open, read_file. cbn. now rewrite H. Qed.

Lemma paste_tiles_ok fs outputs tw th :
  (forall p, p ∈ outputs -> exists t, Image_open fs p = inl t) ->
  forall index sheet, exists sheet',
    paste_tiles fs outputs index tw th sheet = inl sheet'.
Proof.
  induction outputs as [|p ps IH]; intros Hall index sheet.
  - exists sheet. reflexivity.
  - cbn [paste_tiles]. destruct (Hall p) as [t ->]; [apply list_elem_of_here|].
    apply IH. intros q Hq. apply Hall. apply list_elem_of_further. exact Hq.
Qed.

Lemma create_contact_sheet_ok fs outputs destination tw th :
  0 <= tw -> 0 <= th ->
  (forall p, p ∈ outputs -> exists t, Image_open fs p = inl t) ->
  (outputs = [] /\
   create_contact_sheet outputs destination tw th fs = (fs, inl tt)) \/
  (outputs <> [] /\ exists sheet,
     create_contact_sheet outputs destination tw th fs
       = (Image_save fs destination sheet, inl tt)).
Proof.
  intros Htw Hth Hall. destruct outputs as [|p0 ps] eqn:E; [left; auto|].
  right. split; [congruence|]. unfold create_contact_sheet.
  set (rows := (Z.of_nat (length (p0 :: ps)) + columns - 1) / columns).
  assert (0 <= rows) by (apply Z.div_pos; unfold columns; cbn [length]; lia).
  unfold PIL.new, columns, margin.
  destruct (Z.ltb_spec (4 * tw + (4 + 1) * 12) 0); [lia|].
  destruct (Z.ltb_spec (rows * th + (rows + 1) * 12) 0); [nia|]. cbn [orb].
  destruct (paste_tiles_ok fs (p0 :: ps) tw th Hall 0 (make_raster (4 * tw + (4 + 1) * 12)
     (rows * th + (rows + 1) * 12) (fun _ _ => sheet_color))) as [sheet' ->].
  exists sheet'. reflexivity.
Qed.

(** ** main, past its checks *)
Section Main.

Variable median_cut : Z -> Raster -> Raster.
Variable args : Args.

Let final_height := arg_height args.
Let final_width := Z.max 1 (Py.round (Py.mulf final_height (3 # 4))).
Let pixel_height := arg_pixel_height args.
Let pixel_width := Z.max 1 (Py.round (Py.mulf pixel_height (3 # 4))).
Let loop := process_cards median_cut args final_width final_height
                          pixel_width pixel_height.

Lemma main_checks_passed fs cards :
  load_cards fs = inl cards -> 0 < arg_height args -> 0 < arg_pixel_height args ->
  main median_cut args fs =
  match loop cards (start fs) with
  | (st, Some exc) => (files st, printed st, Uncaught exc)
  | (st, None) =>
      let summary := [OutDone (Z.of_nat (length (processed_files st))) (failures st)] in
      let code := Returned (if failures st =? 0 then 0 else 1) in
      if arg_contact_sheet args then
        match create_contact_sheet (processed_files st) contact_sheet_path
                final_width final_height (files st) with
        | (fs', inl _) =>
            (fs', (printed st ++ [OutContactSheet contact_sheet_path]) ++ summary, code)
        | (fs', inr exc) => (fs', printed st, Uncaught exc)
        end
      else (files st, printed st ++ summary, code)
  end.
Proof.
  intros L Hh Hp. unfold main. rewrite L.
  destruct (Z.leb_spec (arg_pixel_height args) 0); [lia|].
  destruct (Z.leb_spec (arg_height args) 0); [lia|]. cbn [orb].
  reflexivity.
Qed.

Lemma loop_from_start fs cards st stop :
  loop cards (start fs) = (st, stop) ->
  exists news evs,
    extends final_width final_height (start fs) st news evs /\
    processed_files st = List.map fst news /\
    printed st = evs /\
    saved (files st) = saved fs ++ news /\
    forall p, p ∈ processed_files st -> exists t, Image_open (files st) p = inl t.
Proof.
  intros L. apply process_cards_extends in L as (news & evs & X).
  exists news, evs. split; [exact X|]. destruct X as [C S V D P Z R T F].
  cbn in *. repeat split; try assumption.
  intros p Hp. rewrite P in Hp. apply list_elem_of_fmap in Hp as ([q r] & -> & Hin).
  destruct (replay_saved news (processed_dir fs) q r Hin) as (p' & r' & _ & _ & Hl).
  exists r'. unfold card_saves in Z. rewrite Forall_forall in Z.
  destruct (Z _ Hin) as (Hq & _). cbn in Hq. destruct q as [d name]. cbn in *. subst d.
  apply Image_open_processed. rewrite D. exact Hl.
Qed.

Lemma final_width_round :
  0 < arg_height args -> final_width = Py.round (Py.mulf (arg_height args) (3 # 4)).
Proof.
  intros Hh. unfold final_width, final_height.
  pose proof (round_three_quarters_pos _ Hh). lia.
Qed.

End Main.

(** ** The run as a whole *)
Section Run.

Variable median_cut : Z -> Raster -> Raster.

(** C1: with height > 0 and pixel-height > 0, every card image a run saves
    is round(height * 0.75) wide and height high; the saves of a run are
    these card images, one per card it reports as processed and in that
    order, followed by at most the contact sheet. *)
Theorem processed_card_dimensions (args : Args) (fs fs' : Files)
    (out : list event) (o : outcome) :
  0 < arg_height args -> 0 < arg_pixel_height args ->
  main median_cut args fs = (fs', out, o) ->
  exists card_images sheet_image,
    saved fs' = saved fs ++ card_images ++ sheet_image /\
    List.map fst card_images = destinations out /\
    (forall p r, (p, r) ∈ card_images ->
       width r = Py.round (Py.mulf (arg_height args) (3 # 4)) /\
       height r = arg_height args) /\
    (sheet_image = [] \/
     exists sheet, sheet_image = [(contact_sheet_path, sheet)]).
Proof.
  intros Hh Hp M.
  destruct (load_cards fs) as [cards|exc] eqn:L.
  2:{ unfold main in M. rewrite L in M. injection M as <- <- <-.
      exists [], []. rewrite !app_nil_r.
      split; [reflexivity|]. split; [reflexivity|]. split; [|left; reflexivity].
      intros p r H. inversion H. }
  rewrite (main_checks_passed _ _ _ _ L Hh Hp) in M.
  destruct (process_cards _ _ _ _ _ _ _ _) as [st stop] eqn:Lp.
  destruct (loop_from_start _ _ _ _ _ _ Lp) as (news & evs & X & P & R & V & Hopen).
  assert (Hsizes : forall p r, (p, r) ∈ news ->
            width r = Py.round (Py.mulf (arg_height args) (3 # 4)) /\
            height r = arg_height args).
  { intros p r Hin. destruct X as [_ _ _ _ _ Z _ _ _].
    unfold card_saves in Z. rewrite Forall_forall in Z.
    destruct (Z _ Hin) as (_ & Hw & Hht). cbn in Hw, Hht.
    rewrite <- final_width_round by exact Hh. auto. }
  assert (Hd : List.map fst news = destinations evs)
    by (destruct X; symmetry; assumption).
  destruct stop as [exc|].
  { injection M as <- <- <-. exists news, []. rewrite app_nil_r, R. auto. }
  assert (Hdone : forall a b, destinations (a ++ [OutDone b (failures st)]) = destinations a).
  { intros a b. rewrite destinations_app. cbn. apply app_nil_r. }
  destruct (arg_contact_sheet args).
  - destruct (create_contact_sheet_ok (files st) (processed_files st)
                contact_sheet_path
                (Z.max 1 (Py.round (Py.mulf (arg_height args) (3 # 4))))
                (arg_height args) ltac:(lia) ltac:(lia) Hopen)
      as [[_ E]|[_ [sheet E]]]; rewrite E in M; injection M as <- <- <-.
    + exists news, []. rewrite app_nil_r, Hdone, destinations_app, R. cbn.
      rewrite app_nil_r. auto.
    + exists news, [(contact_sheet_path, sheet)].
      rewrite Hdone, destinations_app, R. cbn. rewrite app_nil_r.
      split; [|eauto]. rewrite V. symmetry. apply app_assoc.
  - injection M as <- <- <-. exists news, [].
    rewrite app_nil_r, Hdone, R. auto.
Qed.

Lemma main_invalid_heights (args : Args) (fs : Files) :
  arg_height args <= 0 \/ arg_pixel_height args <= 0 ->
  main median_cut args fs =
  (fs, [match load_cards fs with
        | inl _ => ErrHeights
        | inr exc => ErrManifest exc
        end], Returned 1).
Proof.
  intros Hbad. unfold main. destruct (load_cards fs) as [cards|exc]; [|reflexivity].
  replace ((arg_pixel_height args <=? 0) || (arg_height args <=? 0)) with true;
    [reflexivity|].
  symmetry. apply orb_true_iff. rewrite !Z.leb_le. tauto.
Qed.

(** C7: when the requested height or pixel height is not positive, the run
    ends with exit code 1 after printing one error, the files are what they
    were (nothing is saved), and no card is reported as processed; with a
    readable manifest the error is the one about the heights. *)
Theorem invalid_heights_abort (args : Args) (fs : Files) :
  arg_height args <= 0 \/ arg_pixel_height args <= 0 ->
  exists err,
    main median_cut args fs = (fs, [err], Returned 1) /\
    exit_status (Returned 1) = 1 /\
    destinations [err] = [] /\
    match load_cards fs with
    | inl _ => err = ErrHeights
    | inr exc => err = ErrManifest exc
    end.
Proof.
  intros Hbad. rewrite main_invalid_heights by exact Hbad.
  eexists. split; [reflexivity|]. split; [reflexivity|].
  destruct (load_cards fs); auto.
Qed.

Lemma dict_get_missing fields key default :
  has_key fields key = false -> dict_get fields key default = default.
Proof.
  induction fields as [|[k v] rest IH]; [reflexivity|].
  cbn. destruct (String.eqb k key); [discriminate|]. exact IH.
Qed.

(** C3, as the code has it: a manifest object whose 'cards' value is not a
    list makes the run fail at once with exit code 1, the files untouched;
    a manifest object without the key 'cards' is read as the empty list of
    cards, and with valid heights the run then processes nothing and exits
    with code 0. *)
Theorem cards_value_not_a_list (args : Args) (fs : Files)
    (fields : list (string * json)) :
  cards_json fs = Some (FJson (JObj fields)) ->
  ((forall items, dict_get fields "cards" (JList []) <> JList items) ->
     load_cards fs = inr Py.ValueError /\
     main median_cut args fs = (fs, [ErrManifest Py.ValueError], Returned 1)) /\
  (has_key fields "cards" = false ->
     load_cards fs = inl [] /\
     (0 < arg_height args -> 0 < arg_pixel_height args ->
      exists out, main median_cut args fs = (fs, out, Returned 0) /\
                  destinations out = [])).
Proof.
  intros Hm. split.
  - intros Hnl.
    assert (L : load_cards fs = inr Py.ValueError).
    { unfold load_cards. rewrite Hm.
      destruct (dict_get fields "cards" (JList [])) eqn:E; try reflexivity.
      exfalso. eapply Hnl. reflexivity. }
    split; [exact L|]. unfold main. now rewrite L.
  - intros Hk.
    assert (L : load_cards fs = inl []).
    { unfold load_cards. rewrite Hm, dict_get_missing by exact Hk. reflexivity. }
    split; [exact L|]. intros Hh Hp.
    rewrite (main_checks_passed _ _ _ _ L Hh Hp). cbn.
    destruct (arg_contact_sheet args); eexists; split; reflexivity.
Qed.

Lemma files_eta (a b : Files) :
  cards_json a = cards_json b -> source_dir a = source_dir b ->
  processed_dir a = processed_dir b -> saved a = saved b -> a = b.
Proof. destruct a, b. cbn. congruence. Qed.

(** C10: when the contact-sheet flag is set and a run that passes its checks
    returns having processed no card, create_contact_sheet got the empty
    list and returned at once: the files are what they were before the run
    (no contact_sheet.png is saved), and still the run prints that the
    contact sheet was generated, just before its summary. *)
Theorem empty_contact_sheet (args : Args) (fs fs' : Files) (cards : list json)
    (out : list event) (code : Z) :
  arg_contact_sheet args = true ->
  load_cards fs = inl cards -> 0 < arg_height args -> 0 < arg_pixel_height args ->
  main median_cut args fs = (fs', out, Returned code) ->
  destinations out = [] ->
  (forall destination tw th files,
     create_contact_sheet [] destination tw th files = (files, inl tt)) /\
  fs' = fs /\ saved fs' = saved fs /\
  exists evs failed,
    out = evs ++ [OutContactSheet contact_sheet_path; OutDone 0 failed].
Proof.
  intros Hflag L Hh Hp M Hnone. split; [reflexivity|].
  rewrite (main_checks_passed _ _ _ _ L Hh Hp), Hflag in M.
  destruct (process_cards _ _ _ _ _ _ _ _) as [st stop] eqn:Lp.
  destruct (loop_from_start _ _ _ _ _ _ Lp) as (news & evs & X & P & R & V & _).
  destruct stop as [exc|]; [discriminate|].
  assert (Hdest : destinations evs = [] -> news = []).
  { destruct X as [_ _ _ _ _ _ _ T _]. rewrite T.
    destruct news; [reflexivity|discriminate]. }
  assert (Hfs : news = [] -> files st = fs).
  { intros ->. destruct X as [C S V' D _ _ _ _ _]. cbn in *.
    apply files_eta; try assumption. now rewrite V', app_nil_r. }
  destruct (processed_files st) as [|p ps] eqn:Ep.
  - cbn in M. injection M as <- <- <-.
    rewrite !destinations_app, R in Hnone. cbn in Hnone. rewrite !app_nil_r in Hnone.
    rewrite (Hfs (Hdest Hnone)). split; [reflexivity|]. split; [reflexivity|].
    exists evs, (failures st). rewrite R, <- app_assoc. reflexivity.
  - exfalso.
    destruct (create_contact_sheet _ _ _ _ _) as [fs1 [[]|exc]]; [|discriminate].
    injection M as <- <- <-.
    rewrite !destinations_app, R in Hnone. cbn in Hnone. rewrite !app_nil_r in Hnone.
    rewrite (Hdest Hnone) in P. discriminate P.
Qed.

End Run.

(** ** Cards that fail, cards that succeed *)

Lemma first_existing_source fs slug exts p :
  first_existing fs slug exts = Some p -> fst p = SOURCE_DIR.
Proof.
  induction exts as [|ext rest IH]; [discriminate|]. cbn.
  destruct (source_dir fs !! _); [intros [= <-]; reflexivity | exact IH].
Qed.

Lemma first_existing_same_source fs1 fs2 slug exts :
  source_dir fs1 = source_dir fs2 ->
  first_existing fs1 slug exts = first_existing fs2 slug exts.
Proof.
  intros E. induction exts as [|ext rest IH]; [reflexivity|]. cbn.
  rewrite E, IH. reflexivity.
Qed.

Lemma Image_open_same_source fs1 fs2 p :
  source_dir fs1 = source_dir fs2 -> fst p = SOURCE_DIR ->
  Image_open fs1 p = Image_open fs2 p.
Proof. intros E Hp. unfold Image_open, read_file. now rewrite Hp, E. Qed.

Lemma extends_skipped fw fh st ev :
  is_failure ev = true -> extends fw fh st (skipped st ev) [] [ev].
Proof.
  intros Hf. split; cbn; rewrite ?app_nil_r; try reflexivity.
  - apply Forall_nil. exact I.
  - destruct ev; try discriminate; reflexivity.
  - rewrite Hf. cbn. lia.
Qed.

Section Cards.

Variable median_cut : Z -> Raster -> Raster.
Variable args : Args.
Variables final_width final_height pixel_width pixel_height : Z.

Let step := card_step median_cut args final_width final_height
                      pixel_width pixel_height.
Let loop := process_cards median_cut args final_width final_height
                          pixel_width pixel_height.

Lemma loop_app l1 l2 st :
  loop (l1 ++ l2) st =
  match loop l1 st with
  | (st1, None) => loop l2 st1
  | stop => stop
  end.
Proof.
  unfold loop. revert st. induction l1 as [|c l1 IH]; intros st; [reflexivity|].
  cbn [app process_cards].
  destruct (card_step _ _ _ _ _ _ c st) as [st1 [exc|]]; [reflexivity|]. apply IH.
Qed.

Lemma loop_failures cards st st' stop :
  loop cards st = (st', stop) -> failures st <= failures st'.
Proof.
  intros L. apply process_cards_extends in L as (news & evs & X).
  destruct X as [_ _ _ _ _ _ _ _ F]. lia.
Qed.

Lemma step_blank fields st :
  card_slug fields = "" ->
  step (JObj fields) st = (skipped st (ErrMalformed (JObj fields)), None).
Proof. intros E. unfold step, card_step. rewrite E. reflexivity. Qed.

Lemma step_not_object card st :
  (forall fields, card <> JObj fields) ->
  step card st = (st, Some Py.AttributeError).
Proof.
  intros N. unfold step, card_step.
  destruct card; try reflexivity. now destruct (N fields).
Qed.

Lemma step_missing fields st :
  card_slug fields <> "" ->
  find_source_image (files st) (card_slug fields) = None ->
  step (JObj fields) st = (skipped st (ErrMissing (card_slug fields)), None).
Proof.
  intros N F. unfold step, card_step.
  destruct (String.eqb_spec (card_slug fields) ""); [contradiction|].
  rewrite F. reflexivity.
Qed.

End Cards.

Section Batch.

Variable median_cut : Z -> Raster -> Raster.
Variable args : Args.

Let final_height := arg_height args.
Let final_width := Z.max 1 (Py.round (Py.mulf final_height (3 # 4))).
Let pixel_height := arg_pixel_height args.
Let pixel_width := Z.max 1 (Py.round (Py.mulf pixel_height (3 # 4))).
Let step := card_step median_cut args final_width final_height
                      pixel_width pixel_height.
Let loop := process_cards median_cut args final_width final_height
                          pixel_width pixel_height.

Lemma loop_counts_blank fields cards st st' :
  card_slug fields = "" -> JObj fields ∈ cards ->
  loop cards st = (st', None) -> failures st < failures st'.
Proof.
  intros Hb Hin. apply list_elem_of_split in Hin as (l1 & l2 & ->).
  unfold loop. rewrite loop_app. fold loop.
  destruct (loop l1 st) as [st1 [exc|]] eqn:L1; [discriminate|].
  unfold loop at 1. cbn [process_cards]. rewrite step_blank by exact Hb.
  intros L2. apply loop_failures in L1, L2. cbn in L2. lia.
Qed.

Lemma main_exit_code fs cards st :
  load_cards fs = inl cards -> 0 < arg_height args -> 0 < arg_pixel_height args ->
  loop cards (start fs) = (st, None) ->
  exists fs' sheet_image,
    main median_cut args fs =
      (fs',
       printed st
         ++ (if arg_contact_sheet args
             then [OutContactSheet contact_sheet_path] else [])
         ++ [OutDone (Z.of_nat (length (processed_files st))) (failures st)],
       Returned (if failures st =? 0 then 0 else 1)) /\
    saved fs' = saved (files st) ++ sheet_image /\
    (sheet_image = [] \/ exists sheet, sheet_image = [(contact_sheet_path, sheet)]).
Proof.
  intros L Hh Hp Lp. rewrite (main_checks_passed _ _ _ _ L Hh Hp).
  fold final_height final_width pixel_height pixel_width loop. rewrite Lp.
  cbv zeta.
  destruct (loop_from_start _ _ _ _ _ _ Lp) as (_ & _ & _ & _ & _ & _ & Hopen).
  destruct (arg_contact_sheet args).
  - destruct (create_contact_sheet_ok (files st) (processed_files st)
                contact_sheet_path final_width final_height
                ltac:(unfold final_width; lia) ltac:(unfold final_height; lia) Hopen)
      as [[_ E]|[_ [sheet E]]]; rewrite E.
    + exists (files st), []. rewrite app_nil_r, <- app_assoc. auto.
    + exists (Image_save (files st) contact_sheet_path sheet),
             [(contact_sheet_path, sheet)].
      rewrite <- app_assoc. split; [reflexivity|]. split; [reflexivity|]. eauto.
  - exists (files st), []. rewrite app_nil_r. auto.
Qed.

Lemma card_slug_missing fields :
  has_key fields "slug" = false -> card_slug fields = "".
Proof.
  intros Hk. unfold card_slug. now rewrite dict_get_missing by exact Hk.
Qed.

(** C9, as the code has it: a manifest entry that is an object whose slug
    text is empty (the key is missing, or its value prints as blank text) is
    skipped: the turn of the loop leaves the files and the list of processed
    files as they are, adds one to the failures, prints the entry as
    malformed, and the loop goes on with the next entry; a run whose
    manifest has such an entry exits with status 1.  An entry that is not an
    object is not skipped: [card.get] raises AttributeError, the loop stops
    there with nothing counted or printed for the entry, the entries after
    it are never looked at, and the run ends with that exception. *)
Theorem malformed_entry (fields : list (string * json)) :
  card_slug fields = "" ->
  (forall fw fh pw ph st,
     card_step median_cut args fw fh pw ph (JObj fields) st
       = (skipped st (ErrMalformed (JObj fields)), None)) /\
  (forall fw fh pw ph rest st,
     process_cards median_cut args fw fh pw ph (JObj fields :: rest) st
       = process_cards median_cut args fw fh pw ph rest
           (skipped st (ErrMalformed (JObj fields)))) /\
  (forall st ev, files (skipped st ev) = files st /\
                 processed_files (skipped st ev) = processed_files st /\
                 failures (skipped st ev) = failures st + 1) /\
  (forall fs cards, load_cards fs = inl cards -> JObj fields ∈ cards ->
     exit_status (snd (main median_cut args fs)) = 1) /\
  (forall entry, (forall other, entry <> JObj other) ->
     (forall fw fh pw ph rest st,
        process_cards median_cut args fw fh pw ph (entry :: rest) st
          = (st, Some Py.AttributeError)) /\
     (forall fs before after st,
        load_cards fs = inl (before ++ entry :: after) ->
        0 < arg_height args -> 0 < arg_pixel_height args ->
        process_cards median_cut args
          (Z.max 1 (Py.round (Py.mulf (arg_height args) (3 # 4))))
          (arg_height args)
          (Z.max 1 (Py.round (Py.mulf (arg_pixel_height args) (3 # 4))))
          (arg_pixel_height args) before (start fs) = (st, None) ->
        main median_cut args fs
          = (files st, printed st, Uncaught Py.AttributeError))).
Proof.
  intros Hb. split; [|split; [|split; [|split]]].
  - intros. apply step_blank. exact Hb.
  - intros. cbn [process_cards]. now rewrite step_blank.
  - intros. cbn. auto.
  - intros fs cards L Hin.
    destruct (Z_lt_le_dec 0 (arg_height args)) as [Hh|Hh];
      [destruct (Z_lt_le_dec 0 (arg_pixel_height args)) as [Hp|Hp]|].
    + destruct (loop cards (start fs)) as [st [exc|]] eqn:Lp.
      * rewrite (main_checks_passed _ _ _ _ L Hh Hp).
        fold final_height final_width pixel_height pixel_width loop.
        rewrite Lp. reflexivity.
      * destruct (main_exit_code _ _ _ L Hh Hp Lp) as (fs' & sh & -> & _).
        pose proof (loop_counts_blank _ _ _ _ Hb Hin Lp) as Hf. cbn in Hf.
        cbn. destruct (Z.eqb_spec (failures st) 0); [lia|reflexivity].
    + rewrite main_invalid_heights by auto. reflexivity.
    + rewrite main_invalid_heights by auto. reflexivity.
  - intros entry N. split.
    + intros. cbn [process_cards]. now rewrite step_not_object.
    + intros fs before after st L Hh Hp Lp.
      rewrite (main_checks_passed _ _ _ _ L Hh Hp), loop_app, Lp.
      cbn [process_cards]. now rewrite step_not_object.
Qed.

Lemma step_ok fs card st :
  processes_ok median_cut args fs card = true ->
  source_dir (files st) = source_dir fs ->
  exists st' out name,
    step card st = (st', None) /\
    extends final_width final_height st st'
      [(card_destination card, out)] [OutProcessed name (card_destination card)].
Proof.
  intros Hok Hsrc. destruct card as [| | | | | |fields]; try discriminate.
  unfold processes_ok in Hok. apply andb_true_iff in Hok as [Hslug Hok].
  unfold find_source_image in *.
  destruct (first_existing fs (card_slug fields) extensions) as [source|] eqn:F;
    [|discriminate].
  pose proof (first_existing_source _ _ _ _ F) as Hdir.
  destruct (Image_open fs source) as [image|] eqn:O; [|discriminate].
  fold final_height final_width pixel_height pixel_width in Hok.
  destruct (transform median_cut image _ _ _ _ _) as [out|] eqn:T; [|discriminate].
  unfold step, card_step, find_source_image.
  apply negb_true_iff in Hslug. rewrite Hslug.
  rewrite (first_existing_same_source (files st) fs) by exact Hsrc. rewrite F.
  unfold process_one.
  rewrite (Image_open_same_source (files st) fs) by assumption. rewrite O, T.
  eexists _, out, _. split; [reflexivity|].
  apply transform_size in T as [Tw Th].
  split; cbn; try reflexivity; try lia.
  apply Forall_singleton. cbn. auto.
Qed.

Lemma loop_ok fs cards :
  Forall (fun c => processes_ok median_cut args fs c = true) cards ->
  forall st, source_dir (files st) = source_dir fs ->
  exists st' news evs,
    loop cards st = (st', None) /\
    extends final_width final_height st st' news evs /\
    List.map fst news = List.map card_destination cards /\
    List.filter is_failure evs = [].
Proof.
  induction 1 as [|c cards Hc _ IH]; intros st Hsrc.
  - exists st, [], []. split; [reflexivity|]. split; [apply extends_refl|]. auto.
  - destruct (step_ok fs c st Hc Hsrc) as (st1 & o1 & nm & S & X1).
    destruct (IH st1) as (st2 & n2 & e2 & L & X2 & Hd & Hf).
    { destruct X1 as [_ S1 _ _ _ _ _ _ _]. congruence. }
    eexists st2, _, _. split; [|split; [eapply extends_trans; eassumption|]].
    + unfold loop. cbn [process_cards]. fold step loop. rewrite S. exact L.
    + cbn. rewrite Hd, Hf. auto.
Qed.

(** C4: in a manifest of N cards where one card's slug has no source image
    under any probed extension and every other card processes without a
    failure, the run is not aborted: it returns exit code 1, saves exactly
    one card image for each of the other N-1 cards, at that card's
    destination and in manifest order, reports processed=N-1 failed=1, and
    its only failure message is the one that names the missing slug. *)
Theorem one_missing_source (fs : Files) (before after : list json)
    (fields : list (string * json)) :
  load_cards fs = inl (before ++ JObj fields :: after) ->
  0 < arg_height args -> 0 < arg_pixel_height args ->
  card_slug fields <> "" ->
  find_source_image fs (card_slug fields) = None ->
  Forall (fun c => processes_ok median_cut args fs c = true) (before ++ after) ->
  let N := length (before ++ JObj fields :: after) in
  exists fs' out card_images sheet_image,
    main median_cut args fs = (fs', out, Returned 1) /\
    saved fs' = saved fs ++ card_images ++ sheet_image /\
    (sheet_image = [] \/ exists sheet, sheet_image = [(contact_sheet_path, sheet)]) /\
    List.map fst card_images = List.map card_destination (before ++ after) /\
    length card_images = (N - 1)%nat /\
    destinations out = List.map fst card_images /\
    List.filter is_failure out = [ErrMissing (card_slug fields)] /\
    last out = Some (OutDone (Z.of_nat (N - 1)) 1).
Proof.
  intros L Hh Hp Hslug Hmiss Hok N.
  apply Forall_app in Hok as [Hok1 Hok2].
  destruct (loop_ok fs before Hok1 (start fs) eq_refl)
    as (st1 & n1 & e1 & L1 & X1 & D1 & F1).
  assert (S1 : source_dir (files st1) = source_dir fs) by (destruct X1; assumption).
  assert (Sm : step (JObj fields) st1
               = (skipped st1 (ErrMissing (card_slug fields)), None)).
  { apply step_missing; [exact Hslug|]. unfold find_source_image in *.
    rewrite (first_existing_same_source _ fs) by exact S1. exact Hmiss. }
  destruct (loop_ok fs after Hok2 (skipped st1 (ErrMissing (card_slug fields))) S1)
    as (st2 & n2 & e2 & L2 & X2 & D2 & F2).
  assert (Lp : loop (before ++ JObj fields :: after) (start fs) = (st2, None)).
  { unfold loop. rewrite loop_app. fold loop. rewrite L1.
    unfold loop. cbn [process_cards]. fold step loop. rewrite Sm. exact L2. }
  pose proof (extends_trans _ _ _ _ _ _ _ _ _ X1
                (extends_trans _ _ _ _ _ _ _ _ _
                   (extends_skipped final_width final_height st1
                      (ErrMissing (card_slug fields)) eq_refl) X2)) as X.
  cbn [app] in X. destruct X as [_ _ V _ P _ R T F]. cbn in V, P, R, F.
  destruct (main_exit_code fs _ st2 L Hh Hp Lp) as (fs' & sheet_image & M & Vs & Hs).
  assert (Hlen : length (n1 ++ n2) = (N - 1)%nat).
  { unfold N. rewrite <- (List.length_map fst), List.map_app, D1, D2.
    rewrite !List.length_app, !List.length_map. cbn [length]. lia. }
  assert (Hfail : failures st2 = 1).
  { rewrite F, List.filter_app, F1. cbn. rewrite F2. reflexivity. }
  rewrite Hfail in M. cbn [Z.eqb] in M.
  eexists fs', _, (n1 ++ n2), sheet_image. split; [exact M|].
  split; [rewrite Vs, V; symmetry; apply app_assoc|].
  split; [exact Hs|].
  split; [rewrite !List.map_app, D1, D2; reflexivity|].
  split; [exact Hlen|].
  split; [|split].
  - rewrite !destinations_app, R, T. destruct (arg_contact_sheet args); cbn;
      rewrite app_nil_r; reflexivity.
  - rewrite !List.filter_app, R, List.filter_app, F1. cbn. rewrite F2.
    destruct (arg_contact_sheet args); reflexivity.
  - rewrite P, List.length_map, Hlen, !app_assoc. apply last_snoc.
Qed.

End Batch.

(** ** The steps of the transform *)

Lemma make_raster_wf w h f : wf_raster (make_raster w h f).
Proof. unfold wf_raster. cbn. now rewrite List.length_map, length_seq. Qed.

Lemma center_crop_returns image :
  0 < width image -> 0 < height image ->
  exists out, center_crop_to_ratio image (3 # 4) = inl out.
Proof.
  intros Hw Hh. unfold center_crop_to_ratio.
  destruct (Z.eqb_spec (height image) 0); [lia|].
  destruct (Py.gtf _ _).
  - rewrite int_three_quarters by lia.
    assert (0 <= 3 * height image / 4) by (apply Z.div_pos; lia).
    unfold PIL.crop.
    destruct (Z.ltb_spec ((width image - 3 * height image / 4) / 2 + 3 * height image / 4)
                         ((width image - 3 * height image / 4) / 2)); [lia|].
    destruct (Z.ltb_spec (height image) 0); [lia|]. cbn [orb]. eauto.
  - change (Qeq_bool (3 # 4) 0) with false. cbv iota.
    rewrite int_four_thirds by lia.
    assert (0 <= 4 * width image / 3) by (apply Z.div_pos; lia).
    unfold PIL.crop.
    destruct (Z.ltb_spec (width image) 0); [lia|].
    destruct (Z.ltb_spec ((height image - 4 * width image / 3) / 2 + 4 * width image / 3)
                         ((height image - 4 * width image / 3) / 2)); [lia|].
    cbn [orb]. eauto.
Qed.

Lemma resize_nearest_returns r w h :
  1 <= w -> 1 <= h -> exists out, PIL.resize_nearest r w h = inl out.
Proof.
  intros Hw Hh. unfold PIL.resize_nearest.
  destruct (Z.ltb_spec w 1); [lia|]. destruct (Z.ltb_spec h 1); [lia|].
  cbn [orb]. eauto.
Qed.

Lemma resize_nearest_wf r w h out :
  PIL.resize_nearest r w h = inl out -> wf_raster out.
Proof.
  unfold PIL.resize_nearest. destruct (_ || _); [discriminate|].
  intros [= <-]. apply make_raster_wf.
Qed.

(** Nearest-neighbour resampling copies pixels: it makes no new colour. *)
Lemma resize_nearest_pixels r w h out :
  PIL.resize_nearest r w h = inl out ->
  wf_raster r -> 1 <= width r -> 1 <= height r ->
  forall c, c ∈ pixels out -> c ∈ pixels r.
Proof.
  unfold PIL.resize_nearest.
  destruct (Z.ltb_spec w 1); [discriminate|].
  destruct (Z.ltb_spec h 1); [discriminate|]. cbn [orb].
  intros [= <-] Hwf Hwr Hhr c Hc.
  apply pixels_make_raster in Hc as (x & y & Hx & Hy & ->).
  set (sx := (2 * x + 1) * width r / (2 * w)).
  set (sy := (2 * y + 1) * height r / (2 * h)).
  assert (Hsx : 0 <= sx < width r).
  { unfold sx. split; [apply Z.div_pos; nia|]. apply Z.div_lt_upper_bound; nia. }
  assert (Hsy : 0 <= sy < height r).
  { unfold sy. split; [apply Z.div_pos; nia|]. apply Z.div_lt_upper_bound; nia. }
  unfold get_pixel.
  replace (in_bounds (width r) (height r) sx sy) with true
    by (symmetry; apply in_bounds_true; lia).
  apply list_elem_of_In, nth_In. rewrite Hwf. nia.
Qed.

Lemma palette_subset (l1 l2 : list color) :
  (forall c, c ∈ l1 -> c ∈ l2) ->
  (length (remove_dups l1) <= length (remove_dups l2))%nat.
Proof.
  intros Hsub. apply submseteq_length, NoDup_submseteq.
  - apply NoDup_remove_dups.
  - intros c Hc. apply elem_of_remove_dups. apply Hsub.
    apply elem_of_remove_dups. exact Hc.
Qed.

Lemma read_saved fs p r : read_file (Image_save fs p r) p = Some (FImage r).
Proof.
  destruct p as [[] name]; unfold read_file, Image_save; cbn; apply lookup_insert_eq.
Qed.

Lemma read_other fs p q r : p <> q -> read_file (Image_save fs p r) q = read_file fs q.
Proof.
  destruct p as [[] n], q as [[] m]; unfold read_file, Image_save; cbn; intros N;
    try reflexivity; apply lookup_insert_ne; congruence.
Qed.

(** ** process_one as a function of the source raster *)
Section Pure.

Variable median_cut : Z -> Raster -> Raster.

Lemma process_one_opened source destination fw fh pw ph q fs image :
  Image_open fs source = inl image ->
  process_one median_cut source destination fw fh pw ph q fs =
  match transform median_cut image fw fh pw ph q with
  | inl out => (Image_save fs destination out, inl tt)
  | inr e => (fs, inr e)
  end.
Proof. intros O. unfold process_one. now rewrite O. Qed.

(** C8: what process_one returns and the image it leaves at its destination
    are a function of the raster its source decodes to and of its
    parameters, whatever else the files hold; run again on the files it
    left, it succeeds again and leaves the same directories. *)
Theorem process_one_deterministic (source1 source2 destination : path)
    (fw fh pw ph q : Z) (fs1 fs2 : Files) (image : Raster) :
  Image_open fs1 source1 = inl image ->
  Image_open fs2 source2 = inl image ->
  snd (process_one median_cut source1 destination fw fh pw ph q fs1)
    = snd (process_one median_cut source2 destination fw fh pw ph q fs2) /\
  (forall fs1' fs2',
     process_one median_cut source1 destination fw fh pw ph q fs1 = (fs1', inl tt) ->
     process_one median_cut source2 destination fw fh pw ph q fs2 = (fs2', inl tt) ->
     exists out,
       transform median_cut image fw fh pw ph q = inl out /\
       read_file fs1' destination = Some (FImage out) /\
       read_file fs2' destination = Some (FImage out)) /\
  (source1 <> destination ->
   forall fs1',
     process_one median_cut source1 destination fw fh pw ph q fs1 = (fs1', inl tt) ->
     exists fs1'',
       process_one median_cut source1 destination fw fh pw ph q fs1' = (fs1'', inl tt) /\
       read_file fs1'' destination = read_file fs1' destination /\
       cards_json fs1'' = cards_json fs1' /\
       source_dir fs1'' = source_dir fs1' /\
       processed_dir fs1'' = processed_dir fs1').
Proof.
  intros O1 O2.
  rewrite (process_one_opened _ _ _ _ _ _ _ _ _ O1).
  rewrite (process_one_opened _ _ _ _ _ _ _ _ _ O2).
  destruct (transform median_cut image fw fh pw ph q) as [out|e] eqn:T.
  - split; [reflexivity|]. split.
    + intros fs1' fs2' [= <-] [= <-]. exists out. rewrite !read_saved. auto.
    + intros Hne fs1' [= <-].
      assert (O1' : Image_open (Image_save fs1 destination out) source1 = inl image).
      { unfold Image_open in *. rewrite read_other by congruence. exact O1. }
      rewrite (process_one_opened _ _ _ _ _ _ _ _ _ O1'), T.
      eexists. split; [reflexivity|]. rewrite !read_saved.
      destruct destination as [[] name]; unfold Image_save; cbn;
        rewrite ?insert_insert_eq; auto.
  - split; [reflexivity|]. split.
    + intros ? ? [=].
    + intros _ ? [=].
Qed.

End Pure.

(** ** The quantize step *)
Section Quantize.

Variable median_cut : Z -> Raster -> Raster.

(** Pillow's contract for the palette reduction: the raster keeps its size
    and comes back with at most [k] colours. *)
Hypothesis median_cut_size : forall k r,
  wf_raster r ->
  wf_raster (median_cut k r) /\
  width (median_cut k r) = width r /\ height (median_cut k r) = height r.
Hypothesis median_cut_colors : forall k r,
  1 <= k -> (length (palette (median_cut k r)) <= Z.to_nat k)%nat.

Lemma transform_quantized image fw fh pw ph q :
  0 < width image -> 0 < height image ->
  1 <= fw -> 1 <= fh -> 1 <= pw -> 1 <= ph -> q <= 256 ->
  exists out,
    transform median_cut image fw fh pw ph q = inl out /\
    (length (palette out) <= Z.to_nat (Z.max 2 q))%nat.
Proof.
  intros Hw Hh Hfw Hfh Hpw Hph Hq. unfold transform.
  destruct (center_crop_returns image Hw Hh) as [cropped ->].
  destruct (resize_nearest_returns cropped pw ph Hpw Hph) as [small Es].
  rewrite Es. unfold PIL.quantize.
  destruct (Z.ltb_spec (Z.max 2 q) 1); [lia|].
  destruct (Z.ltb_spec 256 (Z.max 2 q)); [lia|]. cbn [orb].
  destruct (resize_nearest_returns (median_cut (Z.max 2 q) small) fw fh Hfw Hfh)
    as [out Eo].
  exists out. split; [exact Eo|].
  pose proof (resize_nearest_wf _ _ _ _ Es) as Wfs.
  destruct (resize_nearest_size _ _ _ _ Es) as (Ws & Hs & _).
  destruct (median_cut_size (Z.max 2 q) small Wfs) as (Wfq & Wq & Hq').
  etransitivity; [|apply (median_cut_colors (Z.max 2 q) small); lia].
  unfold palette. apply palette_subset.
  apply (resize_nearest_pixels _ _ _ _ Eo Wfq); lia.
Qed.

(** C6, as the code has it: for every quantize value up to 256, zero and
    negative values included, process_one on a decodable source succeeds and
    its image has at most max(2, quantize) colours; a value of 2 or less
    behaves exactly as 2 and gives at most 2 colours; above 256 the colour
    count is one Pillow refuses, and process_one raises ValueError without
    saving. *)
Theorem quantize_floor (source destination : path) (fs : Files) (image : Raster)
    (fw fh pw ph q : Z) :
  Image_open fs source = inl image ->
  0 < width image -> 0 < height image ->
  1 <= fw -> 1 <= fh -> 1 <= pw -> 1 <= ph ->
  (q <= 256 ->
     exists out,
       process_one median_cut source destination fw fh pw ph q fs
         = (Image_save fs destination out, inl tt) /\
       (length (palette out) <= Z.to_nat (Z.max 2 q))%nat) /\
  (q <= 2 ->
     process_one median_cut source destination fw fh pw ph q fs
       = process_one median_cut source destination fw fh pw ph 2 fs /\
     exists out,
       process_one median_cut source destination fw fh pw ph q fs
         = (Image_save fs destination out, inl tt) /\
       (length (palette out) <= 2)%nat) /\
  (256 < q ->
     process_one median_cut source destination fw fh pw ph q fs
       = (fs, inr Py.ValueError)).
Proof.
  intros O Hw Hh Hfw Hfh Hpw Hph.
  rewrite !(process_one_opened _ _ _ _ _ _ _ _ _ _ O).
  split; [|split].
  - intros Hq.
    destruct (transform_quantized image fw fh pw ph q) as (out & -> & Hc); try assumption.
    exists out. auto.
  - intros Hq. split.
    + unfold transform. replace (Z.max 2 q) with (Z.max 2 2) by lia. reflexivity.
    + destruct (transform_quantized image fw fh pw ph q) as (out & -> & Hc);
        try assumption; [lia|].
      exists out. split; [reflexivity|].
      replace (Z.max 2 q) with 2 in Hc by lia. exact Hc.
  - intros Hq. unfold transform.
    destruct (center_crop_returns image Hw Hh) as [cropped ->].
    destruct (resize_nearest_returns cropped pw ph Hpw Hph) as [small ->].
    unfold PIL.quantize.
    destruct (Z.ltb_spec (Z.max 2 q) 1); [reflexivity|].
    destruct (Z.ltb_spec 256 (Z.max 2 q)); [reflexivity|lia].
Qed.

End Quantize.

(** The sample quantizer meets the contract. *)
Lemma first_colors_size k r :
  wf_raster r ->
  wf_raster (first_colors k r) /\
  width (first_colors k r) = width r /\ height (first_colors k r) = height r.
Proof.
  unfold wf_raster, first_colors. cbn. rewrite List.length_map. auto.
Qed.

Lemma first_colors_colors k r :
  1 <= k -> (length (palette (first_colors k r)) <= Z.to_nat k)%nat.
Proof.
  intros Hk. unfold palette at 1, first_colors. cbn [pixels].
  set (keep := take (Z.to_nat k) (palette r)).
  assert (Hlen : (length keep <= Z.to_nat k)%nat) by (unfold keep; rewrite length_take; lia).
  etransitivity; [|exact Hlen].
  destruct keep as [|c0 rest] eqn:Ek.
  - (* no colour kept: the raster has no pixel *)
    assert (Hp : pixels r = []).
    { destruct (pixels r) as [|c cs] eqn:Ep; [reflexivity|]. exfalso.
      unfold keep, palette in Ek. rewrite Ep in Ek.
      destruct (Z.to_nat k) as [|n] eqn:En; [lia|].
      cbn in Ek. destruct (decide_rel _ c cs); cbn in Ek.
      - assert (Hin : c ∈ remove_dups cs) by (apply elem_of_remove_dups; assumption).
        destruct (remove_dups cs); [inversion Hin | discriminate].
      - discriminate. }
    rewrite Hp. cbn. lia.
  - apply submseteq_length, NoDup_submseteq; [apply NoDup_remove_dups|].
    intros c Hc. apply elem_of_remove_dups, list_elem_of_In, in_map_iff in Hc
      as (c' & <- & _).
    destruct (bool_decide_reflect (c' ∈ c0 :: rest)); [assumption|].
    cbn. apply list_elem_of_here.
Qed.

(** ** The statements at sample inputs *)

Lemma processed_card_dimensions_witness :
  0 < arg_height (small_args true) /\ 0 < arg_pixel_height (small_args true) /\
  exists fs' out o card_images sheet_image,
    main first_colors (small_args true) three_cards = (fs', out, o) /\
    saved fs' = saved three_cards ++ card_images ++ sheet_image /\
    List.map fst card_images = destinations out /\
    forall p r, (p, r) ∈ card_images -> width r = 3 /\ height r = 4.
Proof.
  split; [cbn; lia|]. split; [cbn; lia|].
  destruct (main first_colors (small_args true) three_cards) as [[fs' out] o] eqn:M.
  destruct (processed_card_dimensions first_colors (small_args true) three_cards
              fs' out o ltac:(cbn; lia) ltac:(cbn; lia) M)
    as (card_images & sheet_image & Hs & Hd & Hsz & _).
  exists fs', out, o, card_images, sheet_image. auto.
Defined.

(** C2 fails as stated: the crop truncates where the claim rounds.  A 10 by
    5 source (ratio above 3/4) is cropped to width 3, not round(3.75) = 4;
    a 2 by 3 source (ratio below 3/4) to height 2, not round(2.67) = 3. *)
Lemma center_crop_not_rounded :
  (exists out, center_crop_to_ratio wide_10x5 (3 # 4) = inl out /\
     (3 # 4 < Py.truediv (width wide_10x5) (height wide_10x5))%Q /\
     width out = 3 /\ Py.round (Py.mulf (height wide_10x5) (3 # 4)) = 4) /\
  (exists out, center_crop_to_ratio tall_2x3 (3 # 4) = inl out /\
     (Py.truediv (width tall_2x3) (height tall_2x3) <= 3 # 4)%Q /\
     height out = 2 /\ Py.round (Py.divf (width tall_2x3) (3 # 4)) = 3).
Proof.
  split; eexists; (split; [vm_compute; reflexivity|]);
    (split; [vm_compute; congruence|]); split; reflexivity.
Qed.

Lemma center_crop_to_ratio_floor_witness :
  0 < width wide_10x5 /\ 0 < height wide_10x5 /\
  exists out, center_crop_to_ratio wide_10x5 (3 # 4) = inl out /\
    width out = 3 /\ height out = 5 /\
    get_pixel out 0 0 = get_pixel wide_10x5 3 0.
Proof.
  split; [cbn; lia|]. split; [cbn; lia|].
  destruct (center_crop_to_ratio_floor wide_10x5 ltac:(cbn; lia) ltac:(cbn; lia))
    as (out & E & Hwide & _).
  exists out. split; [exact E|].
  destruct Hwide as (Hh & Hw & _ & _ & _ & Hpix); [vm_compute; reflexivity|].
  split; [exact Hw|]. split; [exact Hh|].
  apply (Hpix 0 0); [change (0 <= 0 < 3) | change (0 <= 0 < 5)]; lia.
Defined.

(** C3 fails as stated: a manifest object without the key 'cards' loads as
    the empty list and the run exits with code 0. *)
Lemma missing_cards_key_exits_0 :
  has_key [("version", JInt 1)] "cards" = false /\
  load_cards no_cards_key = inl [] /\
  main first_colors default_args no_cards_key
    = (no_cards_key, [OutDone 0 0], Returned 0).
Proof. repeat split. Qed.

Lemma cards_value_not_a_list_witness :
  cards_json cards_not_a_list = Some (FJson (JObj [("cards", JStr "luke")])) /\
  main first_colors default_args cards_not_a_list
    = (cards_not_a_list, [ErrManifest Py.ValueError], Returned 1) /\
  cards_json no_cards_key = Some (FJson (JObj [("version", JInt 1)])) /\
  load_cards no_cards_key = inl [].
Proof.
  split; [reflexivity|]. split.
  - apply (cards_value_not_a_list first_colors default_args cards_not_a_list
             [("cards", JStr "luke")] eq_refl).
    intros items. cbn. discriminate.
  - split; [reflexivity|].
    apply (cards_value_not_a_list first_colors default_args no_cards_key
             [("version", JInt 1)] eq_refl).
    reflexivity.
Defined.

Lemma one_missing_source_witness :
  load_cards three_cards
    = inl ([card "Luke" "luke"] ++ card "Yoda" "yoda" :: [card "Leia" "leia"]) /\
  find_source_image three_cards "yoda" = None /\
  Forall (fun c => processes_ok first_colors (small_args true) three_cards c = true)
         ([card "Luke" "luke"] ++ [card "Leia" "leia"]) /\
  exists fs' out card_images sheet_image,
    main first_colors (small_args true) three_cards = (fs', out, Returned 1) /\
    saved fs' = saved three_cards ++ card_images ++ sheet_image /\
    List.map fst card_images = [destination_of "luke"; destination_of "leia"] /\
    List.filter is_failure out = [ErrMissing "yoda"] /\
    last out = Some (OutDone 2 1).
Proof.
  assert (Hok : Forall (fun c => processes_ok first_colors (small_args true)
                                   three_cards c = true)
                       ([card "Luke" "luke"] ++ [card "Leia" "leia"])).
  { repeat constructor; vm_compute; reflexivity. }
  split; [reflexivity|]. split; [vm_compute; reflexivity|]. split; [exact Hok|].
  destruct (one_missing_source first_colors (small_args true) three_cards
              [card "Luke" "luke"] [card "Leia" "leia"]
              [("name", JStr "Yoda"); ("slug", JStr "yoda")]
              eq_refl ltac:(cbn; lia) ltac:(cbn; lia)
              ltac:(vm_compute; discriminate) ltac:(vm_compute; reflexivity) Hok)
    as (fs' & out & card_images & sheet_image & M & Hs & _ & Hd & _ & _ & Hf & Hl).
  exists fs', out, card_images, sheet_image. auto.
Defined.

Lemma contact_sheet_layout_witness :
  opens_to two_tiles 3 4 [(PROCESSED_DIR, "a.png"); (PROCESSED_DIR, "b.png")]
           [tile_a; tile_b] /\
  exists sheet,
    create_contact_sheet [(PROCESSED_DIR, "a.png"); (PROCESSED_DIR, "b.png")]
      contact_sheet_path 3 4 two_tiles
      = (Image_save two_tiles contact_sheet_path sheet, inl tt) /\
    width sheet = 72 /\ height sheet = 28 /\
    get_pixel sheet 27 12 = get_pixel tile_b 0 0 /\
    get_pixel sheet 0 0 = (20, 20, 26).
Proof.
  assert (Hopen : opens_to two_tiles 3 4
                    [(PROCESSED_DIR, "a.png"); (PROCESSED_DIR, "b.png")]
                    [tile_a; tile_b]).
  { repeat constructor; vm_compute; reflexivity. }
  split; [exact Hopen|].
  destruct (contact_sheet_layout two_tiles
              [(PROCESSED_DIR, "a.png"); (PROCESSED_DIR, "b.png")] [tile_a; tile_b]
              contact_sheet_path 3 4
              ltac:(discriminate) ltac:(lia) ltac:(lia) Hopen)
    as (sheet & E & Hw & Hh & Htile & Hback).
  exists sheet. split; [exact E|]. split; [exact Hw|]. split; [exact Hh|]. split.
  - destruct (Htile 1%nat tile_b eq_refl) as (_ & _ & Hpix).
    apply (Hpix 0 0); lia.
  - apply Hback; [rewrite Hw; lia | rewrite Hh; change (0 <= 0 < 28); lia |].
    intros i Hi [Hx _]. lia.
Defined.

(** C6 fails as stated: with --quantize 300 the colour count passed to
    Pillow is max(2, 300) = 300, which it refuses; process_one raises
    ValueError where the same call with 28 colours succeeds, and since main
    catches OSError only, the run ends there. *)
Lemma quantize_300_raises :
  snd (process_one first_colors luke_source (destination_of "luke") 3 4 2 2 28
         three_cards) = inl tt /\
  process_one first_colors luke_source (destination_of "luke") 3 4 2 2 300
    three_cards = (three_cards, inr Py.ValueError) /\
  snd (main first_colors
         {| arg_height := 4; arg_pixel_height := 2; arg_quantize := 300;
            arg_contact_sheet := false |} three_cards)
    = Uncaught Py.ValueError.
Proof. split; [|split]; vm_compute; reflexivity. Qed.

Lemma quantize_floor_witness :
  Image_open three_cards luke_source = inl wide_10x5 /\
  (exists out,
     process_one first_colors luke_source (destination_of "luke") 3 4 2 2 (-5)
       three_cards
       = (Image_save three_cards (destination_of "luke") out, inl tt) /\
     (length (palette out) <= 2)%nat) /\
  process_one first_colors luke_source (destination_of "luke") 3 4 2 2 (-5)
    three_cards
  = process_one first_colors luke_source (destination_of "luke") 3 4 2 2 2
      three_cards.
Proof.
  assert (O : Image_open three_cards luke_source = inl wide_10x5)
    by (vm_compute; reflexivity).
  split; [exact O|].
  destruct (quantize_floor first_colors first_colors_size first_colors_colors
              luke_source (destination_of "luke") three_cards wide_10x5
              3 4 2 2 (-5) O
              ltac:(cbn; lia) ltac:(cbn; lia) ltac:(lia) ltac:(lia) ltac:(lia)
              ltac:(lia))
    as (_ & Hfloor & _).
  destruct (Hfloor ltac:(lia)) as (Hsame & out & E & Hc).
  split; [exists out; auto | exact Hsame].
Defined.

Lemma invalid_heights_abort_witness :
  (arg_height (mkArgs 0 64 28 true) <= 0 \/
   arg_pixel_height (mkArgs 0 64 28 true) <= 0) /\
  main first_colors (mkArgs 0 64 28 true) three_cards
    = (three_cards, [ErrHeights], Returned 1).
Proof.
  assert (Hbad : arg_height (mkArgs 0 64 28 true) <= 0 \/
                 arg_pixel_height (mkArgs 0 64 28 true) <= 0) by (left; cbn; lia).
  split; [exact Hbad|].
  destruct (invalid_heights_abort first_colors (mkArgs 0 64 28 true) three_cards Hbad)
    as (err & M & _ & _ & He).
  change (err = ErrHeights) in He. rewrite He in M. exact M.
Defined.

Lemma process_one_deterministic_witness :
  Image_open three_cards luke_source = inl wide_10x5 /\
  Image_open only_yoda luke_source = inl wide_10x5 /\
  snd (process_one first_colors luke_source (destination_of "luke") 3 4 2 2 28
         three_cards)
  = snd (process_one first_colors luke_source (destination_of "luke") 3 4 2 2 28
           only_yoda).
Proof.
  assert (O1 : Image_open three_cards luke_source = inl wide_10x5)
    by (vm_compute; reflexivity).
  assert (O2 : Image_open only_yoda luke_source = inl wide_10x5)
    by (vm_compute; reflexivity).
  split; [exact O1|]. split; [exact O2|].
  apply (process_one_deterministic first_colors luke_source luke_source
           (destination_of "luke") 3 4 2 2 28 three_cards only_yoda wide_10x5 O1 O2).
Defined.

(** C9 fails as stated: the entry "leia" has no slug, yet it is not skipped
    and counted: the run ends at it with AttributeError, nothing is printed
    or saved, and the card after it, whose source image exists, is never
    processed. *)
Lemma non_object_entry_ends_run :
  load_cards leia_then_luke = inl [JStr "leia"; card "Luke" "luke"] /\
  find_source_image leia_then_luke "luke" = Some luke_source /\
  main first_colors default_args leia_then_luke
    = (leia_then_luke, [], Uncaught Py.AttributeError).
Proof. repeat split. Qed.

Lemma malformed_entry_witness :
  card_slug nobody = "" /\
  load_cards blank_then_luke = inl [JObj nobody; card "Luke" "luke"] /\
  exit_status (snd (main first_colors default_args blank_then_luke)) = 1 /\
  main first_colors default_args leia_then_luke
    = (leia_then_luke, [], Uncaught Py.AttributeError).
Proof.
  assert (Hb : card_slug nobody = "") by reflexivity.
  split; [exact Hb|]. split; [reflexivity|].
  destruct (malformed_entry first_colors default_args nobody Hb)
    as (_ & _ & _ & Hexit & Hstop).
  split.
  - apply (Hexit blank_then_luke [JObj nobody; card "Luke" "luke"] eq_refl).
    apply list_elem_of_here.
  - destruct (Hstop (JStr "leia") ltac:(discriminate)) as [_ Hrun].
    apply (Hrun leia_then_luke [] [card "Luke" "luke"] (start leia_then_luke));
      [reflexivity|reflexivity|reflexivity|reflexivity].
Defined.

Lemma empty_contact_sheet_witness :
  arg_contact_sheet (small_args true) = true /\
  load_cards only_yoda = inl [card "Yoda" "yoda"] /\
  main first_colors (small_args true) only_yoda
    = (only_yoda,
       [ErrMissing "yoda"; OutContactSheet contact_sheet_path; OutDone 0 1],
       Returned 1) /\
  saved only_yoda = [].
Proof.
  assert (M : main first_colors (small_args true) only_yoda
                = (only_yoda,
                   [ErrMissing "yoda"; OutContactSheet contact_sheet_path; OutDone 0 1],
                   Returned 1)) by (vm_compute; reflexivity).
  split; [reflexivity|]. split; [reflexivity|]. split; [exact M|].
  destruct (empty_contact_sheet first_colors (small_args true) only_yoda only_yoda
              [card "Yoda" "yoda"] _ 1 eq_refl eq_refl
              ltac:(cbn; lia) ltac:(cbn; lia) M eq_refl)
    as (_ & _ & Hs & _).
  exact Hs.
Defined.

(** * Further properties of process_assets *)

(** ** find_source_image *)

Lemma first_existing_spec fs slug exts :
  match first_existing fs slug exts with
  | Some p =>
      exists (i : nat) ext,
        exts !! i = Some ext /\ p = (SOURCE_DIR, slug +:+ ext) /\
        is_Some (source_dir fs !! (slug +:+ ext)) /\
        forall (j : nat) ext', (j < i)%nat -> exts !! j = Some ext' ->
          source_dir fs !! (slug +:+ ext') = None
  | None => forall ext, ext ∈ exts -> source_dir fs !! (slug +:+ ext) = None
  end.
Proof.
  induction exts as [|ext rest IH]; cbn [first_existing].
  - intros ext H. inversion H.
  - unfold read_file. cbn [fst snd].
    destruct (source_dir fs !! (slug +:+ ext)) as [f|] eqn:E.
    + exists 0%nat, ext. split; [reflexivity|]. split; [reflexivity|].
      split; [rewrite E; eauto|]. intros j ext' Hj. lia.
    + destruct (first_existing fs slug rest) as [p|].
      * destruct IH as (i & ext0 & Hi & Hp & Hex & Hbefore).
        exists (S i), ext0. split; [exact Hi|]. split; [exact Hp|].
        split; [exact Hex|]. intros [|j] ext' Hj Hl.
        -- cbn in Hl. injection Hl as <-. exact E.
        -- cbn in Hl. apply (Hbefore j); [lia|exact Hl].
      * intros ext' Hin. apply elem_of_cons in Hin as [->|Hin]; [exact E|].
        apply IH. exact Hin.
Qed.

(** X1: find_source_image returns the first candidate that exists, in the
    order .png, .jpg, .jpeg, .webp: the file it returns is
    SOURCE_DIR/slug+ext for an extension whose file exists while no file
    exists for any extension before it; it returns None exactly when none of
    the four files exists. *)
Theorem find_source_image_first (fs : Files) (slug : string) :
  match find_source_image fs slug with
  | Some p =>
      exists (i : nat) ext,
        [".png"; ".jpg"; ".jpeg"; ".webp"] !! i = Some ext /\
        p = (SOURCE_DIR, slug +:+ ext) /\
        is_Some (read_file fs p) /\
        forall (j : nat) ext', (j < i)%nat ->
          [".png"; ".jpg"; ".jpeg"; ".webp"] !! j = Some ext' ->
          read_file fs (SOURCE_DIR, slug +:+ ext') = None
  | None =>
      forall ext, ext ∈ [".png"; ".jpg"; ".jpeg"; ".webp"] ->
        read_file fs (SOURCE_DIR, slug +:+ ext) = None
  end.
Proof.
  unfold find_source_image. pose proof (first_existing_spec fs slug extensions) as H.
  destruct (first_existing fs slug extensions) as [p|].
  - destruct H as (i & ext & Hi & -> & Hex & Hb). exists i, ext. auto.
  - exact H.
Qed.

(** ** center_crop_to_ratio: the shape of the result *)

(** X2: on a source of positive size the crop never grows the image, its
    size is 3:4 up to the truncation (3*height - 4*width lies between -2 and
    3), its height is at least 1, and it is empty (width 0) exactly when the
    source is one pixel high. *)
Theorem center_crop_shape (image : Raster) :
  0 < width image -> 0 < height image ->
  exists out,
    center_crop_to_ratio image (3 # 4) = inl out /\
    width out <= width image /\ height out <= height image /\
    -2 <= 3 * height out - 4 * width out <= 3 /\
    1 <= height out /\
    (width out = 0 <-> height image = 1).
Proof.
  intros Hw Hh. unfold center_crop_to_ratio.
  destruct (Z.eqb_spec (height image) 0); [lia|].
  destruct (Py.gtf _ _) eqn:G.
  - apply gtf_three_quarters in G; [|exact Hh].
    rewrite int_three_quarters by lia.
    pose proof (Z.div_mod (3 * height image) 4 ltac:(lia)) as D.
    pose proof (Z.mod_pos_bound (3 * height image) 4 ltac:(lia)) as B.
    set (nw := 3 * height image / 4) in *.
    unfold PIL.crop.
    destruct (Z.ltb_spec ((width image - nw) / 2 + nw) ((width image - nw) / 2)); [lia|].
    destruct (Z.ltb_spec (height image) 0); [lia|]. cbn [orb].
    eexists. split; [reflexivity|]. cbn [width height make_raster]. lia.
  - assert (Hle : 4 * width image <= 3 * height image).
    { destruct (Z_lt_le_dec (3 * height image) (4 * width image)) as [Hlt|]; [|lia].
      apply (gtf_three_quarters _ _ Hh) in Hlt. congruence. }
    change (Qeq_bool (3 # 4) 0) with false. cbv iota.
    rewrite int_four_thirds by lia.
    pose proof (Z.div_mod (4 * width image) 3 ltac:(lia)) as D.
    pose proof (Z.mod_pos_bound (4 * width image) 3 ltac:(lia)) as B.
    set (nh := 4 * width image / 3) in *.
    unfold PIL.crop.
    destruct (Z.ltb_spec (width image) 0); [lia|].
    destruct (Z.ltb_spec ((height image - nh) / 2 + nh) ((height image - nh) / 2)); [lia|].
    cbn [orb]. eexists. split; [reflexivity|]. cbn [width height make_raster]. lia.
Qed.

Lemma center_crop_shape_witness :
  0 < width wide_10x5 /\ 0 < height wide_10x5 /\
  exists out, center_crop_to_ratio wide_10x5 (3 # 4) = inl out /\
    -2 <= 3 * height out - 4 * width out <= 3.
Proof.
  split; [cbn; lia|]. split; [cbn; lia|].
  destruct (center_crop_shape wide_10x5 ltac:(cbn; lia) ltac:(cbn; lia))
    as (out & E & _ & _ & Hr & _).
  exists out. auto.
Defined.

(** ** process_one and create_contact_sheet: what they leave alone *)
Section Frames.

Variable median_cut : Z -> Raster -> Raster.

(** X3: process_one either saves one image of the final size at its
    destination and changes no other file, or raises and changes nothing;
    a source that is missing or does not decode makes it raise an OSError. *)
Theorem process_one_frame (source destination : path)
    (fw fh pw ph q : Z) (fs fs' : Files) (res : result unit) :
  process_one median_cut source destination fw fh pw ph q fs = (fs', res) ->
  cards_json fs' = cards_json fs /\
  (forall p, p <> destination -> read_file fs' p = read_file fs p) /\
  match res with
  | inl _ =>
      exists out,
        read_file fs' destination = Some (FImage out) /\
        width out = fw /\ height out = fh /\
        saved fs' = saved fs ++ [(destination, out)]
  | inr exc =>
      fs' = fs /\
      ((forall image, read_file fs source <> Some (FImage image)) ->
       Py.is_OSError exc = true)
  end.
Proof.
  unfold process_one, Image_open.
  destruct (read_file fs source) as [[data|image|]|] eqn:R;
    try (intros [= <- <-]; repeat split; auto).
  destruct (transform median_cut image fw fh pw ph q) as [out|exc] eqn:T;
    intros [= <- <-].
  - split; [destruct destination as [[] n]; reflexivity|].
    split; [intros p Hp; apply read_other; congruence|].
    exists out. rewrite read_saved. apply transform_size in T as [-> ->].
    repeat split. destruct destination as [[] n]; reflexivity.
  - repeat split; auto. intros Hno. exfalso. eapply Hno. reflexivity.
Qed.

End Frames.

Lemma process_one_frame_witness :
  process_one first_colors luke_source (destination_of "luke") 3 4 2 2 28 three_cards
    = (Image_save three_cards (destination_of "luke")
         (match transform first_colors wide_10x5 3 4 2 2 28 with
          | inl out => out
          | inr _ => wide_10x5
          end), inl tt) /\
  read_file (Image_save three_cards (destination_of "luke")
         (match transform first_colors wide_10x5 3 4 2 2 28 with
          | inl out => out
          | inr _ => wide_10x5
          end)) luke_source = read_file three_cards luke_source.
Proof.
  assert (P : process_one first_colors luke_source (destination_of "luke") 3 4 2 2 28
                three_cards
              = (Image_save three_cards (destination_of "luke")
                   (match transform first_colors wide_10x5 3 4 2 2 28 with
                    | inl out => out
                    | inr _ => wide_10x5
                    end), inl tt)) by (vm_compute; reflexivity).
  split; [exact P|].
  destruct (process_one_frame first_colors _ _ _ _ _ _ _ _ _ _ P) as (_ & Hf & _).
  apply Hf. discriminate.
Defined.

(** ** main: what a run leaves behind *)

Lemma replay_lookup news dir name :
  replay news dir !! name = dir !! name \/
  exists p r, (p, r) ∈ news /\ snd p = name /\
              replay news dir !! name = Some (FImage r).
Proof.
  induction news as [|pr news IH] using rev_ind; [left; reflexivity|].
  rewrite replay_snoc.
  destruct (decide (snd (fst pr) = name)) as [E|N].
  - right. exists (fst pr), (snd pr). split; [|split; [exact E|]].
    + apply elem_of_app. right. destruct pr. apply list_elem_of_singleton. reflexivity.
    + rewrite <- E. apply lookup_insert_eq.
  - rewrite lookup_insert_ne by exact N. destruct IH as [IH|(p & r & Hin & Hp & Hl)].
    + left. exact IH.
    + right. exists p, r. split; [apply elem_of_app; left; exact Hin|]. auto.
Qed.

Lemma save_processed fs name r :
  processed_dir (Image_save fs (PROCESSED_DIR, name) r)
    = replay [((PROCESSED_DIR, name), r)] (processed_dir fs) /\
  source_dir (Image_save fs (PROCESSED_DIR, name) r) = source_dir fs /\
  cards_json (Image_save fs (PROCESSED_DIR, name) r) = cards_json fs /\
  saved (Image_save fs (PROCESSED_DIR, name) r)
    = saved fs ++ [((PROCESSED_DIR, name), r)].
Proof. repeat split. Qed.

Section Effects.

Variable median_cut : Z -> Raster -> Raster.

(** Whatever a run does to the files is the replay of the images it saved,
    all of them in the processed directory. *)
Lemma main_effect (args : Args) (fs fs' : Files) (out : list event) (o : outcome) :
  main median_cut args fs = (fs', out, o) ->
  exists news,
    saved fs' = saved fs ++ news /\
    cards_json fs' = cards_json fs /\
    source_dir fs' = source_dir fs /\
    processed_dir fs' = replay news (processed_dir fs) /\
    Forall (fun pr => fst (fst pr) = PROCESSED_DIR) news.
Proof.
  intros M.
  assert (Hnil : exists news,
             saved fs = saved fs ++ news /\ cards_json fs = cards_json fs /\
             source_dir fs = source_dir fs /\
             processed_dir fs = replay news (processed_dir fs) /\
             Forall (fun pr => fst (fst pr) = PROCESSED_DIR) news).
  { exists []. rewrite app_nil_r. repeat split. apply Forall_nil. exact I. }
  destruct (load_cards fs) as [cards|exc] eqn:L.
  2:{ unfold main in M. rewrite L in M. injection M as <- <- <-. exact Hnil. }
  destruct (Z_lt_le_dec 0 (arg_height args)) as [Hh|Hh];
    [destruct (Z_lt_le_dec 0 (arg_pixel_height args)) as [Hp|Hp]|].
  2,3: rewrite main_invalid_heights in M by auto; injection M as <- <- <-; exact Hnil.
  rewrite (main_checks_passed _ _ _ _ L Hh Hp) in M.
  destruct (process_cards _ _ _ _ _ _ _ _) as [st stop] eqn:Lp.
  destruct (loop_from_start _ _ _ _ _ _ Lp) as (news & evs & X & P & R & V & Hopen).
  destruct X as [C S _ D _ Z _ _ _]. cbn in C, S, D.
  assert (Hdir : Forall (fun pr : path * Raster => fst (fst pr) = PROCESSED_DIR) news).
  { unfold card_saves in Z. eapply Forall_impl; [exact Z|]. cbn. tauto. }
  assert (Hloop : exists news0,
             saved (files st) = saved fs ++ news0 /\
             cards_json (files st) = cards_json fs /\
             source_dir (files st) = source_dir fs /\
             processed_dir (files st) = replay news0 (processed_dir fs) /\
             Forall (fun pr => fst (fst pr) = PROCESSED_DIR) news0)
    by (exists news; auto).
  destruct stop as [exc|]; [injection M as <- <- <-; exact Hloop|].
  destruct (arg_contact_sheet args); [|injection M as <- <- <-; exact Hloop].
  destruct (create_contact_sheet_ok (files st) (processed_files st)
              contact_sheet_path
              (Z.max 1 (Py.round (Py.mulf (arg_height args) (3 # 4))))
              (arg_height args) ltac:(lia) ltac:(lia) Hopen)
    as [[_ E]|[_ [sheet E]]]; rewrite E in M; injection M as <- <- <-;
    [exact Hloop|].
  exists (news ++ [(contact_sheet_path, sheet)]).
  destruct (save_processed (files st) "contact_sheet.png" sheet) as (D' & S' & C' & V').
  fold contact_sheet_path in D', S', C', V'.
  rewrite V', D', S', C', V, D. split; [symmetry; apply app_assoc|].
  split; [exact C|]. split; [exact S|].
  split; [unfold replay; rewrite fold_left_app; reflexivity|].
  apply Forall_app. split; [exact Hdir|]. apply Forall_singleton. reflexivity.
Qed.

(** X4: when the slugs of the manifest are plain file names, no run touches
    the manifest or a source image, and no run removes a file of the
    processed directory: after any run, however it ends, every name of the
    processed directory still has a file, and a file that changed is an
    image the run saved under that name. *)
Theorem main_keeps_files (args : Args) (fs fs' : Files) (out : list event)
    (o : outcome) :
  plain_slugs fs ->
  main median_cut args fs = (fs', out, o) ->
  cards_json fs' = cards_json fs /\
  source_dir fs' = source_dir fs /\
  (forall name, is_Some (processed_dir fs !! name) ->
                is_Some (processed_dir fs' !! name)) /\
  (forall name,
     processed_dir fs' !! name = processed_dir fs !! name \/
     exists r news,
       saved fs' = saved fs ++ news /\ ((PROCESSED_DIR, name), r) ∈ news /\
       processed_dir fs' !! name = Some (FImage r)).
Proof.
  intros _ M. destruct (main_effect _ _ _ _ _ M) as (news & V & C & S & D & Hd).
  split; [exact C|]. split; [exact S|].
  assert (Hcase : forall name,
            processed_dir fs' !! name = processed_dir fs !! name \/
            exists r, ((PROCESSED_DIR, name), r) ∈ news /\
                      processed_dir fs' !! name = Some (FImage r)).
  { intros name. rewrite D.
    destruct (replay_lookup news (processed_dir fs) name)
      as [E|(p & r & Hin & Hp & Hl)]; [left; exact E|].
    right. exists r. split; [|exact Hl].
    rewrite Forall_forall in Hd. pose proof (Hd _ Hin) as Hf. cbn in Hf.
    destruct p as [d n]. cbn in *. subst. exact Hin. }
  split.
  - intros name Hsome. destruct (Hcase name) as [E|(r & _ & E)]; rewrite E; eauto.
  - intros name. destruct (Hcase name) as [E|(r & Hin & E)]; [left; exact E|].
    right. exists r, news. auto.
Qed.

End Effects.

Lemma three_cards_plain : plain_slugs three_cards.
Proof.
  intros cards fields [= <-] Hin.
  repeat (apply elem_of_cons in Hin as [[= ->]|Hin]; [reflexivity|]).
  now apply elem_of_nil in Hin.
Qed.

Lemma main_keeps_files_witness :
  plain_slugs three_cards /\
  exists fs' out o,
    main first_colors (small_args true) three_cards = (fs', out, o) /\
    source_dir fs' = source_dir three_cards /\
    cards_json fs' = cards_json three_cards.
Proof.
  split; [exact three_cards_plain|].
  destruct (main first_colors (small_args true) three_cards) as [[fs' out] o] eqn:M.
  destruct (main_keeps_files first_colors _ _ _ _ _ three_cards_plain M)
    as (C & S & _).
  exists fs', out, o. auto.
Defined.

(** ** main: every card is counted *)
Section Counting.

Variable median_cut : Z -> Raster -> Raster.
Variable args : Args.
Variables final_width final_height pixel_width pixel_height : Z.

Let step := card_step median_cut args final_width final_height
                      pixel_width pixel_height.
Let loop := process_cards median_cut args final_width final_height
                          pixel_width pixel_height.

(** A turn that lets the loop go on either saves one image or prints one
    failure. *)
Lemma card_step_one card st st' :
  step card st = (st', None) ->
  exists news evs,
    extends final_width final_height st st' news evs /\
    (length news + length (List.filter is_failure evs) = 1)%nat.
Proof.
  unfold step, card_step.
  destruct card as [| | | | |items|fields]; try discriminate.
  destruct (String.eqb _ "").
  { intros [= <-]. exists [], [ErrMalformed (JObj fields)].
    split; [apply (extends_skipped _ _ st (ErrMalformed (JObj fields))) |]; reflexivity. }
  destruct (find_source_image (files st) (card_slug fields)) as [source|].
  2:{ intros [= <-]. exists [], [ErrMissing (card_slug fields)].
      split; [apply (extends_skipped _ _ st (ErrMissing (card_slug fields))) |];
        reflexivity. }
  destruct (process_one _ _ _ _ _ _ _ _ _) as [fs res] eqn:P.
  apply process_one_inv in P. destruct res as [[]|exc].
  - destruct P as (image & out & _ & T & ->). apply transform_size in T.
    intros [= <-].
    exists [(destination_of (card_slug fields), out)],
           [OutProcessed (card_name fields) (destination_of (card_slug fields))].
    split; [|reflexivity].
    split; cbn; try reflexivity; try lia.
    apply Forall_singleton. cbn. tauto.
  - subst fs. destruct (Py.is_OSError exc); [|discriminate]. intros [= <-].
    exists [], [ErrFailed (card_slug fields) exc].
    split; [|reflexivity].
    split; cbn; rewrite ?app_nil_r; try reflexivity. apply Forall_nil. exact I.
Qed.

Lemma loop_counts cards st st' :
  loop cards st = (st', None) ->
  exists news evs,
    extends final_width final_height st st' news evs /\
    (length news + length (List.filter is_failure evs) = length cards)%nat.
Proof.
  unfold loop. revert st. induction cards as [|card rest IH]; intros st.
  - intros [= <-]. exists [], []. split; [apply extends_refl|reflexivity].
  - cbn [process_cards]. fold step.
    destruct (step card st) as [st1 [exc|]] eqn:S; [discriminate|].
    intros L. apply card_step_one in S as (n1 & e1 & X1 & H1).
    apply IH in L as (n2 & e2 & X2 & H2).
    exists (n1 ++ n2), (e1 ++ e2). split; [eapply extends_trans; eassumption|].
    rewrite List.length_app, List.filter_app, List.length_app. cbn [length]. lia.
Qed.

End Counting.

Lemma filter_failure_tail evs tail :
  List.filter is_failure tail = [] ->
  List.filter is_failure (evs ++ tail) = List.filter is_failure evs.
Proof. intros H. now rewrite List.filter_app, H, app_nil_r. Qed.

Section Summary.

Variable median_cut : Z -> Raster -> Raster.

(** X5: a run that passes its checks and returns accounts for every card of
    the manifest once: the counts of its summary add up to the number of
    cards, processed is the number of cards it reports as processed, failed
    the number of failure messages it printed, and the exit code is 0
    exactly when failed is 0. *)
Theorem main_counts_every_card (args : Args) (fs fs' : Files)
    (cards : list json) (out : list event) (code : Z) :
  load_cards fs = inl cards ->
  0 < arg_height args -> 0 < arg_pixel_height args ->
  main median_cut args fs = (fs', out, Returned code) ->
  exists processed failed,
    last out = Some (OutDone processed failed) /\
    processed + failed = Z.of_nat (length cards) /\
    processed = Z.of_nat (length (destinations out)) /\
    failed = Z.of_nat (length (List.filter is_failure out)) /\
    (code = 0 \/ code = 1) /\ (code = 0 <-> failed = 0).
Proof.
  intros L Hh Hp M.
  destruct (process_cards median_cut args
              (Z.max 1 (Py.round (Py.mulf (arg_height args) (3 # 4))))
              (arg_height args)
              (Z.max 1 (Py.round (Py.mulf (arg_pixel_height args) (3 # 4))))
              (arg_pixel_height args) cards (start fs)) as [st stop] eqn:Lp.
  destruct stop as [exc|].
  { rewrite (main_checks_passed _ _ _ _ L Hh Hp), Lp in M. discriminate. }
  destruct (main_exit_code _ _ _ _ _ L Hh Hp Lp) as (fs1 & sh & M' & _).
  rewrite M' in M. injection M as <- <- <-.
  destruct (loop_counts _ _ _ _ _ _ _ _ _ Lp) as (news & evs & X & Hc).
  destruct X as [_ _ _ _ P _ R T F]. cbn in P, R, F.
  exists (Z.of_nat (length (processed_files st))), (failures st).
  assert (Hd : destinations (printed st ++
                 (if arg_contact_sheet args
                  then [OutContactSheet contact_sheet_path] else []) ++
                 [OutDone (Z.of_nat (length (processed_files st))) (failures st)])
               = List.map fst news).
  { rewrite !destinations_app, R, T. destruct (arg_contact_sheet args); cbn;
      rewrite app_nil_r; reflexivity. }
  assert (Hf : List.filter is_failure (printed st ++
                 (if arg_contact_sheet args
                  then [OutContactSheet contact_sheet_path] else []) ++
                 [OutDone (Z.of_nat (length (processed_files st))) (failures st)])
               = List.filter is_failure evs).
  { rewrite R. apply filter_failure_tail. destruct (arg_contact_sheet args); reflexivity. }
  rewrite Hd, Hf, P, !List.length_map, F.
  split; [rewrite app_assoc; apply last_snoc|].
  split; [lia|]. split; [reflexivity|]. split; [lia|].
  destruct (Z.eqb_spec (0 + Z.of_nat (length (List.filter is_failure evs))) 0);
    split; try (left; reflexivity); try (right; reflexivity); lia.
Qed.

End Summary.

Lemma main_counts_every_card_witness :
  load_cards three_cards
    = inl [card "Luke" "luke"; card "Yoda" "yoda"; card "Leia" "leia"] /\
  exists fs' out processed failed,
    main first_colors (small_args true) three_cards = (fs', out, Returned 1) /\
    last out = Some (OutDone processed failed) /\
    processed + failed = 3.
Proof.
  split; [reflexivity|].
  destruct (main first_colors (small_args true) three_cards) as [[fs' out] o] eqn:M.
  assert (Ho : o = Returned 1)
    by (change o with (snd (fs', out, o)); rewrite <- M; vm_compute; reflexivity).
  subst o.
  destruct (main_counts_every_card first_colors (small_args true) three_cards fs'
              [card "Luke" "luke"; card "Yoda" "yoda"; card "Leia" "leia"] out 1
              eq_refl ltac:(cbn; lia) ltac:(cbn; lia) M)
    as (processed & failed & Hl & Hsum & _).
  exists fs', out, processed, failed. auto.
Defined.

(** ** main: the contact sheet of a run *)

Lemma create_contact_sheet_tiles fs outputs tiles destination tw th :
  outputs <> [] -> 0 < tw -> 0 < th -> opens_to fs tw th outputs tiles ->
  exists sheet,
    create_contact_sheet outputs destination tw th fs
      = (Image_save fs destination sheet, inl tt) /\
    width sheet = 4 * tw + 5 * 12 /\
    height sheet = Qceiling (Z.of_nat (length outputs) # 4) * th
                   + (Qceiling (Z.of_nat (length outputs) # 4) + 1) * 12 /\
    forall (i : nat) tile, tiles !! i = Some tile ->
      forall dx dy, 0 <= dx < tw -> 0 <= dy < th ->
        get_pixel sheet (12 + Z.of_nat i mod 4 * (tw + 12) + dx)
                        (12 + Z.of_nat i / 4 * (th + 12) + dy)
        = get_pixel tile dx dy.
Proof.
  intros Hne Htw Hth Hopen.
  pose proof (opens_to_length _ _ _ _ _ Hopen) as Hlen.
  rewrite ceil_quarter.
  remember ((Z.of_nat (length outputs) + 4 - 1) / 4) as rows eqn:Hrows.
  assert (Hn : 0 < Z.of_nat (length outputs))
    by (destruct outputs; [congruence|cbn; lia]).
  assert (Hr1 : 4 * rows >= Z.of_nat (length outputs) /\ 1 <= rows).
  { rewrite Hrows.
    pose proof (Z.div_mod (Z.of_nat (length outputs) + 4 - 1) 4 ltac:(lia)).
    pose proof (Z.mod_pos_bound (Z.of_nat (length outputs) + 4 - 1) 4 ltac:(lia)).
    lia. }
  unfold create_contact_sheet. destruct outputs as [|p0 ps] eqn:Eo; [congruence|].
  rewrite <- Eo in *.
  unfold PIL.new, columns, margin. rewrite <- Hrows.
  destruct (Z.ltb_spec (4 * tw + (4 + 1) * 12) 0); [lia|].
  destruct (Z.ltb_spec (rows * th + (rows + 1) * 12) 0); [nia|]. cbn [orb].
  set (blank := make_raster _ _ _).
  destruct (paste_tiles_spec fs tw th outputs tiles Htw Hth Hopen 0 blank
              ltac:(lia)) as (sheet & E & W & H' & Hpix).
  rewrite E. exists sheet. split; [reflexivity|].
  assert (Ws : width sheet = 4 * tw + 5 * 12) by (rewrite W; cbn; lia).
  assert (Hs : height sheet = rows * th + (rows + 1) * 12) by (rewrite H'; reflexivity).
  split; [exact Ws|]. split; [exact Hs|].
  intros i tile Hi dx dy Hdx Hdy.
  set (r := Z.of_nat i / 4). set (c := Z.of_nat i mod 4).
  assert (Hil : (i < length outputs)%nat)
    by (rewrite Hlen; eapply lookup_lt_Some; exact Hi).
  pose proof (Z.div_mod (Z.of_nat i) 4 ltac:(lia)) as Ei.
  pose proof (Z.mod_pos_bound (Z.of_nat i) 4 ltac:(lia)) as Bi.
  fold r c in Ei, Bi.
  assert (Hc : c * (tw + 12) <= 3 * (tw + 12))
    by (apply Z.mul_le_mono_nonneg_r; lia).
  assert (Hr : r * (th + 12) <= (rows - 1) * (th + 12))
    by (apply Z.mul_le_mono_nonneg_r; lia).
  assert (Hc0 : 0 <= c * (tw + 12)) by (apply Z.mul_nonneg_nonneg; lia).
  assert (Hr0 : 0 <= r * (th + 12)) by (apply Z.mul_nonneg_nonneg; lia).
  assert (Bx : 0 <= 12 + c * (tw + 12) + dx < width blank) by (rewrite <- W, Ws; lia).
  assert (By : 0 <= 12 + r * (th + 12) + dy < height blank) by (rewrite <- H', Hs; lia).
  destruct (Hpix _ _ Bx By) as [Hin _].
  rewrite (Hin i tile Hi).
  - rewrite Z.add_0_l. fold r c. f_equal; lia.
  - unfold in_slot. rewrite Z.add_0_l. fold r c. lia.
Qed.

Lemma Forall2_choice {A B} (P : A -> B -> Prop) (l : list A) :
  (forall a, a ∈ l -> exists b, P a b) -> exists k, Forall2 P l k.
Proof.
  induction l as [|a l IH]; intros H.
  - exists []. constructor.
  - destruct (H a) as [b Hb]; [apply list_elem_of_here|].
    destruct IH as [k Hk]; [intros a' Ha'; apply H, list_elem_of_further, Ha'|].
    exists (b :: k). constructor; assumption.
Qed.

Section Sheet.

Variable median_cut : Z -> Raster -> Raster.

(** X7: with --contact-sheet, a run that passes its checks, returns and has
    processed N >= 1 cards saves the sheet last, at contact_sheet.png; the
    sheet is 4*w + 60 wide and ceil(N/4)*h + (ceil(N/4)+1)*12 high for the
    card size (w, h) = (round(height*0.75), height), and slot i shows, pixel
    for pixel, an image the run saved at the i-th processed destination. *)
Theorem main_contact_sheet (args : Args) (fs fs' : Files) (cards : list json)
    (out : list event) (code : Z) :
  arg_contact_sheet args = true ->
  load_cards fs = inl cards ->
  0 < arg_height args -> 0 < arg_pixel_height args ->
  main median_cut args fs = (fs', out, Returned code) ->
  destinations out <> [] ->
  exists sheet card_images,
    saved fs' = saved fs ++ card_images ++ [(contact_sheet_path, sheet)] /\
    read_file fs' contact_sheet_path = Some (FImage sheet) /\
    width sheet = 4 * Py.round (Py.mulf (arg_height args) (3 # 4)) + 5 * 12 /\
    height sheet
      = Qceiling (Z.of_nat (length (destinations out)) # 4) * arg_height args
        + (Qceiling (Z.of_nat (length (destinations out)) # 4) + 1) * 12 /\
    forall (i : nat) p, destinations out !! i = Some p ->
      exists tile,
        (p, tile) ∈ card_images /\
        forall dx dy,
          0 <= dx < Py.round (Py.mulf (arg_height args) (3 # 4)) ->
          0 <= dy < arg_height args ->
          get_pixel sheet
            (12 + Z.of_nat i mod 4
                  * (Py.round (Py.mulf (arg_height args) (3 # 4)) + 12) + dx)
            (12 + Z.of_nat i / 4 * (arg_height args + 12) + dy)
          = get_pixel tile dx dy.
Proof.
  intros Hflag L Hh Hp M Hsome.
  rewrite (main_checks_passed _ _ _ _ L Hh Hp), Hflag in M.
  rewrite <- (final_width_round args Hh).
  set (fw := Z.max 1 (Py.round (Py.mulf (arg_height args) (3 # 4)))) in *.
  assert (Hfw : 0 < fw) by (unfold fw; lia).
  destruct (process_cards _ _ _ _ _ _ _ _) as [st stop] eqn:Lp.
  destruct (loop_from_start _ _ _ _ _ _ Lp) as (news & evs & X & P & R & V & _).
  destruct stop as [exc|]; [discriminate|].
  destruct X as [_ _ _ D _ Z _ T _]. cbn in D.
  (* the tiles: what the processed files hold when the loop ends *)
  destruct (Forall2_choice
              (fun p t => Image_open (files st) p = inl t /\
                          (width t = fw /\ height t = arg_height args) /\
                          (p, t) ∈ news)
              (processed_files st)) as [tiles Htiles].
  { intros p Hin. rewrite P in Hin.
    apply list_elem_of_fmap in Hin as ([q r] & -> & Hin). cbn [fst].
    destruct (replay_saved news (processed_dir fs) q r Hin)
      as (p' & r' & Hin' & Hp' & Hl).
    unfold card_saves in Z. rewrite Forall_forall in Z.
    destruct (Z _ Hin) as (Hq & _). destruct (Z _ Hin') as (Hq' & Hw' & Hh').
    cbn in Hq, Hq', Hw', Hh'.
    assert (p' = q) by (destruct p', q; cbn in *; congruence). subst p'.
    exists r'. split; [|auto].
    destruct q as [d name]. cbn in *. subst d.
    apply Image_open_processed. rewrite D. exact Hl. }
  assert (Hopen : opens_to (files st) fw (arg_height args) (processed_files st) tiles).
  { unfold opens_to. eapply Forall2_impl; [exact Htiles|]. cbn. tauto. }
  assert (Hdest : forall tail b,
            destinations ((printed st ++ [OutContactSheet contact_sheet_path])
                            ++ [OutDone b tail]) = processed_files st).
  { intros. rewrite !destinations_app, R, T, P. cbn. now rewrite !app_nil_r. }
  assert (Hne : processed_files st <> []).
  { destruct (create_contact_sheet _ _ _ _ _) as [fs1 [[]|exc]]; [|discriminate].
    injection M as <- <- <-. rewrite Hdest in Hsome. exact Hsome. }
  destruct (create_contact_sheet_tiles (files st) (processed_files st) tiles
              contact_sheet_path fw (arg_height args) Hne Hfw Hh Hopen)
    as (sheet & E & Ws & Hs & Hpix).
  rewrite E in M. injection M as <- <- <-. rewrite Hdest.
  exists sheet, news. split.
  { destruct (save_processed (files st) "contact_sheet.png" sheet) as (_ & _ & _ & V').
    fold contact_sheet_path in V'. rewrite V', V. symmetry. apply app_assoc. }
  split; [apply read_saved|]. split; [exact Ws|]. split; [exact Hs|].
  intros i p Hi.
  destruct (Forall2_lookup_l _ _ _ _ _ Htiles Hi) as (tile & Ht & _ & _ & Hin).
  exists tile. split; [exact Hin|]. intros dx dy Hdx Hdy.
  apply (Hpix i tile Ht); assumption.
Qed.

End Sheet.

Lemma main_contact_sheet_witness :
  arg_contact_sheet (small_args true) = true /\
  exists fs' out sheet,
    main first_colors (small_args true) three_cards = (fs', out, Returned 1) /\
    read_file fs' contact_sheet_path = Some (FImage sheet) /\
    width sheet = 72 /\ height sheet = 28.
Proof.
  split; [reflexivity|].
  destruct (main first_colors (small_args true) three_cards) as [[fs' out] o] eqn:M.
  assert (Ho : o = Returned 1)
    by (change o with (snd (fs', out, o)); rewrite <- M; vm_compute; reflexivity).
  assert (Hout : destinations out = [destination_of "luke"; destination_of "leia"])
    by (change out with (snd (fst (fs', out, o))); rewrite <- M; vm_compute;
        reflexivity).
  subst o.
  destruct (main_contact_sheet first_colors (small_args true) three_cards fs'
              [card "Luke" "luke"; card "Yoda" "yoda"; card "Leia" "leia"] out 1
              eq_refl eq_refl ltac:(cbn; lia) ltac:(cbn; lia) M
              ltac:(rewrite Hout; discriminate))
    as (sheet & imgs & _ & Hr & Hw & Hhh & _).
  exists fs', out, sheet. split; [reflexivity|]. split; [exact Hr|].
  split; [exact Hw|]. rewrite Hhh, Hout. reflexivity.
Defined.

(** ** main: running it again *)

Lemma last_saved_snoc news pr name :
  last_saved (news ++ [pr]) name
  = if decide (snd (fst pr) = name) then Some (snd pr) else last_saved news name.
Proof. unfold last_saved. now rewrite fold_left_app. Qed.

Lemma replay_lookup_last news dir name :
  replay news dir !! name
  = match last_saved news name with
    | Some r => Some (FImage r)
    | None => dir !! name
    end.
Proof.
  induction news as [|pr news IH] using rev_ind; [reflexivity|].
  rewrite replay_snoc, last_saved_snoc.
  destruct (decide (snd (fst pr) = name)) as [<-|N].
  - apply lookup_insert_eq.
  - rewrite lookup_insert_ne by exact N. exact IH.
Qed.

Lemma last_saved_elem news p r :
  (p, r) ∈ news -> is_Some (last_saved news (snd p)).
Proof.
  induction news as [|pr news IH] using rev_ind; [intros H; inversion H|].
  rewrite last_saved_snoc. intros Hin.
  destruct (decide (snd (fst pr) = snd p)); [eauto|].
  apply elem_of_app in Hin as [Hin|Hin]; [apply IH, Hin|].
  apply list_elem_of_singleton in Hin. subst pr. cbn in *. congruence.
Qed.

Lemma replay_twice news dir : replay news (replay news dir) = replay news dir.
Proof.
  apply map_eq. intros name. rewrite !replay_lookup_last.
  destruct (last_saved news name); reflexivity.
Qed.

Lemma replay_over_sheet news dir name sheet :
  <[name := FImage sheet]> (replay news (<[name := FImage sheet]> (replay news dir)))
  = <[name := FImage sheet]> (replay news dir).
Proof.
  apply map_eq. intros k. destruct (decide (name = k)) as [<-|N].
  - now rewrite !lookup_insert_eq.
  - rewrite !lookup_insert_ne by exact N. rewrite !replay_lookup_last.
    destruct (last_saved news k) eqn:E; [reflexivity|].
    rewrite lookup_insert_ne by exact N. now rewrite replay_lookup_last, E.
Qed.

Lemma paste_tiles_same fsA fsB outputs tw th :
  (forall p, p ∈ outputs -> Image_open fsA p = Image_open fsB p) ->
  forall index sheet,
    paste_tiles fsA outputs index tw th sheet
    = paste_tiles fsB outputs index tw th sheet.
Proof.
  induction outputs as [|p ps IH]; intros Hall index sheet; [reflexivity|].
  cbn [paste_tiles]. rewrite (Hall p) by apply list_elem_of_here.
  destruct (Image_open fsB p); [|reflexivity].
  apply IH. intros q Hq. apply Hall, list_elem_of_further, Hq.
Qed.

Lemma create_contact_sheet_same fsA fsB outputs destination tw th sheet :
  (forall p, p ∈ outputs -> Image_open fsA p = Image_open fsB p) ->
  outputs <> [] ->
  create_contact_sheet outputs destination tw th fsA
    = (Image_save fsA destination sheet, inl tt) ->
  create_contact_sheet outputs destination tw th fsB
    = (Image_save fsB destination sheet, inl tt).
Proof.
  intros Hall Hne. unfold create_contact_sheet.
  destruct outputs as [|p0 ps]; [congruence|].
  destruct (PIL.new _ _ _) as [blank|]; [|discriminate].
  rewrite (paste_tiles_same fsA fsB (p0 :: ps) tw th Hall).
  destruct (paste_tiles fsB _ _ _ _ _) as [sheet'|]; [|discriminate].
  intros [= E]. f_equal. f_equal.
  destruct destination as [[] n]; unfold Image_save in E; cbn in E.
  - apply (f_equal saved) in E. cbn in E. apply app_inv_head in E. congruence.
  - apply (f_equal saved) in E. cbn in E. apply app_inv_head in E. congruence.
Qed.

Section Simulation.

Variable median_cut : Z -> Raster -> Raster.
Variable args : Args.
Variables final_width final_height pixel_width pixel_height : Z.

Let step := card_step median_cut args final_width final_height
                      pixel_width pixel_height.
Let loop := process_cards median_cut args final_width final_height
                          pixel_width pixel_height.

(** The turn of the loop looks at the source directory only: from two
    states with the same source directory it ends the same way, saving and
    printing the same. *)
Lemma card_step_same card a b a' b' sa sb :
  source_dir (files a) = source_dir (files b) ->
  step card a = (a', sa) -> step card b = (b', sb) ->
  sa = sb /\
  exists news evs,
    extends final_width final_height a a' news evs /\
    extends final_width final_height b b' news evs.
Proof.
  intros Hsrc. unfold step, card_step.
  destruct card as [| | | | |items|fields];
    try (intros [= <- <-] [= <- <-]; split; [reflexivity|];
         exists [], []; split; apply extends_refl).
  destruct (String.eqb _ "").
  { intros [= <- <-] [= <- <-]. split; [reflexivity|].
    exists [], [ErrMalformed (JObj fields)].
    split; apply (extends_skipped _ _ _ (ErrMalformed (JObj fields))); reflexivity. }
  unfold find_source_image.
  rewrite (first_existing_same_source (files a) (files b)) by exact Hsrc.
  destruct (first_existing (files b) (card_slug fields) extensions) as [source|] eqn:F.
  2:{ intros [= <- <-] [= <- <-]. split; [reflexivity|].
      exists [], [ErrMissing (card_slug fields)].
      split; apply (extends_skipped _ _ _ (ErrMissing (card_slug fields)));
        reflexivity. }
  pose proof (first_existing_source _ _ _ _ F) as Hdir.
  unfold process_one.
  rewrite (Image_open_same_source (files a) (files b)) by assumption.
  destruct (Image_open (files b) source) as [image|exc].
  - destruct (transform median_cut image _ _ _ _ _) as [out|exc] eqn:T.
    + apply transform_size in T as [Tw Th].
      intros [= <- <-] [= <- <-]. split; [reflexivity|].
      exists [(destination_of (card_slug fields), out)],
             [OutProcessed (card_name fields) (destination_of (card_slug fields))].
      split; (split; cbn; try reflexivity; try lia;
              apply Forall_singleton; cbn; tauto).
    + destruct (Py.is_OSError exc); intros [= <- <-] [= <- <-];
        (split; [reflexivity|]).
      * exists [], [ErrFailed (card_slug fields) exc].
        split; (split; cbn; rewrite ?app_nil_r; try reflexivity;
                apply Forall_nil; exact I).
      * exists [], [].
        split; (split; cbn; rewrite ?app_nil_r; try reflexivity; try lia;
                apply Forall_nil; exact I).
  - destruct (Py.is_OSError exc); intros [= <- <-] [= <- <-];
      (split; [reflexivity|]).
    + exists [], [ErrFailed (card_slug fields) exc].
      split; (split; cbn; rewrite ?app_nil_r; try reflexivity;
              apply Forall_nil; exact I).
    + exists [], [].
      split; (split; cbn; rewrite ?app_nil_r; try reflexivity; try lia;
              apply Forall_nil; exact I).
Qed.

Lemma loop_same cards :
  forall a b a' b' sa sb,
    source_dir (files a) = source_dir (files b) ->
    loop cards a = (a', sa) -> loop cards b = (b', sb) ->
    sa = sb /\
    exists news evs,
      extends final_width final_height a a' news evs /\
      extends final_width final_height b b' news evs.
Proof.
  unfold loop. induction cards as [|card rest IH]; intros a b a' b' sa sb Hsrc.
  - intros [= <- <-] [= <- <-]. split; [reflexivity|].
    exists [], []. split; apply extends_refl.
  - cbn [process_cards]. fold step.
    destruct (step card a) as [a1 s1] eqn:Sa. destruct (step card b) as [b1 s2] eqn:Sb.
    destruct (card_step_same card a b a1 b1 s1 s2 Hsrc Sa Sb)
      as (<- & n1 & e1 & Xa & Xb).
    destruct s1 as [exc|].
    + intros [= <- <-] [= <- <-]. split; [reflexivity|]. exists n1, e1. auto.
    + intros La Lb.
      assert (Hsrc1 : source_dir (files a1) = source_dir (files b1)).
      { destruct Xa as [_ Sa1 _ _ _ _ _ _ _], Xb as [_ Sb1 _ _ _ _ _ _ _]. congruence. }
      destruct (IH a1 b1 a' b' sa sb Hsrc1 La Lb) as (-> & n2 & e2 & Ya & Yb).
      split; [reflexivity|]. exists (n1 ++ n2), (e1 ++ e2).
      split; eapply extends_trans; eassumption.
Qed.

End Simulation.

Section Rerun.

Variable median_cut : Z -> Raster -> Raster.

Lemma load_cards_same fs1 fs2 :
  cards_json fs1 = cards_json fs2 -> load_cards fs1 = load_cards fs2.
Proof. intros E. unfold load_cards. now rewrite E. Qed.

(** X8: when the slugs of the manifest are plain file names, running main
    again on the files a run left, with the same arguments, prints the same,
    ends the same way and leaves the three directories exactly as the first
    run left them. *)
Theorem main_rerun (args : Args) (fs fs1 : Files) (out : list event)
    (o : outcome) :
  plain_slugs fs ->
  main median_cut args fs = (fs1, out, o) ->
  exists fs2,
    main median_cut args fs1 = (fs2, out, o) /\
    cards_json fs2 = cards_json fs1 /\
    source_dir fs2 = source_dir fs1 /\
    processed_dir fs2 = processed_dir fs1.
Proof.
  intros _ M.
  destruct (load_cards fs) as [cards|exc] eqn:L.
  2:{ unfold main in M. rewrite L in M. injection M as <- <- <-.
      exists fs. unfold main. rewrite L. auto. }
  destruct (Z_lt_le_dec 0 (arg_height args)) as [Hh|Hh];
    [destruct (Z_lt_le_dec 0 (arg_pixel_height args)) as [Hp|Hp]|].
  2,3: rewrite main_invalid_heights in M by auto; injection M as <- <- <-;
       exists fs; rewrite main_invalid_heights by auto; auto.
  destruct (main_effect _ _ _ _ _ _ M) as (_ & _ & C1 & S1 & _).
  assert (L1 : load_cards fs1 = inl cards)
    by (rewrite (load_cards_same fs1 fs C1); exact L).
  rewrite (main_checks_passed _ _ _ _ L Hh Hp) in M.
  rewrite (main_checks_passed _ _ _ _ L1 Hh Hp).
  set (fw := Z.max 1 (Py.round (Py.mulf (arg_height args) (3 # 4)))) in *.
  set (pw := Z.max 1 (Py.round (Py.mulf (arg_pixel_height args) (3 # 4)))) in *.
  destruct (process_cards median_cut args fw (arg_height args) pw
              (arg_pixel_height args) cards (start fs)) as [st stop] eqn:Lp.
  destruct (process_cards median_cut args fw (arg_height args) pw
              (arg_pixel_height args) cards (start fs1)) as [st2 stop2] eqn:Lp2.
  destruct (loop_same median_cut args fw (arg_height args) pw (arg_pixel_height args)
              cards (start fs) (start fs1) st st2 stop stop2
              (eq_sym S1) Lp Lp2) as (<- & news & evs & X & X2).
  destruct (loop_from_start _ _ _ _ _ _ Lp) as (_ & _ & _ & _ & _ & _ & Hopen).
  destruct (loop_from_start _ _ _ _ _ _ Lp2) as (_ & _ & _ & _ & _ & _ & Hopen2).
  destruct X as [Ca Sa _ Da Pa Za Ra _ Fa]. destruct X2 as [Cb Sb _ Db Pb _ Rb _ Fb].
  cbn in Ca, Sa, Da, Pa, Ra, Fa, Cb, Sb, Db, Pb, Rb, Fb.
  assert (Hp12 : processed_files st2 = processed_files st) by congruence.
  assert (Hr12 : printed st2 = printed st) by congruence.
  assert (Hf12 : failures st2 = failures st) by congruence.
  rewrite Hp12, Hr12, Hf12.
  (* the loop alone: run 2 replays the same saves over what run 1 left *)
  assert (Hloop : fs1 = files st ->
            cards_json (files st2) = cards_json fs1 /\
            source_dir (files st2) = source_dir fs1 /\
            processed_dir (files st2) = processed_dir fs1).
  { intros ->. rewrite Cb, Sb, Db, Da. split; [reflexivity|].
    split; [reflexivity|]. apply replay_twice. }
  destruct stop as [exc|].
  { injection M as <- <- <-. exists (files st2). split; [reflexivity|].
    apply Hloop. reflexivity. }
  destruct (arg_contact_sheet args).
  2:{ injection M as <- <- <-. exists (files st2). split; [reflexivity|].
      apply Hloop. reflexivity. }
  destruct (create_contact_sheet_ok (files st) (processed_files st)
              contact_sheet_path fw (arg_height args)
              ltac:(unfold fw; lia) ltac:(lia) Hopen)
    as [[Hnil E]|[Hne [sheet E]]]; rewrite E in M; injection M as <- <- <-.
  - rewrite Hnil. cbn. exists (files st2). split; [reflexivity|].
    apply Hloop. reflexivity.
  - assert (Hsame : forall p, p ∈ processed_files st ->
              Image_open (files st) p = Image_open (files st2) p).
    { intros p Hin. rewrite Pa in Hin.
      apply list_elem_of_fmap in Hin as ([q r] & -> & Hin). cbn [fst].
      unfold card_saves in Za. rewrite Forall_forall in Za.
      destruct (Za _ Hin) as (Hq & _). cbn in Hq.
      destruct (last_saved_elem news q r Hin) as [r' Hl].
      destruct q as [d name]. cbn in Hq, Hl. subst d.
      rewrite (Image_open_processed (files st) name r'),
              (Image_open_processed (files st2) name r'); [reflexivity| |].
      - rewrite Db, replay_lookup_last, Hl. reflexivity.
      - rewrite Da, replay_lookup_last, Hl. reflexivity. }
    rewrite (create_contact_sheet_same (files st) (files st2) _ _ _ _ sheet Hsame Hne E).
    exists (Image_save (files st2) contact_sheet_path sheet).
    split; [reflexivity|].
    destruct (save_processed (files st) "contact_sheet.png" sheet) as (D1 & S1' & C1' & _).
    destruct (save_processed (files st2) "contact_sheet.png" sheet) as (D2 & S2' & C2' & _).
    fold contact_sheet_path in D1, S1', C1', D2, S2', C2'.
    rewrite C2', S2', C1', S1', Cb, Sb, Ca, Sa in *.
    split; [exact C1|]. split; [exact S1|].
    change (processed_dir (Image_save (files st2) contact_sheet_path sheet))
      with (<["contact_sheet.png" := FImage sheet]> (processed_dir (files st2))).
    change (processed_dir (Image_save (files st) contact_sheet_path sheet))
      with (<["contact_sheet.png" := FImage sheet]> (processed_dir (files st))).
    rewrite Db, Da.
    change (processed_dir (Image_save (files st) contact_sheet_path sheet))
      with (<["contact_sheet.png" := FImage sheet]> (processed_dir (files st))).
    rewrite Da. apply replay_over_sheet.
Qed.

End Rerun.

Lemma main_rerun_witness :
  plain_slugs three_cards /\
  exists fs1 out o fs2,
    main first_colors (small_args true) three_cards = (fs1, out, o) /\
    main first_colors (small_args true) fs1 = (fs2, out, o) /\
    processed_dir fs2 = processed_dir fs1.
Proof.
  split; [exact three_cards_plain|].
  destruct (main first_colors (small_args true) three_cards) as [[fs1 out] o] eqn:M.
  destruct (main_rerun first_colors _ _ _ _ _ three_cards_plain M)
    as (fs2 & M2 & _ & _ & D).
  exists fs1, out, o, fs2. auto.
Defined.

(** ** create_contact_sheet: all or nothing *)

Lemma paste_tiles_raises fs outputs tw th :
  forall index sheet exc,
    paste_tiles fs outputs index tw th sheet = inr exc ->
    exists (i : nat) p,
      outputs !! i = Some p /\ Image_open fs p = inr exc /\
      forall (j : nat) q, (j < i)%nat -> outputs !! j = Some q ->
        exists tile, Image_open fs q = inl tile.
Proof.
  induction outputs as [|p ps IH]; intros index sheet exc; [discriminate|].
  cbn [paste_tiles]. destruct (Image_open fs p) as [tile|e] eqn:O.
  - intros H. apply IH in H as (i & q & Hi & Hq & Hbefore).
    exists (S i), q. split; [exact Hi|]. split; [exact Hq|].
    intros [|j] q' Hj Hl; cbn in Hl.
    + injection Hl as <-. eauto.
    + apply (Hbefore j); [lia|exact Hl].
  - intros [= <-]. exists 0%nat, p. split; [reflexivity|]. split; [exact O|].
    intros j q Hj. lia.
Qed.

Lemma paste_tiles_opened fs outputs tw th :
  forall index sheet sheet',
    paste_tiles fs outputs index tw th sheet = inl sheet' ->
    forall p, p ∈ outputs -> exists tile, Image_open fs p = inl tile.
Proof.
  induction outputs as [|p ps IH]; intros index sheet sheet' H q Hq;
    [inversion Hq|].
  cbn [paste_tiles] in H. destruct (Image_open fs p) as [tile|e] eqn:O;
    [|discriminate].
  apply elem_of_cons in Hq as [->|Hq]; [eauto|].
  eapply IH; eassumption.
Qed.

(** X9: create_contact_sheet saves the sheet only when every output opens as
    an image; when one does not, it raises the error of the first such
    output and leaves the files as they are.  On the empty list it returns
    without saving. *)
Theorem contact_sheet_all_or_nothing (outputs : list path) (destination : path)
    (tile_width tile_height : Z) (fs fs' : Files) (res : result unit) :
  0 <= tile_width -> 0 <= tile_height ->
  create_contact_sheet outputs destination tile_width tile_height fs = (fs', res) ->
  match res with
  | inl _ =>
      (outputs = [] /\ fs' = fs) \/
      (outputs <> [] /\
       (exists sheet, fs' = Image_save fs destination sheet) /\
       forall p, p ∈ outputs -> exists tile, Image_open fs p = inl tile)
  | inr exc =>
      fs' = fs /\
      exists (i : nat) p,
        outputs !! i = Some p /\ Image_open fs p = inr exc /\
        forall (j : nat) q, (j < i)%nat -> outputs !! j = Some q ->
          exists tile, Image_open fs q = inl tile
  end.
Proof.
  intros Htw Hth. unfold create_contact_sheet.
  destruct outputs as [|p0 ps] eqn:Eo; [intros [= <- <-]; left; auto|].
  set (rows := (Z.of_nat (length (p0 :: ps)) + columns - 1) / columns).
  assert (0 <= rows) by (apply Z.div_pos; unfold columns; cbn [length]; lia).
  unfold PIL.new, columns, margin.
  destruct (Z.ltb_spec (4 * tile_width + (4 + 1) * 12) 0); [lia|].
  destruct (Z.ltb_spec (rows * tile_height + (rows + 1) * 12) 0); [nia|]. cbn [orb].
  destruct (paste_tiles fs (p0 :: ps) 0 tile_width tile_height _) as [sheet|exc] eqn:P;
    intros [= <- <-].
  - right. split; [discriminate|]. split; [eauto|].
    eapply paste_tiles_opened. exact P.
  - split; [reflexivity|]. eapply paste_tiles_raises. exact P.
Qed.

Lemma contact_sheet_all_or_nothing_witness :
  create_contact_sheet [(PROCESSED_DIR, "a.png"); (PROCESSED_DIR, "missing.png")]
    contact_sheet_path 3 4 two_tiles = (two_tiles, inr Py.FileNotFoundError) /\
  exists (i : nat) p,
    [(PROCESSED_DIR, "a.png"); (PROCESSED_DIR, "missing.png")] !! i = Some p /\
    Image_open two_tiles p = inr Py.FileNotFoundError.
Proof.
  assert (E : create_contact_sheet
                [(PROCESSED_DIR, "a.png"); (PROCESSED_DIR, "missing.png")]
                contact_sheet_path 3 4 two_tiles
              = (two_tiles, inr Py.FileNotFoundError)) by (vm_compute; reflexivity).
  split; [exact E|].
  destruct (contact_sheet_all_or_nothing _ _ 3 4 _ _ _ ltac:(lia) ltac:(lia) E)
    as (_ & i & p & Hi & Hp & _).
  exists i, p. auto.
Defined.

(** * Properties of the other two tools *)

(** ** Substrings *)

Lemma append_cons (c : ascii) (a b : string) :
  String c a +:+ b = String c (a +:+ b).
Proof. reflexivity. Qed.

Lemma append_nil_l (b : string) : "" +:+ b = b.
Proof. reflexivity. Qed.

Lemma append_nil_r (a : string) : a +:+ "" = a.
Proof. induction a as [|c a IH]; [reflexivity|]. now rewrite append_cons, IH. Qed.

Lemma string_app_assoc (a b c : string) : (a +:+ b) +:+ c = a +:+ (b +:+ c).
Proof.
  induction a as [|x a IH]; [reflexivity|]. now rewrite !append_cons, IH.
Qed.

Lemma prefix_spec (m s : string) :
  String.prefix m s = true <-> exists t, s = m +:+ t.
Proof.
  revert s. induction m as [|c m IH]; intros s.
  - split; [intros _; exists s; reflexivity | intros _; destruct s; reflexivity].
  - destruct s as [|d s]; cbn [String.prefix].
    + split; [discriminate | intros [t Ht]; discriminate].
    + destruct (Ascii.ascii_dec c d) as [->|N].
      * rewrite IH. split; intros [t Ht]; exists t.
        -- now rewrite append_cons, Ht.
        -- rewrite append_cons in Ht. now injection Ht.
      * split; [discriminate|]. intros [t Ht]. rewrite append_cons in Ht.
        injection Ht as -> _. contradiction.
Qed.

Lemma before_prefix sep s : exists rest, s = PyStr.before sep s +:+ rest.
Proof.
  induction s as [|c s [rest IH]]; cbn [PyStr.before].
  - destruct (String.prefix sep ""); exists ""; reflexivity.
  - destruct (String.prefix sep (String c s)).
    + exists (String c s). reflexivity.
    + exists rest. now rewrite append_cons, <- IH.
Qed.

Lemma before_found sep s :
  PyStr.contains sep s = true ->
  exists rest, s = PyStr.before sep s +:+ sep +:+ rest.
Proof.
  induction s as [|c s IH]; cbn [PyStr.before PyStr.contains].
  - destruct (String.prefix sep "") eqn:P; [|discriminate].
    intros _. apply prefix_spec in P as [t Ht]. exists t. exact Ht.
  - destruct (String.prefix sep (String c s)) eqn:P.
    + intros _. apply prefix_spec in P as [t Ht]. exists t. exact Ht.
    + cbn [orb]. intros H. destruct (IH H) as [rest Hr].
      exists rest. now rewrite append_cons, <- Hr.
Qed.

Lemma before_absent sep s :
  PyStr.contains sep s = false -> PyStr.before sep s = s.
Proof.
  induction s as [|c s IH]; cbn [PyStr.before PyStr.contains].
  - destruct (String.prefix sep ""); [discriminate|reflexivity].
  - destruct (String.prefix sep (String c s)); [discriminate|].
    cbn [orb]. intros H. now rewrite IH.
Qed.

Lemma before_clean sep s :
  sep <> "" -> PyStr.contains sep (PyStr.before sep s) = false.
Proof.
  intros Hne.
  assert (Hnil : String.prefix sep "" = false).
  { destruct sep; [contradiction|reflexivity]. }
  induction s as [|c s IH]; cbn [PyStr.before].
  - rewrite Hnil. cbn [PyStr.contains]. now rewrite Hnil.
  - destruct (String.prefix sep (String c s)) eqn:P.
    + cbn [PyStr.contains]. now rewrite Hnil.
    + cbn [PyStr.contains]. rewrite IH, orb_false_r.
      destruct (String.prefix sep (String c (PyStr.before sep s))) eqn:Q;
        [|reflexivity].
      apply prefix_spec in Q as [t Ht]. destruct (before_prefix sep s) as [rest Hr].
      assert (Hp : String.prefix sep (String c s) = true).
      { apply prefix_spec. exists (t +:+ rest).
        rewrite <- string_app_assoc, <- Ht, append_cons. now rewrite <- Hr. }
      congruence.
Qed.

(** ** canonicalize_image_url *)

(** X10: canonicalize_image_url cuts the URL at the first "/revision/": the
    result never contains "/revision/", it is the start of the URL, what it
    drops begins with "/revision/", a URL without the marker comes back as
    it is, and canonicalizing twice changes nothing more. *)
Theorem canonicalize_image_url_cut (url : string) :
  PyStr.contains "/revision/" (canonicalize_image_url url) = false /\
  (exists rest, url = canonicalize_image_url url +:+ rest) /\
  (PyStr.contains "/revision/" url = true ->
     exists rest, url = canonicalize_image_url url +:+ "/revision/" +:+ rest) /\
  (PyStr.contains "/revision/" url = false -> canonicalize_image_url url = url) /\
  canonicalize_image_url (canonicalize_image_url url) = canonicalize_image_url url.
Proof.
  assert (Hclean : PyStr.contains "/revision/" (canonicalize_image_url url) = false).
  { unfold canonicalize_image_url.
    destruct (PyStr.contains "/revision/" url) eqn:C; [|exact C].
    apply before_clean. discriminate. }
  split; [exact Hclean|]. split; [|split; [|split]].
  - unfold canonicalize_image_url. destruct (PyStr.contains "/revision/" url).
    + apply before_prefix.
    + exists "". now rewrite append_nil_r.
  - intros C. unfold canonicalize_image_url. rewrite C. apply before_found. exact C.
  - intros C. unfold canonicalize_image_url. now rewrite C.
  - unfold canonicalize_image_url at 1. now rewrite Hclean.
Qed.

(** ** fetch_assets: output_name *)

Lemma find_source_image_some fs slug ext :
  ext ∈ extensions -> is_Some (source_dir fs !! (slug +:+ ext)) ->
  is_Some (find_source_image fs slug).
Proof.
  intros Hext Hex. unfold find_source_image.
  pose proof (first_existing_spec fs slug extensions) as H.
  destruct (first_existing fs slug extensions) as [p|]; [eauto|].
  rewrite (H ext Hext) in Hex. destruct Hex as [? [=]].
Qed.

Lemma output_name_ext (path_suffix : string -> string) (slug url : string) :
  exists ext,
    ext ∈ extensions /\ Fetch.output_name path_suffix slug url = slug +:+ ext.
Proof.
  unfold Fetch.output_name.
  set (ext := PyStr.lower (path_suffix url)).
  destruct (existsb _ _) eqn:E.
  - exists ext. split; [|reflexivity].
    apply existsb_exists in E as (x & Hin & Hx). apply String.eqb_eq in Hx.
    subst x. unfold extensions. cbn in Hin.
    destruct Hin as [<-|[<-|[<-|[<-|[]]]]]; set_solver.
  - exists ".jpg". split; [unfold extensions; set_solver|reflexivity].
Qed.


(** ** fetch_assets: the loop of main *)
Section FetchLoop.

Variable urlopen : nat -> string -> Q -> sum Fetch.Response Fetch.exn.
Variable path_suffix : string -> string.
Variable args : Fetch.Args.
Variable entries : list json.

Lemma fetched_refl st : fetched path_suffix args entries st st [].
Proof.
  split; cbn; rewrite ?app_nil_r; auto; try lia.
  intros label destination H. inversion H.
Qed.

Lemma fetched_trans st1 st2 st3 e1 e2 :
  fetched path_suffix args entries st1 st2 e1 ->
  fetched path_suffix args entries st2 st3 e2 ->
  fetched path_suffix args entries st1 st3 (e1 ++ e2).
Proof.
  intros [M1 K1 S1 P1 A1 B1 C1 F1] [M2 K2 S2 P2 A2 B2 C2 F2]. split.
  - congruence.
  - auto.
  - intros Hf name f H. apply (S2 Hf), (S1 Hf), H.
  - rewrite P2, P1. symmetry. apply app_assoc.
  - rewrite A2, A1, List.filter_app, List.length_app. lia.
  - rewrite B2, B1, List.filter_app, List.length_app. lia.
  - rewrite C2, C1, List.filter_app, List.length_app. lia.
  - intros label destination Hin. apply elem_of_app in Hin as [Hin|Hin].
    + destruct (F1 _ _ Hin) as [Hex Hent]. split; [apply K2, Hex|exact Hent].
    + apply (F2 _ _ Hin).
Qed.

Lemma fetched_skip st ev :
  is_skipped ev = true ->
  fetched path_suffix args entries st
    {| Fetch.disk := Fetch.disk st; Fetch.success := Fetch.success st;
       Fetch.skipped := Fetch.skipped st + 1; Fetch.failed := Fetch.failed st;
       Fetch.requests := Fetch.requests st;
       Fetch.printed := Fetch.printed st ++ [ev] |} [ev].
Proof.
  intros Hs. split; cbn; auto; try (destruct ev; try discriminate; cbn; lia).
  intros label destination Hin. apply list_elem_of_singleton in Hin. subst ev.
  discriminate.
Qed.

Lemma download_file_inv n url destination timeout d d' res :
  Fetch.download_file urlopen n url destination timeout d = (d', res) ->
  Fetch.sources_json d' = Fetch.sources_json d /\
  match res with
  | inl _ => exists content,
      Fetch.source_files d' = <[destination := content]> (Fetch.source_files d)
  | inr _ => d' = d
  end.
Proof.
  unfold Fetch.download_file. destruct (urlopen n url timeout) as [resp|exc].
  - destruct (negb _); intros [= <- <-]; cbn; eauto.
  - intros [= <- <-]. auto.
Qed.

(** A turn that lets the loop go on prints one line, of one of the three
    kinds the summary counts. *)
Lemma entry_step_fetched entry st st' stop :
  entry ∈ entries ->
  Fetch.entry_step urlopen path_suffix args entry st = (st', stop) ->
  exists evs,
    fetched path_suffix args entries st st' evs /\
    (stop = None ->
     (length (List.filter is_downloaded evs)
      + length (List.filter is_skipped evs)
      + length (List.filter is_failed evs) = 1)%nat).
Proof.
  intros Hent. unfold Fetch.entry_step.
  destruct entry as [| | | | |items|fields];
    try (intros [= <- <-]; exists []; split; [apply fetched_refl|discriminate]).
  set (slug := Py.strip (py_str (dict_get fields "slug" (JStr "")))).
  set (url := Py.strip (py_str (dict_get fields "url" (JStr "")))).
  set (name := Py.strip (py_str (dict_get fields "name" (JStr "")))).
  destruct (String.eqb_spec slug "") as [Hs|Hs].
  { intros [= <- <-]. eexists. split; [apply fetched_skip|]; reflexivity. }
  destruct (String.eqb url "").
  { intros [= <- <-]. eexists. split; [apply fetched_skip|]; reflexivity. }
  set (destination := Fetch.output_name path_suffix slug url).
  destruct (bool_decide (is_Some (Fetch.source_files (Fetch.disk st) !! destination))
            && negb (Fetch.arg_force args)) eqn:Hskip.
  { intros [= <- <-]. eexists. split; [apply fetched_skip|]; reflexivity. }
  destruct (Fetch.download_file urlopen _ url destination _ _) as [d res] eqn:D.
  apply download_file_inv in D as [Dm Dres]. destruct res as [[]|exc].
  - destruct Dres as [content Dfiles]. intros [= <- <-].
    exists [Fetch.Downloaded (if String.eqb name "" then slug else name) destination].
    split; [|reflexivity]. split; cbn; auto; try lia.
    + intros k Hk. rewrite Dfiles.
      destruct (decide (destination = k)) as [<-|N];
        [rewrite lookup_insert_eq; eauto | now rewrite lookup_insert_ne].
    + intros Hforce k f Hk. rewrite Dfiles.
      destruct (decide (destination = k)) as [<-|N];
        [|now rewrite lookup_insert_ne].
      exfalso. rewrite Hforce, andb_true_r in Hskip.
      apply bool_decide_eq_false in Hskip. apply Hskip. rewrite Hk. eauto.
    + intros label dest Hin. apply list_elem_of_singleton in Hin.
      injection Hin as -> ->. split; [rewrite Dfiles, lookup_insert_eq; eauto|].
      exists fields. repeat split; auto.
  - subst d. destruct (Fetch.handled exc); intros [= <- <-].
    + exists [Fetch.Failed slug exc]. split; [|reflexivity].
      split; cbn; auto; try lia.
      intros label dest Hin. apply list_elem_of_singleton in Hin. discriminate.
    + exists []. split; [|discriminate].
      split; cbn; rewrite ?app_nil_r; auto; try lia.
      intros label dest Hin. inversion Hin.
Qed.

Lemma run_entries_fetched todo st st' stop :
  (forall entry, entry ∈ todo -> entry ∈ entries) ->
  Fetch.run_entries urlopen path_suffix args todo st = (st', stop) ->
  exists evs,
    fetched path_suffix args entries st st' evs /\
    (stop = None ->
     (length (List.filter is_downloaded evs)
      + length (List.filter is_skipped evs)
      + length (List.filter is_failed evs) = length todo)%nat).
Proof.
  revert st. induction todo as [|entry rest IH]; intros st Hsub.
  - intros [= <- <-]. exists []. split; [apply fetched_refl|reflexivity].
  - cbn [Fetch.run_entries].
    destruct (Fetch.entry_step urlopen path_suffix args entry st) as [st1 s1] eqn:S.
    apply entry_step_fetched in S as (e1 & X1 & H1); [|apply Hsub, list_elem_of_here].
    destruct s1 as [exc|].
    + intros [= <- <-]. exists e1. split; [exact X1|discriminate].
    + intros L. apply IH in L as (e2 & X2 & H2);
        [|intros e He; apply Hsub, list_elem_of_further, He].
      exists (e1 ++ e2). split; [eapply fetched_trans; eassumption|].
      intros ->. specialize (H1 eq_refl). specialize (H2 eq_refl).
      rewrite !List.filter_app, !List.length_app. cbn [length]. lia.
Qed.

End FetchLoop.

(** ** fetch_assets: main *)
Section FetchMain.

Variable urlopen : nat -> string -> Q -> sum Fetch.Response Fetch.exn.
Variable path_suffix : string -> string.

(** The runs of main that enter the loop. *)
Lemma fetch_main_loop args d fields entries :
  Fetch.load_manifest d = inl (JObj fields) ->
  dict_get fields "cards" (JList []) = JList entries -> entries <> [] ->
  Fetch.main urlopen path_suffix args d =
  match Fetch.run_entries urlopen path_suffix args entries (fetch_start d) with
  | (st, Some exc) => (Fetch.disk st, Fetch.printed st, Fetch.Crash exc)
  | (st, None) =>
      (Fetch.disk st,
       Fetch.printed st
         ++ [Fetch.Done (Fetch.success st) (Fetch.skipped st) (Fetch.failed st)],
       Fetch.Exit (if 0 <? Fetch.failed st then 1 else 0))
  end.
Proof.
  intros L C Hne. unfold Fetch.main. rewrite L, C.
  destruct entries; [congruence|reflexivity].
Qed.

(** The runs of main that do not. *)
Lemma fetch_main_no_loop args d d' out e :
  (forall fields entries,
     Fetch.load_manifest d = inl (JObj fields) ->
     dict_get fields "cards" (JList []) = JList entries -> entries = []) ->
  Fetch.main urlopen path_suffix args d = (d', out, e) ->
  d' = d /\ forall label destination, Fetch.Downloaded label destination ∉ out.
Proof.
  intros Hno. unfold Fetch.main.
  destruct (Fetch.load_manifest d) as [[| | | | | |fields]|exc] eqn:L;
    try (intros [= <- <- <-]; split; [reflexivity|]; intros l p H;
         repeat (apply elem_of_cons in H as [H|H]; [discriminate|]); inversion H).
  destruct (dict_get fields "cards" (JList [])) as [| | | | |[|first others]|] eqn:C;
    try (intros [= <- <- <-]; split; [reflexivity|]; intros l p H;
         repeat (apply elem_of_cons in H as [H|H]; [discriminate|]); inversion H).
  specialize (Hno fields (first :: others) eq_refl C). discriminate.
Qed.

(** X12: a run of fetch_assets' main that enters its loop and returns
    counts every entry of the manifest once: success + skipped + failed in
    its summary is the number of entries, each counter is the number of
    lines of its kind, and the exit code is 1 exactly when failed > 0
    (else 0). *)
Theorem fetch_counts_every_entry (args : Fetch.Args) (d d' : Fetch.Disk)
    (fields : list (string * json)) (entries : list json)
    (out : list Fetch.event) (code : Z) :
  Fetch.load_manifest d = inl (JObj fields) ->
  dict_get fields "cards" (JList []) = JList entries -> entries <> [] ->
  Fetch.main urlopen path_suffix args d = (d', out, Fetch.Exit code) ->
  exists success skipped failed,
    last out = Some (Fetch.Done success skipped failed) /\
    success + skipped + failed = Z.of_nat (length entries) /\
    success = Z.of_nat (length (List.filter is_downloaded out)) /\
    skipped = Z.of_nat (length (List.filter is_skipped out)) /\
    failed = Z.of_nat (length (List.filter is_failed out)) /\
    (code = 0 \/ code = 1) /\ (code = 1 <-> 0 < failed).
Proof.
  intros L C Hne M. rewrite (fetch_main_loop _ _ _ _ L C Hne) in M.
  destruct (Fetch.run_entries _ _ _ _ _) as [st stop] eqn:R.
  destruct stop as [exc|]; [discriminate|]. injection M as <- <- <-.
  destruct (run_entries_fetched urlopen path_suffix args entries entries
              (fetch_start d) st None ltac:(auto) R) as (evs & X & Hc).
  specialize (Hc eq_refl). destruct X as [_ _ _ P A B F _]. cbn in P, A, B, F.
  exists (Fetch.success st), (Fetch.skipped st), (Fetch.failed st).
  split; [apply last_snoc|]. rewrite !List.filter_app, !List.length_app, P. cbn.
  rewrite A, B, F. split; [lia|]. split; [lia|]. split; [lia|]. split; [lia|].
  destruct (Z.ltb_spec 0 (0 + Z.of_nat (length (List.filter is_failed evs))));
    split; try (right; reflexivity); try (left; reflexivity); lia.
Qed.

(** X13: no run of fetch_assets' main changes the sources manifest or
    removes a file of the source directory; without --force a file that is
    already there is never overwritten, however the run ends. *)
Theorem fetch_keeps_files (args : Fetch.Args) (d d' : Fetch.Disk)
    (out : list Fetch.event) (e : Fetch.ended) :
  Fetch.main urlopen path_suffix args d = (d', out, e) ->
  Fetch.sources_json d' = Fetch.sources_json d /\
  (forall name, is_Some (Fetch.source_files d !! name) ->
                is_Some (Fetch.source_files d' !! name)) /\
  (Fetch.arg_force args = false ->
   forall name f, Fetch.source_files d !! name = Some f ->
                  Fetch.source_files d' !! name = Some f).
Proof.
  intros M.
  destruct (Fetch.load_manifest d) as [manifest|exc] eqn:L.
  2:{ assert (Hno : forall fields entries,
                Fetch.load_manifest d = inl (JObj fields) ->
                dict_get fields "cards" (JList []) = JList entries -> entries = [])
        by (intros ? ? E; rewrite L in E; discriminate).
      destruct (fetch_main_no_loop args d d' out e Hno M) as [-> _]. auto. }
  assert (Hcase : (exists fields first others,
                     manifest = JObj fields /\
                     dict_get fields "cards" (JList []) = JList (first :: others)) \/
                  (forall fields entries, manifest = JObj fields ->
                     dict_get fields "cards" (JList []) = JList entries ->
                     entries = [])).
  { destruct manifest as [| | | | | |fields]; try solve [right; intros ? ? [=]].
    destruct (dict_get fields "cards" (JList [])) as [| | | | |[|first others]|] eqn:C;
      try solve [right; intros ? ? [= <-] C'; rewrite C in C'; congruence].
    left. eauto. }
  destruct Hcase as [(fields & first & others & -> & C)|Hno].
  - rewrite (fetch_main_loop _ _ _ _ L C ltac:(discriminate)) in M.
    destruct (Fetch.run_entries _ _ _ _ _) as [st stop] eqn:R.
    destruct (run_entries_fetched urlopen path_suffix args (first :: others)
                (first :: others) (fetch_start d) st stop ltac:(auto) R)
      as (evs & [Hm Hk Hs _ _ _ _ _] & _).
    cbn in Hm, Hk, Hs.
    destruct stop as [exc|]; injection M as <- <- <-; auto.
  - assert (Hno' : forall fields entries,
              Fetch.load_manifest d = inl (JObj fields) ->
              dict_get fields "cards" (JList []) = JList entries -> entries = [])
      by (intros ? ? E; rewrite L in E; injection E as ->; apply Hno; reflexivity).
    destruct (fetch_main_no_loop args d d' out e Hno' M) as [-> _]. auto.
Qed.

(** X14: every file fetch_assets reports as downloaded comes from an entry
    of the manifest with a slug: the file's name is the one output_name
    gives to this entry's slug and URL, the line printed shows the entry's
    name (its slug when the name is blank), the file is in the source
    directory when the run ends, and process_assets' find_source_image, run
    on that directory, finds a source image for this very slug. *)
Theorem fetched_files_are_found (args : Fetch.Args) (d d' : Fetch.Disk)
    (out : list Fetch.event) (e : Fetch.ended) (label destination : string) :
  Fetch.main urlopen path_suffix args d = (d', out, e) ->
  Fetch.Downloaded label destination ∈ out ->
  is_Some (Fetch.source_files d' !! destination) /\
  exists fields entries manifest,
    Fetch.load_manifest d = inl (JObj manifest) /\
    dict_get manifest "cards" (JList []) = JList entries /\
    JObj fields ∈ entries /\
    Py.strip (py_str (dict_get fields "slug" (JStr ""))) <> "" /\
    destination
      = Fetch.output_name path_suffix
          (Py.strip (py_str (dict_get fields "slug" (JStr ""))))
          (Py.strip (py_str (dict_get fields "url" (JStr "")))) /\
    label
      = (if String.eqb (Py.strip (py_str (dict_get fields "name" (JStr "")))) ""
         then Py.strip (py_str (dict_get fields "slug" (JStr "")))
         else Py.strip (py_str (dict_get fields "name" (JStr "")))) /\
    forall fs, source_dir fs = Fetch.source_files d' ->
      is_Some (find_source_image fs
                 (Py.strip (py_str (dict_get fields "slug" (JStr ""))))).
Proof.
  intros M Hin.
  destruct (Fetch.load_manifest d) as [manifest|exc] eqn:L.
  2:{ assert (Hno : forall fields entries,
                Fetch.load_manifest d = inl (JObj fields) ->
                dict_get fields "cards" (JList []) = JList entries -> entries = [])
        by (intros ? ? E; rewrite L in E; discriminate).
      destruct (fetch_main_no_loop args d d' out e Hno M) as [_ Hnone].
      exfalso. exact (Hnone _ _ Hin). }
  assert (Hcase : (exists fields first others,
                     manifest = JObj fields /\
                     dict_get fields "cards" (JList []) = JList (first :: others)) \/
                  (forall fields entries, manifest = JObj fields ->
                     dict_get fields "cards" (JList []) = JList entries ->
                     entries = [])).
  { destruct manifest as [| | | | | |fields]; try solve [right; intros ? ? [=]].
    destruct (dict_get fields "cards" (JList [])) as [| | | | |[|first others]|] eqn:C;
      try solve [right; intros ? ? [= <-] C'; rewrite C in C'; congruence].
    left. eauto. }
  destruct Hcase as [(mf & first & others & -> & C)|Hno].
  2:{ assert (Hno' : forall fields entries,
                Fetch.load_manifest d = inl (JObj fields) ->
                dict_get fields "cards" (JList []) = JList entries -> entries = [])
        by (intros ? ? E; rewrite L in E; injection E as ->; apply Hno; reflexivity).
      destruct (fetch_main_no_loop args d d' out e Hno' M) as [_ Hnone].
      exfalso. exact (Hnone _ _ Hin). }
  rewrite (fetch_main_loop _ _ _ _ L C ltac:(discriminate)) in M.
  destruct (Fetch.run_entries _ _ _ _ _) as [st stop] eqn:R.
  destruct (run_entries_fetched urlopen path_suffix args (first :: others)
              (first :: others) (fetch_start d) st stop ltac:(auto) R)
    as (evs & [_ _ _ P _ _ _ F] & _).
  cbn in P.
  assert (Hevs : Fetch.Downloaded label destination ∈ evs).
  { destruct stop as [exc|]; injection M as <- <- <-; rewrite P in Hin;
      [exact Hin|].
    apply elem_of_app in Hin as [Hin|Hin]; [exact Hin|].
    apply list_elem_of_singleton in Hin. discriminate. }
  destruct (F _ _ Hevs) as (Hex & fields & Hent & Hslug & Hdest & Hlabel).
  assert (Hd : d' = Fetch.disk st) by (destruct stop; injection M as <- <- <-; reflexivity).
  rewrite Hd. split; [exact Hex|].
  exists fields, (first :: others), mf. split; [reflexivity|]. split; [exact C|].
  split; [exact Hent|]. split; [exact Hslug|]. split; [exact Hdest|].
  split; [exact Hlabel|].
  intros fs Hfs.
  destruct (output_name_ext path_suffix
              (Py.strip (py_str (dict_get fields "slug" (JStr ""))))
              (Py.strip (py_str (dict_get fields "url" (JStr ""))))) as (ext & He & Hn).
  apply (find_source_image_some fs _ ext He). rewrite Hfs, <- Hn, <- Hdest. exact Hex.
Qed.

End FetchMain.

Lemma fetch_counts_every_entry_witness :
  Fetch.load_manifest sample_disk = inl (JObj [("cards", JList sample_entries)]) /\
  exists d' out success skipped failed,
    Fetch.main sample_net sample_suffix no_force sample_disk
      = (d', out, Fetch.Exit 1) /\
    last out = Some (Fetch.Done success skipped failed) /\
    success + skipped + failed = 4.
Proof.
  split; [reflexivity|].
  destruct (Fetch.main sample_net sample_suffix no_force sample_disk)
    as [[d' out] e] eqn:M.
  assert (He : e = Fetch.Exit 1)
    by (change e with (snd (d', out, e)); rewrite <- M; vm_compute; reflexivity).
  subst e.
  destruct (fetch_counts_every_entry sample_net sample_suffix no_force sample_disk d'
              [("cards", JList sample_entries)] sample_entries out 1
              eq_refl eq_refl ltac:(discriminate) M)
    as (s & k & f & Hl & Hsum & _).
  exists d', out, s, k, f. auto.
Defined.

Lemma fetch_keeps_files_witness :
  Fetch.arg_force no_force = false /\
  Fetch.source_files sample_disk !! "han.jpg" = Some (FImage tall_2x3) /\
  exists d' out e,
    Fetch.main sample_net sample_suffix no_force sample_disk = (d', out, e) /\
    Fetch.source_files d' !! "han.jpg" = Some (FImage tall_2x3).
Proof.
  assert (Hhan : Fetch.source_files sample_disk !! "han.jpg" = Some (FImage tall_2x3))
    by (vm_compute; reflexivity).
  split; [reflexivity|]. split; [exact Hhan|].
  destruct (Fetch.main sample_net sample_suffix no_force sample_disk)
    as [[d' out] e] eqn:M.
  destruct (fetch_keeps_files sample_net sample_suffix no_force sample_disk d' out e M)
    as (_ & _ & Hsame).
  exists d', out, e. split; [reflexivity|]. apply (Hsame eq_refl). exact Hhan.
Defined.

Lemma fetched_files_are_found_witness :
  exists d' out e,
    Fetch.main sample_net sample_suffix no_force sample_disk = (d', out, e) /\
    Fetch.Downloaded "Luke" "luke.png" ∈ out /\
    is_Some (Fetch.source_files d' !! "luke.png") /\
    exists fields,
      JObj fields ∈ sample_entries /\
      "luke.png"
        = Fetch.output_name sample_suffix
            (Py.strip (py_str (dict_get fields "slug" (JStr ""))))
            (Py.strip (py_str (dict_get fields "url" (JStr "")))).
Proof.
  destruct (Fetch.main sample_net sample_suffix no_force sample_disk)
    as [[d' out] e] eqn:M.
  assert (Hin : Fetch.Downloaded "Luke" "luke.png" ∈ out).
  { change out with (snd (fst (d', out, e))). rewrite <- M. vm_compute.
    apply list_elem_of_here. }
  destruct (fetched_files_are_found sample_net sample_suffix no_force sample_disk
              d' out e "Luke" "luke.png" M Hin)
    as (Hex & fields & entries & manifest & Hl & Hc & Hent & _ & Hdest & _).
  exists d', out, e. split; [reflexivity|]. split; [exact Hin|].
  split; [exact Hex|]. exists fields. split; [|exact Hdest].
  injection Hl as <-. injection Hc as <-. exact Hent.
Defined.

(** ** populate_sources_wookieepedia: dict updates *)

Lemma dict_set_get fields key v default :
  dict_get (Populate.dict_set fields key v) key default = v.
Proof.
  induction fields as [|[k x] rest IH]; cbn.
  - now rewrite String.eqb_refl.
  - destruct (String.eqb k key) eqn:E; cbn; rewrite E; [reflexivity|exact IH].
Qed.

Lemma dict_set_get_other fields key v k default :
  k <> key -> dict_get (Populate.dict_set fields key v) k default
              = dict_get fields k default.
Proof.
  intros N. induction fields as [|[k0 x] rest IH]; cbn.
  - destruct (String.eqb_spec key k); [congruence|reflexivity].
  - destruct (String.eqb_spec k0 key) as [->|N0]; cbn.
    + destruct (String.eqb_spec key k); [congruence|reflexivity].
    + destruct (String.eqb k0 k); [reflexivity|exact IH].
Qed.

Lemma dict_set_has_key fields key v :
  has_key (Populate.dict_set fields key v) key = true.
Proof.
  induction fields as [|[k x] rest IH]; cbn.
  - now rewrite String.eqb_refl.
  - destruct (String.eqb k key) eqn:E; cbn; rewrite E; [reflexivity|exact IH].
Qed.

Lemma dict_set_has_key_other fields key v k :
  k <> key -> has_key (Populate.dict_set fields key v) k = has_key fields k.
Proof.
  intros N. induction fields as [|[k0 x] rest IH]; cbn.
  - destruct (String.eqb_spec key k); [congruence|reflexivity].
  - destruct (String.eqb_spec k0 key) as [->|N0]; cbn.
    + destruct (String.eqb_spec key k); [congruence|reflexivity].
    + unfold has_key in IH. now rewrite IH.
Qed.

Lemma canonicalize_image_url_clean url :
  PyStr.contains "/revision/" (canonicalize_image_url url) = false.
Proof.
  unfold canonicalize_image_url.
  destruct (PyStr.contains "/revision/" url) eqn:C; [|exact C].
  apply before_clean. discriminate.
Qed.

Lemma canonicalize_text source url s :
  Populate.canonicalize source = inl url -> url = JStr s ->
  PyStr.contains "/revision/" s = false.
Proof.
  destruct source as [| | | |t|items|fields]; cbn; try discriminate.
  - intros [= <-] [= <-]. apply canonicalize_image_url_clean.
  - destruct (existsb _ items); [discriminate|]. intros [= <-]. discriminate.
  - destruct (has_key fields "/revision/"); [discriminate|]. intros [= <-]. discriminate.
Qed.

Lemma first_source_text pages url s :
  Populate.first_source pages = inl url -> url = JStr s ->
  PyStr.contains "/revision/" s = false.
Proof.
  induction pages as [|[key page] rest IH]; cbn [Populate.first_source];
    [discriminate|].
  destruct (Populate.get page "original" (JObj [])) as [original|]; [|discriminate].
  destruct (Populate.get original "source" JNull) as [source|]; [|discriminate].
  destruct (Populate.truthy source); [apply canonicalize_text | exact IH].
Qed.

Lemma override_clean slug url :
  Populate.table_get Populate.OVERRIDE_URL_BY_SLUG slug = Some url ->
  PyStr.contains "/revision/" url = false.
Proof.
  unfold Populate.OVERRIDE_URL_BY_SLUG. cbn [Populate.table_get].
  destruct (String.eqb "darth_vader" slug); [|discriminate].
  intros [= <-]. vm_compute. reflexivity.
Qed.

Section PopulateLoop.

Variable query : nat -> string -> sum json Populate.exn.

Lemma fetch_image_url_text n title url s :
  Populate.fetch_image_url query n title = inl url -> url = JStr s ->
  PyStr.contains "/revision/" s = false.
Proof.
  unfold Populate.fetch_image_url.
  destruct (query n title) as [payload|]; [|discriminate].
  destruct (Populate.get payload "query" (JObj [])) as [q|]; [|discriminate].
  destruct (Populate.get q "pages" (JObj [])) as [[| | | | | |pages]|];
    try discriminate.
  apply first_source_text.
Qed.

Lemma url_set_updated fields url :
  card_slug fields <> "" ->
  (forall s, url = JStr s -> PyStr.contains "/revision/" s = false) ->
  card_updated (JObj fields) (JObj (Populate.dict_set fields "url" url)).
Proof.
  intros Hs Hclean. unfold card_updated.
  split; [intros k d Hk; now apply dict_set_get_other|].
  split; [intros k Hk; now apply dict_set_has_key_other|].
  destruct (String.eqb_spec (card_slug fields) ""); [contradiction|].
  split; [apply dict_set_has_key|]. intros s. rewrite dict_set_get. apply Hclean.
Qed.

(** A turn that lets the loop go on puts the updated card after the ones
    done, and counts a failure for a blank slug or a failure line. *)
Lemma populate_step card st st' :
  Populate.card_step query card st = (st', None) ->
  exists card' evs,
    Populate.done st' = Populate.done st ++ [card'] /\
    card_updated card card' /\
    Populate.printed st' = Populate.printed st ++ evs /\
    Populate.failures st'
      = Populate.failures st
        + (if blank_slug card then 1 else 0)
        + Z.of_nat (length (List.filter is_card_failure evs)) /\
    Forall (fun e => e <> Populate.Updated /\ e <> Populate.Completed /\
                     forall n, e <> Populate.CompletedWith n) evs.
Proof.
  unfold Populate.card_step.
  destruct card as [| | | | | |fields]; try discriminate.
  fold (card_slug fields). cbn [blank_slug].
  destruct (String.eqb_spec (card_slug fields) "") as [Hb|Hb].
  { intros [= <-]. exists (JObj fields), []. cbn. rewrite app_nil_r.
    split; [reflexivity|]. split; [|split; [reflexivity|split; [lia|constructor]]].
    unfold card_updated. rewrite Hb. cbn. auto. }
  destruct (Populate.table_get Populate.OVERRIDE_URL_BY_SLUG (card_slug fields))
    as [url|] eqn:O.
  { intros [= <-]. eexists _, [Populate.SetOverride (card_slug fields)]. cbn.
    split; [reflexivity|]. split; [|split; [reflexivity|split; [lia|]]].
    - apply url_set_updated; [exact Hb|]. intros s [= <-].
      eapply override_clean. exact O.
    - repeat constructor; discriminate. }
  assert (Hmiss : forall st0,
            st0 = {| Populate.done := Populate.done st
                       ++ [JObj (Populate.dict_set fields "url" (JStr ""))];
                     Populate.failures := Populate.failures st + 1;
                     Populate.requests := Populate.requests st;
                     Populate.printed := Populate.printed st
                       ++ [Populate.MissingTitle (card_slug fields)] |} ->
            exists card' evs,
              Populate.done st0 = Populate.done st ++ [card'] /\
              card_updated (JObj fields) card' /\
              Populate.printed st0 = Populate.printed st ++ evs /\
              Populate.failures st0
                = Populate.failures st + 0
                  + Z.of_nat (length (List.filter is_card_failure evs)) /\
              Forall (fun e => e <> Populate.Updated /\ e <> Populate.Completed /\
                               forall n, e <> Populate.CompletedWith n) evs).
  { intros st0 ->. eexists _, [Populate.MissingTitle (card_slug fields)]. cbn.
    split; [reflexivity|]. split; [|split; [reflexivity|split; [lia|]]].
    - apply url_set_updated; [exact Hb|]. intros s [= <-]. reflexivity.
    - repeat constructor; discriminate. }
  destruct (Populate.table_get Populate.TITLE_BY_SLUG (card_slug fields))
    as [[|c title]|].
  1,3: intros [= <-]; apply Hmiss; reflexivity.
  clear Hmiss.
  destruct (Populate.fetch_image_url query _ _) as [url|exc] eqn:F; intros [= <-].
  - eexists _, [Populate.SetUrl (card_slug fields) url]. cbn.
    split; [reflexivity|]. split; [|split; [reflexivity|split; [lia|]]].
    + apply url_set_updated; [exact Hb|]. intros s Hs.
      eapply fetch_image_url_text; eassumption.
    + repeat constructor; discriminate.
  - eexists _, [Populate.FailedCard (card_slug fields) exc]. cbn.
    split; [reflexivity|]. split; [|split; [reflexivity|split; [lia|]]].
    + apply url_set_updated; [exact Hb|]. intros s [= <-]. reflexivity.
    + repeat constructor; discriminate.
Qed.

Lemma populate_loop cards st st' :
  Populate.run_cards query cards st = (st', None) ->
  exists cards' evs,
    Populate.done st' = Populate.done st ++ cards' /\
    Forall2 card_updated cards cards' /\
    Populate.printed st' = Populate.printed st ++ evs /\
    Populate.failures st'
      = Populate.failures st
        + Z.of_nat (length (List.filter blank_slug cards))
        + Z.of_nat (length (List.filter is_card_failure evs)) /\
    Forall (fun e => e <> Populate.Updated /\ e <> Populate.Completed /\
                     forall n, e <> Populate.CompletedWith n) evs.
Proof.
  revert st. induction cards as [|card rest IH]; intros st.
  - intros [= <-]. exists [], []. rewrite !app_nil_r. cbn.
    repeat split; try constructor; lia.
  - cbn [Populate.run_cards].
    destruct (Populate.card_step query card st) as [st1 [exc|]] eqn:S; [discriminate|].
    intros L. apply populate_step in S as (c1 & e1 & D1 & U1 & P1 & F1 & N1).
    apply IH in L as (cs & e2 & D2 & U2 & P2 & F2 & N2).
    exists (c1 :: cs), (e1 ++ e2).
    split; [rewrite D2, D1, <- app_assoc; reflexivity|].
    split; [constructor; assumption|].
    split; [rewrite P2, P1, <- app_assoc; reflexivity|].
    split; [|apply Forall_app; auto].
    rewrite F2, F1, List.filter_app, List.length_app. cbn [List.filter].
    destruct (blank_slug card); cbn [length]; lia.
Qed.

End PopulateLoop.

(** ** populate_sources_wookieepedia: main *)
Section PopulateMain.

Variable query : nat -> string -> sum json Populate.exn.

Lemma populate_main_loop d fields cards :
  Fetch.sources_json d = Some (FJson (JObj fields)) ->
  dict_get fields "cards" (JList []) = JList cards ->
  Populate.main query d =
  match Populate.run_cards query cards populate_start with
  | (st, Some exc) => (d, Populate.printed st, Populate.Crash exc)
  | (st, None) =>
      ({| Fetch.sources_json :=
            Some (FJson (if has_key fields "cards"
                         then JObj (Populate.dict_set fields "cards"
                                      (JList (Populate.done st)))
                         else JObj fields));
          Fetch.source_files := Fetch.source_files d |},
       Populate.printed st
         ++ Populate.Updated
         :: (if Populate.failures st =? 0 then [Populate.Completed]
             else [Populate.CompletedWith (Populate.failures st)]),
       Populate.Exit (if Populate.failures st =? 0 then 0 else 1))
  end.
Proof. intros M C. unfold Populate.main. now rewrite M, C. Qed.

Lemma populate_main_exit d d' out code :
  Populate.main query d = (d', out, Populate.Exit code) ->
  exists fields cards st,
    Fetch.sources_json d = Some (FJson (JObj fields)) /\
    dict_get fields "cards" (JList []) = JList cards /\
    Populate.run_cards query cards populate_start = (st, None).
Proof.
  unfold Populate.main.
  destruct (Fetch.sources_json d) as [[[| | | | | |fields]| |]|] eqn:M;
    try discriminate.
  destruct (dict_get fields "cards" (JList [])) as [| | | | |cards|] eqn:C;
    try discriminate.
  fold populate_start.
  destruct (Populate.run_cards query cards populate_start) as [st [exc|]] eqn:R;
    [discriminate|].
  intros _. exists fields, cards, st. auto.
Qed.

(** X15: populate's main never touches the source images.  When the run
    reaches its end and returns an exit code, the manifest it has written
    has the same top-level keys and values but for the cards; the cards are
    as many as before and in the same order, each with every key but "url"
    unchanged; a card with a blank slug is left as it is, and every other
    card has a "url" which, when it is text, does not contain
    "/revision/". *)
Theorem populate_rewrites_manifest (d d' : Fetch.Disk)
    (out : list Populate.event) (e : Populate.ended) :
  Populate.main query d = (d', out, e) ->
  Fetch.source_files d' = Fetch.source_files d /\
  forall code, e = Populate.Exit code ->
    exists fields cards fields' cards',
      Fetch.sources_json d = Some (FJson (JObj fields)) /\
      dict_get fields "cards" (JList []) = JList cards /\
      Fetch.sources_json d' = Some (FJson (JObj fields')) /\
      dict_get fields' "cards" (JList []) = JList cards' /\
      Forall2 card_updated cards cards' /\
      (forall k default, k <> "cards" ->
         dict_get fields' k default = dict_get fields k default) /\
      (forall k, has_key fields' k = has_key fields k).
Proof.
  intros M.
  assert (Hfiles : Fetch.source_files d' = Fetch.source_files d).
  { revert M. unfold Populate.main.
    destruct (Fetch.sources_json d) as [[[| | | | | |fields]| |]|];
      try (intros [= <- _ _]; reflexivity).
    destruct (dict_get fields "cards" (JList [])) as [| | | | |cards|];
      try (intros [= <- _ _]; reflexivity).
    destruct (Populate.run_cards query cards _) as [st [exc|]];
      intros [= <- _ _]; reflexivity. }
  split; [exact Hfiles|]. intros code ->.
  destruct (populate_main_exit _ _ _ _ M) as (fields & cards & st & Hm & Hc & R).
  rewrite (populate_main_loop _ _ _ Hm Hc), R in M. injection M as <- <- <-.
  destruct (populate_loop query _ _ _ R) as (cards' & evs & D & U & _).
  cbn in D. rewrite <- D in U. clear D.
  destruct (has_key fields "cards") eqn:K.
  - exists fields, cards, (Populate.dict_set fields "cards" (JList (Populate.done st))),
           (Populate.done st).
    cbn. rewrite dict_set_get. repeat split; auto.
    + intros k default Hk. now apply dict_set_get_other.
    + intros k. destruct (String.eqb_spec k "cards") as [->|N].
      * now rewrite dict_set_has_key, K.
      * now apply dict_set_has_key_other.
  - exists fields, cards, fields, (Populate.done st). cbn.
    rewrite dict_get_missing in Hc by exact K. injection Hc as <-.
    inversion U; subst.
    rewrite dict_get_missing by exact K. repeat split; auto.
Qed.

(** X16: a run of populate's main that returns has exit code 0 or 1, and 0
    exactly when nothing failed: the failures are the cards with a blank
    slug plus the "missing title" and "failed" lines printed, and the last
    line says "Completed successfully." when there is none, "Completed with
    n failures." with their number otherwise. *)
Theorem populate_exit_code (d d' : Fetch.Disk) (out : list Populate.event)
    (code : Z) :
  Populate.main query d = (d', out, Populate.Exit code) ->
  exists fields cards failures,
    Fetch.sources_json d = Some (FJson (JObj fields)) /\
    dict_get fields "cards" (JList []) = JList cards /\
    failures = Z.of_nat (length (List.filter blank_slug cards))
               + Z.of_nat (length (List.filter is_card_failure out)) /\
    (code = 0 \/ code = 1) /\ (code = 0 <-> failures = 0) /\
    last out = Some (if failures =? 0 then Populate.Completed
                     else Populate.CompletedWith failures).
Proof.
  intros M.
  destruct (populate_main_exit _ _ _ _ M) as (fields & cards & st & Hm & Hc & R).
  rewrite (populate_main_loop _ _ _ Hm Hc), R in M. injection M as <- <- <-.
  destruct (populate_loop query _ _ _ R) as (cards' & evs & _ & _ & P & F & _).
  cbn in P, F.
  exists fields, cards, (Populate.failures st).
  split; [exact Hm|]. split; [exact Hc|].
  assert (Hf : List.filter is_card_failure
                 (Populate.printed st ++ Populate.Updated
                    :: (if Populate.failures st =? 0 then [Populate.Completed]
                        else [Populate.CompletedWith (Populate.failures st)]))
               = List.filter is_card_failure evs).
  { rewrite List.filter_app, P. cbn.
    destruct (Populate.failures st =? 0); cbn; apply app_nil_r. }
  rewrite Hf. split; [lia|].
  destruct (Z.eqb_spec (Populate.failures st) 0) as [E|E].
  - split; [left; reflexivity|]. split; [tauto|].
    change (Populate.printed st ++ [Populate.Updated; Populate.Completed])
      with (Populate.printed st ++ [Populate.Updated] ++ [Populate.Completed]).
    rewrite app_assoc. apply last_snoc.
  - split; [right; reflexivity|]. split; [split; [lia|contradiction]|].
    change (Populate.printed st
              ++ [Populate.Updated; Populate.CompletedWith (Populate.failures st)])
      with (Populate.printed st ++ [Populate.Updated]
              ++ [Populate.CompletedWith (Populate.failures st)]).
    rewrite app_assoc. apply last_snoc.
Qed.

End PopulateMain.

Lemma populate_rewrites_manifest_witness :
  exists d' out e,
    Populate.main sample_wiki sample_sources = (d', out, e) /\
    Fetch.source_files d' = Fetch.source_files sample_sources /\
    e = Populate.Exit 1.
Proof.
  destruct (Populate.main sample_wiki sample_sources) as [[d' out] e] eqn:M.
  destruct (populate_rewrites_manifest sample_wiki sample_sources d' out e M)
    as [Hfiles _].
  exists d', out, e. split; [reflexivity|]. split; [exact Hfiles|].
  change e with (snd (d', out, e)). rewrite <- M. vm_compute. reflexivity.
Defined.

Lemma populate_exit_code_witness :
  exists d' out failures,
    Populate.main sample_wiki sample_sources = (d', out, Populate.Exit 1) /\
    last out = Some (if failures =? 0 then Populate.Completed
                     else Populate.CompletedWith failures) /\
    failures <> 0.
Proof.
  destruct (Populate.main sample_wiki sample_sources) as [[d' out] e] eqn:M.
  assert (He : e = Populate.Exit 1)
    by (change e with (snd (d', out, e)); rewrite <- M; vm_compute; reflexivity).
  subst e.
  destruct (populate_exit_code sample_wiki sample_sources d' out 1 M)
    as (fields & cards & failures & _ & _ & _ & _ & Hz & Hl).
  exists d', out, failures. split; [reflexivity|]. split; [exact Hl|].
  intros E. apply Hz in E. discriminate.
Defined.

(** ** populate_sources_wookieepedia: fetch_image_url *)

Lemma first_source_skips before rest :
  Forall no_image before ->
  Populate.first_source (before ++ rest) = Populate.first_source rest.
Proof.
  induction 1 as [|[key page] before (source & Hs & Ht) _ IH]; [reflexivity|].
  cbn [app Populate.first_source]. unfold page_source in Hs. cbn [snd] in Hs.
  destruct (Populate.get page "original" (JObj [])) as [original|]; [|discriminate].
  rewrite Hs, Ht. exact IH.
Qed.

Section FetchImageUrl.

Variable query : nat -> string -> sum json Populate.exn.

(** X17: fetch_image_url goes through the pages of the answer in order and
    returns the source of the first page that has one, cut at the first
    "/revision/"; the pages before it, which have none, are passed over.
    When no page has an image it raises RuntimeError. *)
Theorem fetch_image_url_first_page (n : nat) (title : string)
    (payload q : json) (pages : list (string * json)) :
  query n title = inl payload ->
  Populate.get payload "query" (JObj []) = inl q ->
  Populate.get q "pages" (JObj []) = inl (JObj pages) ->
  (forall before key page after s,
     pages = before ++ (key, page) :: after ->
     Forall no_image before ->
     page_source page = inl (JStr s) -> s <> "" ->
     Populate.fetch_image_url query n title
       = inl (JStr (canonicalize_image_url s))) /\
  (Forall no_image pages ->
   Populate.fetch_image_url query n title = inr Populate.RuntimeError).
Proof.
  intros Hq Hg Hp. unfold Populate.fetch_image_url. rewrite Hq, Hg, Hp. split.
  - intros before key page after s -> Hbefore Hs Hne.
    rewrite first_source_skips by exact Hbefore.
    cbn [Populate.first_source]. unfold page_source in Hs.
    destruct (Populate.get page "original" (JObj [])) as [original|]; [|discriminate].
    rewrite Hs. cbn. destruct (String.eqb_spec s ""); [contradiction|reflexivity].
  - intros Hnone. rewrite <- (app_nil_r pages).
    rewrite first_source_skips by exact Hnone. reflexivity.
Qed.

End FetchImageUrl.

Lemma fetch_image_url_first_page_witness :
  sample_wiki 0 "Luke Skywalker"
    = inl (JObj [("query",
          JObj [("pages",
            JObj [("12", JObj [("title", JStr "Luke Skywalker")]);
                  ("34", JObj [("original",
                     JObj [("source",
                       JStr "https://static.example/luke.png/revision/latest?cb=1")])])])])]) /\
  Populate.fetch_image_url sample_wiki 0 "Luke Skywalker"
    = inl (JStr (canonicalize_image_url
                   "https://static.example/luke.png/revision/latest?cb=1")).
Proof.
  split; [reflexivity|].
  destruct (fetch_image_url_first_page sample_wiki 0 "Luke Skywalker" _ _ _
              eq_refl eq_refl eq_refl) as [Hfirst _].
  apply (Hfirst [("12", JObj [("title", JStr "Luke Skywalker")])] "34"
           (JObj [("original",
              JObj [("source",
                JStr "https://static.example/luke.png/revision/latest?cb=1")])])
           []).
  - reflexivity.
  - repeat constructor. exists JNull. split; reflexivity.
  - reflexivity.
  - discriminate.
Defined.
